(** * OpenMRP: the MRP explosion engine of [backend/routers/mrp.py]

    A shallow embedding of the request handlers [create_mrp_run],
    [read_mrp_results], [read_mrp_runs], [read_mrp_run] and
    [delete_mrp_run] with their helpers [calculate_release_date] and
    [process_bom_components], over the SQLAlchemy models of
    [backend/models].

    Conventions of the embedding:
    - a table is the list of its rows in the order in which the engine
      answers the queries of this router on it, none of which carries an
      [ORDER BY]; [.first()] is the first matching row and [.all()] all
      matching rows in that order. The MRP tables, the only ones written
      here, are answered by ascending key, so that a flushed row comes
      last; for the other tables no order is assumed: where several rows
      match, the first of the list stands for the one the engine answers
      first;
    - [Float] columns and Python floats are exact rationals ([Q]), and every
      [Float] column holds a number, as the creation schemas make it: the
      figures are those of the code up to the rounding of binary floating
      point, and infinities and NaN are left out;
    - [Integer] keys are [nat]; a nullable key is an [option nat]; a new row
      gets the key after the greatest one of its table;
    - a [datetime] is a number of microseconds ([Z]) counted from
      [datetime.min]; a [timedelta] built from a number of days is rounded
      to the microsecond, half to even; a [timedelta] or a date that falls
      outside the range of its type raises [OverflowError], as the
      constructors of Python's [datetime] module do;
    - the handlers run in a monad that threads the ORM session and may
      raise; the session keeps the committed database next to the flushed
      but uncommitted one, so that a handler that raises before
      [db.commit()] visibly leaves the committed database alone;
    - Python's bound on the depth of the stack shows as the
      [recursion_limit] argument of the recursive helper: the number of
      nested calls of the helper that fit on the stack, which is not the
      argument of [sys.setrecursionlimit], since the interpreter counts the
      frames of the handler and of the library as well. Running out of it
      raises [RecursionError]; the properties below hold whatever the
      bound is, or for every bound that is large enough;
    - the self-reference [MRPItem.parent] is read with the key column of
      [MRPItem] as its remote side, which [models/production.py] names
      [id];
    - the engine behind the session is taken to be SQLite with its
      defaults ([database.py] is not among the sources): foreign keys are
      not enforced, and [LIMIT] and [OFFSET] take negative numbers. *)

From Stdlib Require Import List ZArith QArith Qminmax Qround Bool Arith Lia Lqa.
From Stdlib Require Import String DecimalString Relation_Operators Sorted.
From stdpp Require Import gmap.
Import ListNotations.

Local Close Scope Q_scope.
Local Open Scope nat_scope.

(** ** Python primitives *)

(** [a < b] on floats. *)
Definition Qltb (a b : Q) : bool :=
  match (a ?= b)%Q with Lt => true | _ => false end.

(** [max(a, b)]: the first argument is kept unless the second is strictly
    greater. *)
Definition py_max (a b : Q) : Q :=
  match (a ?= b)%Q with Lt => b | _ => a end.

(** Truth value of a float: anything but zero. *)
Definition truthy (x : Q) : bool := negb (Qeq_bool x 0).

(** [str(n)] for a non-negative integer. *)
Definition str (n : nat) : string := NilEmpty.string_of_uint (Nat.to_uint n).

Inductive PyExc :=
| HTTPException (status_code : nat) (detail : string)
| RecursionError
| OverflowError.

Inductive Result (A : Type) :=
| Ok (a : A)
| Raise (e : PyExc).
Arguments Ok {A} a.
Arguments Raise {A} e.

(** A [datetime] counts the microseconds since [datetime.min], the first
    instant of year 1; [datetime.max] is the last microsecond of year
    9999. *)
Definition datetime := Z.
Bind Scope Z_scope with datetime.

Definition datetime_max : datetime := 3652059 * 86400000000 - 1.

Definition round_half_even (x : Q) : Z :=
  let fl := Qfloor x in
  match ((x - inject_Z fl) ?= (1 # 2))%Q with
  | Lt => fl
  | Gt => (fl + 1)%Z
  | Eq => if Z.even fl then fl else (fl + 1)%Z
  end.

(** The microseconds of [d] days, rounded to the microsecond. *)
Definition timedelta_days (d : Q) : Z :=
  round_half_even (d * inject_Z 86400000000)%Q.

(** [timedelta(days=d)], in microseconds: the constructor raises when the
    whole days of the result, rounded down, exceed 999999999 in
    magnitude. *)
Definition timedelta (days : Q) : Result Z :=
  let delta := timedelta_days days in
  let whole_days := (delta / 86400000000)%Z in
  if ((-999999999 <=? whole_days) && (whole_days <=? 999999999))%Z
  then Ok delta
  else Raise OverflowError.

(** [d - delta] for a [datetime] and a [timedelta]: the difference has to
    be a date of the calendar. *)
Definition datetime_sub (d : datetime) (delta : Z) : Result datetime :=
  let difference := (d - delta)%Z in
  if ((0 <=? difference) && (difference <=? datetime_max))%Z
  then Ok difference
  else Raise OverflowError.

(** ** The models ([backend/models]) *)

Module InventoryItem.
Record t := {
    id : nat;
    item_code : string;
    name : string;
    unit_cost : Q;
    quantity_on_hand : Q;
    reorder_point : Q;
    category_id : option nat
  }.

  (** The attributes an instance carries: the mapped columns of the class
      and of [BaseModel], and the [category] relationship. *)
Definition attributes : list string :=
    ["id"; "created_at"; "updated_at"; "item_code"; "name"; "description";
     "uom"; "unit_cost"; "quantity_on_hand"; "reorder_point"; "category_id";
     "category"]%string.

  (** The value of a [Float] attribute, by name. *)
Definition float_attribute (i : t) (attr : string) : option Q :=
    if String.eqb attr "unit_cost" then Some (unit_cost i)
    else if String.eqb attr "quantity_on_hand" then Some (quantity_on_hand i)
    else if String.eqb attr "reorder_point" then Some (reorder_point i)
    else None.
End InventoryItem.

Module BOM.
Record t := {
    id : nat;
    name : string;
    product_id : nat;
    version : string;
    is_active : bool
  }.
End BOM.

Module BOMComponent.
Record t := {
    id : nat;
    bom_id : nat;
    component_id : nat;
    quantity : Q;
    uom : string;
    position : nat
  }.
End BOMComponent.

Module MPS.
Record t := {
    id : nat;
    name : string;
    start_date : datetime;
    end_date : datetime;
    is_active : bool;
    is_locked : bool
  }.
End MPS.

Module MPSItem.
Record t := {
    id : nat;
    mps_id : nat;
    product_id : nat;
    planned_date : datetime;
    quantity : Q
  }.
End MPSItem.

Module MRPRun.
Record t := {
    id : nat;
    name : string;
    description : option string;
    run_date : datetime;
    mps_id : nat;
    lead_time_factor : Q;
    include_safety_stock : bool
  }.
End MRPRun.

Module MRPItem.
Record t := {
    id : nat;
    mrp_run_id : nat;
    mps_item_id : option nat;
    item_id : nat;
    bom_id : option nat;
    required_date : datetime;
    gross_requirement : Q;
    projected_on_hand : Q;
    net_requirement : Q;
    planned_order_release : Q;
    planned_order_receipt : Q;
    order_release_date : option datetime;
    is_critical : bool;
    parent_id : option nat
  }.
End MRPItem.

(** ** The schemas of the MRP endpoints ([backend/schemas/production.py]) *)

Module MRPRunCreate.
Record t := {
    name : string;
    description : option string;
    mps_id : nat;
    lead_time_factor : Q;
    include_safety_stock : bool
  }.
End MRPRunCreate.

Module MRPRunResultItem.
Record t := {
    id : nat;
    item_id : nat;
    item_code : string;
    item_name : string;
    required_date : datetime;
    gross_requirement : Q;
    projected_on_hand : Q;
    net_requirement : Q;
    planned_order_release : Q;
    planned_order_receipt : Q;
    order_release_date : option datetime;
    is_critical : bool;
    parent_id : option nat;
    level : nat;
    has_children : bool
  }.
End MRPRunResultItem.

Module MRPRunResult.
Record t := {
    id : nat;
    name : string;
    run_date : datetime;
    mps_id : nat;
    lead_time_factor : Q;
    include_safety_stock : bool;
    items : list MRPRunResultItem.t
  }.
End MRPRunResult.

(** ** The database and the ORM session *)

(** One field per table, named as [BaseModel.__tablename__] names it. *)
Module DB.
Record t := {
  inventoryitem : list InventoryItem.t;
  bom : list BOM.t;
  bomcomponent : list BOMComponent.t;
  mps : list MPS.t;
  mpsitem : list MPSItem.t;
  mrprun : list MRPRun.t;
  mrpitem : list MRPItem.t
}.

Definition with_mrprun (db : t) (rows : list MRPRun.t) : t :=
  {| inventoryitem := inventoryitem db; bom := bom db;
     bomcomponent := bomcomponent db; mps := mps db; mpsitem := mpsitem db;
     mrprun := rows; mrpitem := mrpitem db |}.

Definition with_mrpitem (db : t) (rows : list MRPItem.t) : t :=
  {| inventoryitem := inventoryitem db; bom := bom db;
     bomcomponent := bomcomponent db; mps := mps db; mpsitem := mpsitem db;
     mrprun := mrprun db; mrpitem := rows |}.
End DB.

(** The session of one request: what is committed, and what the session
    sees (the committed rows and those it has flushed). *)
Record Session := { committed : DB.t; pending : DB.t }.

(** Modelled from the spec: [database.py], which defines the session
    factory [get_db], is not among the sources. The spec makes the commit
    of a run the single transactional boundary (all inserts of the run and
    its header become visible together or not at all): a request starts
    on a fresh session that sees the committed database, and only
    [db.commit()] persists what the session has flushed. *)
Definition get_db (db : DB.t) : Session := {| committed := db; pending := db |}.

Definition M (A : Type) : Type := Session -> Result A * Session.

Definition ret {A} (a : A) : M A := fun s => (Ok a, s).

Definition bind {A B} (m : M A) (k : A -> M B) : M B :=
  fun s => match m s with
           | (Ok a, s') => k a s'
           | (Raise e, s') => (Raise e, s')
           end.

Definition raise {A} (e : PyExc) : M A := fun s => (Raise e, s).

(** A computation that leaves the session alone. *)
Definition lift {A} (r : Result A) : M A := fun s => (r, s).

Declare Scope py_scope.
Delimit Scope py_scope with py.
Notation "x <- m ;; k" := (bind m (fun x => k))
  (at level 100, m at next level, right associativity) : py_scope.
Notation "m ;; k" := (bind m (fun _ => k))
  (at level 100, right associativity) : py_scope.
Local Open Scope py_scope.

(** [for x in l: body(x)] *)
Fixpoint for_each {A} (l : list A) (body : A -> M unit) : M unit :=
  match l with
  | [] => ret tt
  | x :: l' => body x ;; for_each l' body
  end.

(** [db.query(T).filter(p).first()] and [.all()]: the first matching row,
    and all matching rows, in the order in which the engine answers. *)
Definition query_first {A} (table : DB.t -> list A) (p : A -> bool) : M (option A) :=
  fun s => (Ok (List.find p (table (pending s))), s).

Definition query_all {A} (table : DB.t -> list A) (p : A -> bool) : M (list A) :=
  fun s => (Ok (List.filter p (table (pending s))), s).

(** The key an [INTEGER PRIMARY KEY] column gives the next row. *)
Definition next_id (ids : list nat) : nat := S (List.list_max ids).

(** [db.add(row); db.flush()]: the row gets its key and is visible to the
    session, nothing is committed. *)
Definition add_mrprun (row : nat -> MRPRun.t) : M MRPRun.t :=
  fun s =>
    let db := pending s in
    let r := row (next_id (List.map MRPRun.id (DB.mrprun db))) in
    (Ok r, {| committed := committed s;
              pending := DB.with_mrprun db (DB.mrprun db ++ [r]) |}).

Definition add_mrpitem (row : nat -> MRPItem.t) : M MRPItem.t :=
  fun s =>
    let db := pending s in
    let r := row (next_id (List.map MRPItem.id (DB.mrpitem db))) in
    (Ok r, {| committed := committed s;
              pending := DB.with_mrpitem db (DB.mrpitem db ++ [r]) |}).

(** [db.commit()] *)
Definition commit : M unit :=
  fun s => (Ok tt, {| committed := pending s; pending := pending s |}).

(** ** Helper functions for MRP calculations *)

Definition hasattr (item : option InventoryItem.t) (attr : string) : bool :=
  match item with
  | Some _ => existsb (String.eqb attr) InventoryItem.attributes
  | None => false
  end.

Definition calculate_release_date
  (required_date : datetime) (item : option InventoryItem.t)
  (lead_time_factor : Q) : Result datetime :=
  let lead_time_days := 1%Q in
  let lead_time_days :=
    match item with
    | Some i =>
        if hasattr item "lead_time" then
          match InventoryItem.float_attribute i "lead_time" with
          | Some lead_time => if truthy lead_time then lead_time else lead_time_days
          | None => lead_time_days
          end
        else lead_time_days
    | None => lead_time_days
    end in
  let adjusted_lead_time := (lead_time_days * lead_time_factor)%Q in
  match timedelta adjusted_lead_time with
  | Ok delta => datetime_sub required_date delta
  | Raise e => Raise e
  end.

(** The [MRPItemModel(...)] built for a BOM component, ahead of its key;
    [order_release_date] is what [calculate_release_date] has returned. *)
Definition component_mrp_item
  (mrp_run_id : nat) (component : BOMComponent.t) (item : InventoryItem.t)
  (component_bom : option BOM.t) (parent_id : nat) (required_date : datetime)
  (parent_quantity : Q) (order_release_date : datetime)
  (include_safety_stock : bool) (id : nat) : MRPItem.t :=
  let gross_req := (parent_quantity * BOMComponent.quantity component)%Q in
  let safety_stock :=
    if include_safety_stock && truthy (InventoryItem.reorder_point item)
    then InventoryItem.reorder_point item else 0%Q in
  let projected_on_hand := InventoryItem.quantity_on_hand item in
  let net_req := py_max 0 (gross_req + safety_stock - projected_on_hand)%Q in
  {| MRPItem.id := id;
     MRPItem.mrp_run_id := mrp_run_id;
     MRPItem.mps_item_id := None;
     MRPItem.item_id := BOMComponent.component_id component;
     MRPItem.bom_id := option_map BOM.id component_bom;
     MRPItem.required_date := required_date;
     MRPItem.gross_requirement := gross_req;
     MRPItem.projected_on_hand := projected_on_hand;
     MRPItem.net_requirement := net_req;
     MRPItem.planned_order_release := net_req;
     MRPItem.planned_order_receipt := net_req;
     MRPItem.order_release_date := Some order_release_date;
     MRPItem.is_critical := Qltb 0 net_req && Qltb projected_on_hand gross_req;
     MRPItem.parent_id := Some parent_id |}.

Definition item_by_id (key : nat) (i : InventoryItem.t) : bool :=
  InventoryItem.id i =? key.

Definition active_bom_of (product : nat) (b : BOM.t) : bool :=
  (BOM.product_id b =? product) && BOM.is_active b.

(** [recursion_limit] is the room the stack has left for nested calls of
    the helper. *)
Fixpoint process_bom_components
  (recursion_limit : nat) (bom : BOM.t) (parent_mrp_item : MRPItem.t)
  (mrp_run_id : nat) (required_date : datetime) (parent_quantity : Q)
  (lead_time_factor : Q) (include_safety_stock : bool) : M unit :=
  match recursion_limit with
  | O => raise RecursionError
  | S limit =>
      components <- query_all DB.bomcomponent
                      (fun c => BOMComponent.bom_id c =? BOM.id bom) ;;
      for_each components (fun component =>
        item <- query_first DB.inventoryitem
                  (item_by_id (BOMComponent.component_id component)) ;;
        match item with
        | None => ret tt
        | Some item =>
            component_bom <- query_first DB.bom
                  (active_bom_of (BOMComponent.component_id component)) ;;
            order_release_date <- lift
                  (calculate_release_date required_date (Some item)
                     lead_time_factor) ;;
            component_mrp_item <- add_mrpitem
                  (component_mrp_item mrp_run_id component item component_bom
                     (MRPItem.id parent_mrp_item) required_date parent_quantity
                     order_release_date include_safety_stock) ;;
            match component_bom with
            | Some component_bom =>
                process_bom_components limit component_bom component_mrp_item
                  mrp_run_id required_date
                  (MRPItem.planned_order_release component_mrp_item)
                  lead_time_factor include_safety_stock
            | None => ret tt
            end
        end)
  end.

(** The body of [for component in components] in
    [process_bom_components], under its own name; [limit] bounds the nested
    call. *)
Definition explode_component
  (limit : nat) (parent_mrp_item : MRPItem.t) (mrp_run_id : nat)
  (required_date : datetime) (parent_quantity lead_time_factor : Q)
  (include_safety_stock : bool) (component : BOMComponent.t) : M unit :=
  item <- query_first DB.inventoryitem
            (item_by_id (BOMComponent.component_id component)) ;;
  match item with
  | None => ret tt
  | Some item =>
      component_bom <- query_first DB.bom
            (active_bom_of (BOMComponent.component_id component)) ;;
      order_release_date <- lift
            (calculate_release_date required_date (Some item)
               lead_time_factor) ;;
      component_mrp_item <- add_mrpitem
            (component_mrp_item mrp_run_id component item component_bom
               (MRPItem.id parent_mrp_item) required_date parent_quantity
               order_release_date include_safety_stock) ;;
      match component_bom with
      | Some component_bom =>
          process_bom_components limit component_bom component_mrp_item
            mrp_run_id required_date
            (MRPItem.planned_order_release component_mrp_item)
            lead_time_factor include_safety_stock
      | None => ret tt
      end
  end.

(** ** The endpoints *)

(** The [MRPItemModel(...)] built for a schedule line, ahead of its key;
    [order_release_date] is what [calculate_release_date] has returned. *)
Definition product_mrp_item
  (mrp_run_id : nat) (mps_item : MPSItem.t) (bom : BOM.t)
  (product : option InventoryItem.t) (order_release_date : datetime)
  (id : nat) : MRPItem.t :=
  let on_hand :=
    match product with
    | Some p => InventoryItem.quantity_on_hand p
    | None => 0%Q
    end in
  let net_req := py_max 0 (MPSItem.quantity mps_item - on_hand)%Q in
  {| MRPItem.id := id;
     MRPItem.mrp_run_id := mrp_run_id;
     MRPItem.mps_item_id := Some (MPSItem.id mps_item);
     MRPItem.item_id := MPSItem.product_id mps_item;
     MRPItem.bom_id := Some (BOM.id bom);
     MRPItem.required_date := MPSItem.planned_date mps_item;
     MRPItem.gross_requirement := MPSItem.quantity mps_item;
     MRPItem.projected_on_hand := on_hand;
     MRPItem.net_requirement := net_req;
     MRPItem.planned_order_release := net_req;
     MRPItem.planned_order_receipt := net_req;
     MRPItem.order_release_date := Some order_release_date;
     MRPItem.is_critical := Qltb on_hand (MPSItem.quantity mps_item);
     MRPItem.parent_id := None |}.

(** The body of [for mps_item in mps_items] in [create_mrp_run]. *)
Definition explode_mps_item
  (recursion_limit : nat) (mrp_run : MRPRunCreate.t) (db_mrp_run : MRPRun.t)
  (mps_item : MPSItem.t) : M unit :=
  bom <- query_first DB.bom (active_bom_of (MPSItem.product_id mps_item)) ;;
  match bom with
  | None => ret tt
  | Some bom =>
      product <- query_first DB.inventoryitem
                   (item_by_id (MPSItem.product_id mps_item)) ;;
      order_release_date <- lift
          (calculate_release_date (MPSItem.planned_date mps_item) product
             (MRPRunCreate.lead_time_factor mrp_run)) ;;
      product_mrp_item <- add_mrpitem
          (product_mrp_item (MRPRun.id db_mrp_run) mps_item bom product
             order_release_date) ;;
      process_bom_components recursion_limit bom product_mrp_item
        (MRPRun.id db_mrp_run) (MPSItem.planned_date mps_item)
        (MRPItem.planned_order_release product_mrp_item)
        (MRPRunCreate.lead_time_factor mrp_run)
        (MRPRunCreate.include_safety_stock mrp_run)
  end.

(** [POST /]: [utcnow] is the clock read for [run_date]. *)
Definition create_mrp_run
  (recursion_limit : nat) (utcnow : datetime) (mrp_run : MRPRunCreate.t)
  : M MRPRun.t :=
  mps <- query_first DB.mps
           (fun m => MPS.id m =? MRPRunCreate.mps_id mrp_run) ;;
  match mps with
  | None =>
      raise (HTTPException 404
               ("MPS with ID " ++ str (MRPRunCreate.mps_id mrp_run)
                  ++ " not found"))
  | Some mps =>
      db_mrp_run <- add_mrprun (fun id =>
          {| MRPRun.id := id;
             MRPRun.name := MRPRunCreate.name mrp_run;
             MRPRun.description := MRPRunCreate.description mrp_run;
             MRPRun.run_date := utcnow;
             MRPRun.mps_id := MRPRunCreate.mps_id mrp_run;
             MRPRun.lead_time_factor := MRPRunCreate.lead_time_factor mrp_run;
             MRPRun.include_safety_stock :=
               MRPRunCreate.include_safety_stock mrp_run |}) ;;
      mps_items <- query_all DB.mpsitem
                     (fun i => MPSItem.mps_id i =? MPS.id mps) ;;
      for_each mps_items
        (explode_mps_item recursion_limit mrp_run db_mrp_run) ;;
      commit ;;
      ret db_mrp_run
  end.

(** The joined query of [read_mrp_results]: the run's MRP items, each with
    the code and name of its inventory item. *)
Definition query_mrp_items_with_names (run_id : nat)
  : M (list (MRPItem.t * string * string)) :=
  fun s =>
    let db := pending s in
    (Ok (List.flat_map
           (fun m =>
              List.map
                (fun i => (m, InventoryItem.item_code i, InventoryItem.name i))
                (List.filter (item_by_id (MRPItem.item_id m))
                   (DB.inventoryitem db)))
           (List.filter (fun m => MRPItem.mrp_run_id m =? run_id)
              (DB.mrpitem db))), s).

(** One turn of [for item_data in mrp_items]: the state of the loop is
    [items_data] and the dict [items_by_parent]. *)
Definition hierarchy_step
  (acc : list MRPRunResultItem.t * gmap (option nat) (list nat))
  (item_data : MRPItem.t * string * string)
  : list MRPRunResultItem.t * gmap (option nat) (list nat) :=
  let '(items_data, items_by_parent) := acc in
  let '(mrp_item, item_code, item_name) := item_data in
  let parent_id := MRPItem.parent_id mrp_item in
  let items_by_parent :=
    match items_by_parent !! parent_id with
    | None => <[parent_id := []]> items_by_parent
    | Some _ => items_by_parent
    end in
  let items_by_parent :=
    alter (fun ids => ids ++ [MRPItem.id mrp_item]) parent_id items_by_parent in
  (items_data ++
     [ {| MRPRunResultItem.id := MRPItem.id mrp_item;
          MRPRunResultItem.item_id := MRPItem.item_id mrp_item;
          MRPRunResultItem.item_code := item_code;
          MRPRunResultItem.item_name := item_name;
          MRPRunResultItem.required_date := MRPItem.required_date mrp_item;
          MRPRunResultItem.gross_requirement :=
            MRPItem.gross_requirement mrp_item;
          MRPRunResultItem.projected_on_hand :=
            MRPItem.projected_on_hand mrp_item;
          MRPRunResultItem.net_requirement := MRPItem.net_requirement mrp_item;
          MRPRunResultItem.planned_order_release :=
            MRPItem.planned_order_release mrp_item;
          MRPRunResultItem.planned_order_receipt :=
            MRPItem.planned_order_receipt mrp_item;
          MRPRunResultItem.order_release_date :=
            MRPItem.order_release_date mrp_item;
          MRPRunResultItem.is_critical := MRPItem.is_critical mrp_item;
          MRPRunResultItem.parent_id := MRPItem.parent_id mrp_item;
          MRPRunResultItem.level := 0;
          MRPRunResultItem.has_children :=
            bool_decide
              (is_Some (items_by_parent !! Some (MRPItem.id mrp_item))) |} ],
   items_by_parent).

(** [GET /{run_id}/results] *)
Definition read_mrp_results (run_id : nat) : M MRPRunResult.t :=
  db_run <- query_first DB.mrprun (fun r => MRPRun.id r =? run_id) ;;
  match db_run with
  | None =>
      raise (HTTPException 404
               ("MRP run with ID " ++ str run_id ++ " not found"))
  | Some db_run =>
      mrp_items <- query_mrp_items_with_names run_id ;;
      let '(items_data, _) :=
        List.fold_left hierarchy_step mrp_items ([], ∅) in
      ret {| MRPRunResult.id := MRPRun.id db_run;
             MRPRunResult.name := MRPRun.name db_run;
             MRPRunResult.run_date := MRPRun.run_date db_run;
             MRPRunResult.mps_id := MRPRun.mps_id db_run;
             MRPRunResult.lead_time_factor := MRPRun.lead_time_factor db_run;
             MRPRunResult.include_safety_stock :=
               MRPRun.include_safety_stock db_run;
             MRPRunResult.items := items_data |}
  end.

(** * The vocabulary of the properties *)

(** ** Keys and sessions *)

Definition item_ids (rows : list MRPItem.t) : list nat :=
  List.map MRPItem.id rows.

(** The rows [new] carry the keys that follow those of [base]. *)
Definition keyed_after (base new : list MRPItem.t) : Prop :=
  item_ids new = seq (next_id (item_ids base)) (length new).

Definition add_items (s : Session) (new : list MRPItem.t) : Session :=
  {| committed := committed s;
     pending := DB.with_mrpitem (pending s) (DB.mrpitem (pending s) ++ new) |}.

Definition session_ids (s : Session) : list nat :=
  item_ids (DB.mrpitem (pending s)).

(** The tables the explosion reads and never writes. *)
Definition catalog (db : DB.t)
  : list InventoryItem.t * list BOM.t * list BOMComponent.t :=
  (DB.inventoryitem db, DB.bom db, DB.bomcomponent db).

(** The session after is the session before with rows appended. *)
Definition appended (s s' : Session) : Prop := exists new, s' = add_items s new.

(** The release date of a row required at [required_date] is off the
    calendar. *)
Definition off_calendar (required_date : datetime) (lead_time_factor : Q)
  : Prop :=
  calculate_release_date required_date None lead_time_factor
  = Raise OverflowError.

(** How an explosion for the date [required_date] ends: well, on the bound
    of the nested calls, or on a release date that is off the calendar. *)
Definition ends_or_overflows (required_date : datetime) (lead_time_factor : Q)
  (r : Result unit) : Prop :=
  r = Ok tt \/ r = Raise RecursionError \/
  (r = Raise OverflowError /\ off_calendar required_date lead_time_factor).

Definition appends_and_ends_or_overflows (required_date : datetime)
  (lead_time_factor : Q) (m : M unit) : Prop :=
  forall s r s',
    m s = (r, s') ->
    appended s s' /\ ends_or_overflows required_date lead_time_factor r.

(** ** The rows of an explosion *)

Section ExplosionRows.
Variables (run_id : nat) (required_date : datetime).
Variables (lead_time_factor : Q) (include_safety_stock : bool).
Variable db : DB.t.

(** [n] is the row the explosion builds for a component [c] of the BOM of
    a row [p] of [ctx], from the inventory item of [c]. *)
Definition component_node (ctx : list MRPItem.t) (n : MRPItem.t) : Prop :=
  exists p c item,
    In p ctx /\ MRPItem.id p < MRPItem.id n /\
    MRPItem.required_date p = required_date /\
    In c (DB.bomcomponent db) /\
    MRPItem.bom_id p = Some (BOMComponent.bom_id c) /\
    List.find (item_by_id (BOMComponent.component_id c)) (DB.inventoryitem db)
      = Some item /\
    exists release,
      calculate_release_date required_date (Some item) lead_time_factor
        = Ok release /\
      n = component_mrp_item run_id c item
            (List.find (active_bom_of (BOMComponent.component_id c)) (DB.bom db))
            (MRPItem.id p) required_date (MRPItem.planned_order_release p)
            release include_safety_stock (MRPItem.id n).

(** What exploding below [parent] does to the session: it appends rows,
    keyed in sequence, each built from a component below [parent] or below
    an appended row. *)
Definition grown (parent : MRPItem.t) (s s' : Session) : Prop :=
  exists new,
    s' = add_items s new /\
    keyed_after (DB.mrpitem (pending s)) new /\
    Forall (component_node (parent :: new)) new.

(** What the loops of the explosion keep true of the session. *)
Definition below (parent : MRPItem.t) (s : Session) : Prop :=
  MRPItem.id parent < next_id (session_ids s) /\
  catalog (pending s) = catalog db.

End ExplosionRows.

(** ** The BOM graph *)

Section BomGraph.
Variable db : DB.t.

(** Exploding BOM [i] reaches a component whose item exists and whose
    active BOM is [j]: the explosion nests a call on [j]. *)
Definition expands (i j : nat) : Prop :=
  exists c item b,
    In c (DB.bomcomponent db) /\ BOMComponent.bom_id c = i /\
    List.find (item_by_id (BOMComponent.component_id c)) (DB.inventoryitem db)
      = Some item /\
    List.find (active_bom_of (BOMComponent.component_id c)) (DB.bom db)
      = Some b /\
    BOM.id b = j.

(** A chain of [n] nested calls starts at BOM [i]. *)
Fixpoint nests (n : nat) (i : nat) : Prop :=
  match n with
  | O => True
  | S n' => exists j, expands i j /\ nests n' j
  end.

(** Every chain of nested calls from BOM [i] is shorter than [n]. *)
Fixpoint shallow (n : nat) (i : nat) : Prop :=
  match n with
  | O => False
  | S n' => forall j, expands i j -> shallow n' j
  end.

Definition on_catalog (s : Session) : Prop := catalog (pending s) = catalog db.

End BomGraph.

(** The BOM graph below BOM [i] has a cycle: the nested calls from [i]
    reach a BOM [j] from which they reach [j] again. *)
Definition cyclic (db : DB.t) (i : nat) : Prop :=
  exists j,
    clos_refl_trans nat (expands db) i j /\ clos_trans nat (expands db) j j.

(** ** The rows of a run *)

Definition is_top_level (n : MRPItem.t) : bool :=
  match MRPItem.parent_id n with None => true | Some _ => false end.

Definition has_active_bom (db : DB.t) (line : MPSItem.t) : bool :=
  match List.find (active_bom_of (MPSItem.product_id line)) (DB.bom db) with
  | Some _ => true
  | None => false
  end.

(** The release date of the row of one of the schedule lines [lines] is
    off the calendar. *)
Definition line_off_calendar (db : DB.t) (lines : list MPSItem.t)
  (lead_time_factor : Q) : Prop :=
  exists line,
    In line lines /\ has_active_bom db line = true /\
    off_calendar (MPSItem.planned_date line) lead_time_factor.

(** The release dates of the rows of the schedule lines [lines] are all
    on the calendar. *)
Definition on_calendar (db : DB.t) (lines : list MPSItem.t)
  (lead_time_factor : Q) : Prop :=
  forall line,
    In line lines -> has_active_bom db line = true ->
    exists release,
      calculate_release_date (MPSItem.planned_date line) None lead_time_factor
      = Ok release.

(** How the loop over the schedule lines ends. *)
Definition run_ends_or_overflows (db : DB.t) (lines : list MPSItem.t)
  (lead_time_factor : Q) (r : Result unit) : Prop :=
  r = Ok tt \/ r = Raise RecursionError \/
  (r = Raise OverflowError /\ line_off_calendar db lines lead_time_factor).

(** [mps.schedule_items] of the MPS with key [mps_id]. *)
Definition schedule_items (db : DB.t) (mps_id : nat) : list MPSItem.t :=
  List.filter (fun i => MPSItem.mps_id i =? mps_id) (DB.mpsitem db).

Definition find_mps (db : DB.t) (mps_id : nat) : option MPS.t :=
  List.find (fun m => MPS.id m =? mps_id) (DB.mps db).

(** The run header [create_mrp_run] flushes. *)
Definition new_run (db : DB.t) (utcnow : datetime) (mrp_run : MRPRunCreate.t)
  : MRPRun.t :=
  {| MRPRun.id := next_id (List.map MRPRun.id (DB.mrprun db));
     MRPRun.name := MRPRunCreate.name mrp_run;
     MRPRun.description := MRPRunCreate.description mrp_run;
     MRPRun.run_date := utcnow;
     MRPRun.mps_id := MRPRunCreate.mps_id mrp_run;
     MRPRun.lead_time_factor := MRPRunCreate.lead_time_factor mrp_run;
     MRPRun.include_safety_stock := MRPRunCreate.include_safety_stock mrp_run |}.

(** The MRP items the handler has committed on top of those the session
    started with. *)
Definition created_nodes (s s' : Session) : list MRPItem.t :=
  List.skipn (length (DB.mrpitem (pending s))) (DB.mrpitem (committed s')).

Section RunRows.
Variables (db : DB.t) (run_id : nat).
Variables (lead_time_factor : Q) (include_safety_stock : bool).

(** [n] is the row built for a line of [lines] whose product has an active
    BOM. *)
Definition product_node (lines : list MPSItem.t) (n : MRPItem.t) : Prop :=
  exists line bom,
    In line lines /\
    List.find (active_bom_of (MPSItem.product_id line)) (DB.bom db) = Some bom /\
    exists release,
      calculate_release_date (MPSItem.planned_date line)
        (List.find (item_by_id (MPSItem.product_id line)) (DB.inventoryitem db))
        lead_time_factor = Ok release /\
      n = product_mrp_item run_id line bom
            (List.find (item_by_id (MPSItem.product_id line))
               (DB.inventoryitem db))
            release (MRPItem.id n).

Definition run_node (lines : list MPSItem.t) (all : list MRPItem.t)
  (n : MRPItem.t) : Prop :=
  product_node lines n \/
  exists required_date,
    component_node run_id required_date lead_time_factor include_safety_stock
      db all n.

End RunRows.

(** The rows a request must create on the database [db]. *)
Definition run_nodes (db : DB.t) (mrp_run : MRPRunCreate.t) (run : MRPRun.t)
  (new : list MRPItem.t) : Prop :=
  Forall (run_node db (MRPRun.id run) (MRPRunCreate.lead_time_factor mrp_run)
            (MRPRunCreate.include_safety_stock mrp_run)
            (schedule_items db (MRPRunCreate.mps_id mrp_run)) new) new.

(** The safety stock of the netting formula: the reorder point of the
    row's item when the request sets the flag. *)
Definition safety_stock (db : DB.t) (mrp_run : MRPRunCreate.t) (n : MRPItem.t)
  : Q :=
  if MRPRunCreate.include_safety_stock mrp_run then
    match List.find (item_by_id (MRPItem.item_id n)) (DB.inventoryitem db) with
    | Some item => InventoryItem.reorder_point item
    | None => 0%Q
    end
  else 0%Q.

(** The safety stock the code nets with: none for a top-level row. *)
Definition applied_safety_stock (db : DB.t) (mrp_run : MRPRunCreate.t)
  (n : MRPItem.t) : Q :=
  if is_top_level n then 0%Q else safety_stock db mrp_run n.

(** [net = max(0, gross + ss - projected_on_hand)] *)
Definition netted_with (ss : Q) (n : MRPItem.t) : Prop :=
  (MRPItem.net_requirement n ==
   Qmax 0 (MRPItem.gross_requirement n + ss - MRPItem.projected_on_hand n))%Q.

(** The row a [parent_id] names. *)
Definition mrp_item_by_id (rows : list MRPItem.t) (key : nat)
  : option MRPItem.t :=
  List.find (fun x => MRPItem.id x =? key) rows.

(** The top-level row a row hangs from, through the [parent_id] links. *)
Inductive root_of (rows : list MRPItem.t) : MRPItem.t -> MRPItem.t -> Prop :=
| root_here n :
    MRPItem.parent_id n = None -> root_of rows n n
| root_above n pid p t :
    MRPItem.parent_id n = Some pid ->
    mrp_item_by_id rows pid = Some p ->
    root_of rows p t ->
    root_of rows n t.

(** The schedule line a top-level row was built for. *)
Definition built_for (line : MPSItem.t) (t : MRPItem.t) : Prop :=
  MRPItem.parent_id t = None /\
  MRPItem.mps_item_id t = Some (MPSItem.id line) /\
  MRPItem.item_id t = MPSItem.product_id line /\
  MRPItem.required_date t = MPSItem.planned_date line.

(** The failures a handler raises on purpose, with a status code and a
    detail for the caller. *)
Definition typed_failure (e : PyExc) : bool :=
  match e with
  | HTTPException _ _ => true
  | RecursionError | OverflowError => false
  end.

(** The row [x] names the row [m] as its parent. *)
Definition child_of (m x : MRPItem.t) : bool :=
  match MRPItem.parent_id x with
  | Some q => q =? MRPItem.id m
  | None => false
  end.

(** The flags of the rows [rest] when each is flagged for the children
    found among the rows up to and including itself, [listed] being the rows
    before [rest]. *)
Fixpoint flags_after (listed rest : list MRPItem.t) : list bool :=
  match rest with
  | [] => []
  | m :: rest' =>
      existsb (child_of m) (m :: listed) :: flags_after (m :: listed) rest'
  end.

(** What [read_mrp_results] says of the place of a row in the hierarchy. *)
Definition hierarchy_of (i : MRPRunResultItem.t) : nat * option nat * nat * bool :=
  (MRPRunResultItem.id i, MRPRunResultItem.parent_id i,
   MRPRunResultItem.level i, MRPRunResultItem.has_children i).

(** ** Worked databases

    Product A (item 1, 10 on hand) is made of 2 of component B (item 2,
    5 on hand); the schedule asks for 50 of A in five days. *)
Module Scenario.
Definition day : Z := 86400000000.

Definition item (id : nat) (code : string) (on_hand reorder : Q)
  : InventoryItem.t :=
  {| InventoryItem.id := id; InventoryItem.item_code := code;
     InventoryItem.name := code; InventoryItem.unit_cost := 0;
     InventoryItem.quantity_on_hand := on_hand;
     InventoryItem.reorder_point := reorder;
     InventoryItem.category_id := None |}.

Definition bom_of (id product : nat) : BOM.t :=
  {| BOM.id := id; BOM.name := "BOM"; BOM.product_id := product;
     BOM.version := "1.0"; BOM.is_active := true |}.

Definition uses (id bom component : nat) (quantity : Q) : BOMComponent.t :=
  {| BOMComponent.id := id; BOMComponent.bom_id := bom;
     BOMComponent.component_id := component;
     BOMComponent.quantity := quantity;
     BOMComponent.uom := "piece"; BOMComponent.position := 1 |}.

Definition schedule : MPS.t :=
  {| MPS.id := 1; MPS.name := "Week 1"; MPS.start_date := 0;
     MPS.end_date := 7 * day; MPS.is_active := true; MPS.is_locked := false |}.

Definition line (id product : nat) (quantity : Q) : MPSItem.t :=
  {| MPSItem.id := id; MPSItem.mps_id := 1; MPSItem.product_id := product;
     MPSItem.planned_date := 5 * day; MPSItem.quantity := quantity |}.

Definition database (items : list InventoryItem.t) (boms : list BOM.t)
  (components : list BOMComponent.t) (lines : list MPSItem.t) : DB.t :=
  {| DB.inventoryitem := items; DB.bom := boms;
     DB.bomcomponent := components; DB.mps := [schedule];
     DB.mpsitem := lines; DB.mrprun := []; DB.mrpitem := [] |}.

Definition request (factor : Q) (safety : bool) : MRPRunCreate.t :=
  {| MRPRunCreate.name := "run"; MRPRunCreate.description := None;
     MRPRunCreate.mps_id := 1; MRPRunCreate.lead_time_factor := factor;
     MRPRunCreate.include_safety_stock := safety |}.

(** Neither item has a reorder point. *)
Definition db : DB.t :=
  database [item 1 "A" 10 0; item 2 "B" 5 0] [bom_of 1 1] [uses 1 1 2 2]
    [line 1 1 50].

(** The product A has a reorder point of 5. *)
Definition db_reorder_A : DB.t :=
  database [item 1 "A" 10 5; item 2 "B" 5 0] [bom_of 1 1] [uses 1 1 2 2]
    [line 1 1 50].

(** The component B has a reorder point below zero. *)
Definition db_negative_reorder_B : DB.t :=
  database [item 1 "A" 10 0; item 2 "B" 5 (-100)] [bom_of 1 1] [uses 1 1 2 2]
    [line 1 1 50].

(** The component B is not an inventory item. *)
Definition db_missing_B : DB.t :=
  database [item 1 "A" 10 0] [bom_of 1 1] [uses 1 1 2 2] [line 1 1 50].

(** B is in turn made of A. *)
Definition db_cycle : DB.t :=
  database [item 1 "A" 10 0; item 2 "B" 5 0] [bom_of 1 1; bom_of 2 2]
    [uses 1 1 2 2; uses 2 2 1 1] [line 1 1 50].

(** A second line asks for 7 of C (item 3), which has no BOM. *)
Definition db_two_lines : DB.t :=
  database [item 1 "A" 10 0; item 2 "B" 5 0; item 3 "C" 0 0] [bom_of 1 1]
    [uses 1 1 2 2] [line 1 1 50; line 2 3 7].

Definition stored_run (id mps : nat) : MRPRun.t :=
  {| MRPRun.id := id; MRPRun.name := "run"; MRPRun.description := None;
     MRPRun.run_date := 0; MRPRun.mps_id := mps;
     MRPRun.lead_time_factor := 1; MRPRun.include_safety_stock := true |}.

(** Three runs are stored, the second one of another MPS. *)
Definition db_three_runs : DB.t :=
  DB.with_mrprun db [stored_run 1 1; stored_run 2 2; stored_run 3 1].
End Scenario.

(** * The other endpoints of [routers/mrp.py] *)

(** [GET /]: [skip], [limit] and [mps_id] are any integers of the query
    string. The test [if mps_id:] takes an absent filter and the filter 0
    alike. [.offset(skip).limit(limit)] is answered as SQLite answers
    [LIMIT limit OFFSET skip]: an offset below zero counts as zero, and a
    limit below zero is no limit. *)
Definition read_mrp_runs (skip limit : Z) (mps_id : option Z)
  : M (list MRPRun.t) :=
  fun s =>
    let query := DB.mrprun (pending s) in
    let query :=
      match mps_id with
      | Some k =>
          if (k =? 0)%Z then query
          else List.filter (fun r => (Z.of_nat (MRPRun.mps_id r) =? k)%Z) query
      | None => query
      end in
    let query := List.skipn (Z.to_nat skip) query in
    let query :=
      if (limit <? 0)%Z then query else List.firstn (Z.to_nat limit) query in
    (Ok query, s).

(** [GET /{run_id}]: the run, with the [mrp_items] that [joinedload]
    loads. *)
Definition read_mrp_run (run_id : nat) : M (MRPRun.t * list MRPItem.t) :=
  db_run <- query_first DB.mrprun (fun r => MRPRun.id r =? run_id) ;;
  match db_run with
  | None =>
      raise (HTTPException 404
               ("MRP run with ID " ++ str run_id ++ " not found"))
  | Some db_run =>
      mrp_items <- query_all DB.mrpitem
                     (fun m => MRPItem.mrp_run_id m =? MRPRun.id db_run) ;;
      ret (db_run, mrp_items)
  end.

(** [m] names one of the rows [deleted] as its parent. *)
Definition parent_among (deleted : list MRPItem.t) (m : MRPItem.t) : bool :=
  match MRPItem.parent_id m with
  | Some pid => existsb (fun d => MRPItem.id d =? pid) deleted
  | None => false
  end.

Definition without_parent (m : MRPItem.t) : MRPItem.t :=
  {| MRPItem.id := MRPItem.id m;
     MRPItem.mrp_run_id := MRPItem.mrp_run_id m;
     MRPItem.mps_item_id := MRPItem.mps_item_id m;
     MRPItem.item_id := MRPItem.item_id m;
     MRPItem.bom_id := MRPItem.bom_id m;
     MRPItem.required_date := MRPItem.required_date m;
     MRPItem.gross_requirement := MRPItem.gross_requirement m;
     MRPItem.projected_on_hand := MRPItem.projected_on_hand m;
     MRPItem.net_requirement := MRPItem.net_requirement m;
     MRPItem.planned_order_release := MRPItem.planned_order_release m;
     MRPItem.planned_order_receipt := MRPItem.planned_order_receipt m;
     MRPItem.order_release_date := MRPItem.order_release_date m;
     MRPItem.is_critical := MRPItem.is_critical m;
     MRPItem.parent_id := None |}.

(** [db.delete(db_run)], as the models make the ORM flush it: the
    relationship [MRPRun.mrp_items] cascades the delete to the rows of the
    run; the [components] backref of [MRPItem.parent] does not cascade, so
    a row that stays loses a [parent_id] that names a deleted row. (The
    production orders of a deleted row are in a table outside this
    model.) *)
Definition delete_run (db_run : MRPRun.t) : M unit :=
  fun s =>
    let db := pending s in
    let of_run := fun m => MRPItem.mrp_run_id m =? MRPRun.id db_run in
    let deleted := List.filter of_run (DB.mrpitem db) in
    let kept := List.filter (fun m => negb (of_run m)) (DB.mrpitem db) in
    (Ok tt,
     {| committed := committed s;
        pending :=
          DB.with_mrpitem
            (DB.with_mrprun db
               (List.filter (fun r => negb (MRPRun.id r =? MRPRun.id db_run))
                  (DB.mrprun db)))
            (List.map
               (fun m => if parent_among deleted m then without_parent m else m)
               kept) |}).

(** [DELETE /{run_id}] *)
Definition delete_mrp_run (run_id : nat) : M unit :=
  db_run <- query_first DB.mrprun (fun r => MRPRun.id r =? run_id) ;;
  match db_run with
  | None =>
      raise (HTTPException 404
               ("MRP run with ID " ++ str run_id ++ " not found"))
  | Some db_run =>
      delete_run db_run ;;
      commit ;;
      ret tt
  end.

(** ** Referential integrity of the MRP tables *)

(** Every MRP item is of a stored run. *)
Definition runs_known (db : DB.t) : Prop :=
  forall m, In m (DB.mrpitem db) ->
  exists r, In r (DB.mrprun db) /\ MRPRun.id r = MRPItem.mrp_run_id m.

(** Every parent is a stored MRP item. *)
Definition parents_known (db : DB.t) : Prop :=
  forall m pid, In m (DB.mrpitem db) -> MRPItem.parent_id m = Some pid ->
  exists p, In p (DB.mrpitem db) /\ MRPItem.id p = pid.

(** ** Rows and the components they explode *)

(** Among the rows [all], the row [p] has a child built for the component
    [c]. *)
Definition has_child_for (all : list MRPItem.t) (p : MRPItem.t)
  (c : BOMComponent.t) : Prop :=
  exists n,
    In n all /\
    MRPItem.parent_id n = Some (MRPItem.id p) /\
    MRPItem.item_id n = BOMComponent.component_id c /\
    MRPItem.gross_requirement n
    = (MRPItem.planned_order_release p * BOMComponent.quantity c)%Q.

(** Among the rows [all], the row [p] has a child for every component of
    its BOM whose item is in the inventory. *)
Definition exploded (db : DB.t) (all : list MRPItem.t) (p : MRPItem.t) : Prop :=
  forall c item,
    In c (DB.bomcomponent db) ->
    MRPItem.bom_id p = Some (BOMComponent.bom_id c) ->
    List.find (item_by_id (BOMComponent.component_id c)) (DB.inventoryitem db)
      = Some item ->
    has_child_for all p c.

(** The session in which [create_mrp_run] runs its loop: the run header is
    flushed. *)
Definition with_new_run (s : Session) (run : MRPRun.t) : Session :=
  {| committed := committed s;
     pending := DB.with_mrprun (pending s) (DB.mrprun (pending s) ++ [run]) |}.

(** ** The same rows under other keys *)

(** The figures of a row: all of it but its key, the key of its run and
    the key of its parent. *)
Definition figures (n : MRPItem.t) :=
  (MRPItem.mps_item_id n, MRPItem.item_id n, MRPItem.bom_id n,
   MRPItem.required_date n, MRPItem.gross_requirement n,
   MRPItem.projected_on_hand n, MRPItem.net_requirement n,
   MRPItem.planned_order_release n, MRPItem.planned_order_receipt n,
   MRPItem.order_release_date n, MRPItem.is_critical n).

(** [m] is the row [n] in the run [run_id], with its key and the key of
    its parent moved up by [delta]. *)
Definition shifted (delta run_id : nat) (n m : MRPItem.t) : Prop :=
  figures m = figures n /\
  MRPItem.id m = MRPItem.id n + delta /\
  MRPItem.mrp_run_id m = run_id /\
  MRPItem.parent_id m = option_map (fun k => k + delta) (MRPItem.parent_id n).

(** Two sessions on the same inventory and BOM tables, the second one
    [delta] keys ahead of the first. *)
Definition ahead (db : DB.t) (delta : nat) (sA sB : Session) : Prop :=
  on_catalog db sA /\ on_catalog db sB /\
  next_id (session_ids sB) = next_id (session_ids sA) + delta.

(** ** The rows of the results *)

(** The [MRPRunResultItem(...)] that [read_mrp_results] builds for a row of
    its joined query, but for the flag. *)
Definition result_item (item_data : MRPItem.t * string * string)
  (has_children : bool) : MRPRunResultItem.t :=
  let '(mrp_item, item_code, item_name) := item_data in
  {| MRPRunResultItem.id := MRPItem.id mrp_item;
     MRPRunResultItem.item_id := MRPItem.item_id mrp_item;
     MRPRunResultItem.item_code := item_code;
     MRPRunResultItem.item_name := item_name;
     MRPRunResultItem.required_date := MRPItem.required_date mrp_item;
     MRPRunResultItem.gross_requirement := MRPItem.gross_requirement mrp_item;
     MRPRunResultItem.projected_on_hand := MRPItem.projected_on_hand mrp_item;
     MRPRunResultItem.net_requirement := MRPItem.net_requirement mrp_item;
     MRPRunResultItem.planned_order_release :=
       MRPItem.planned_order_release mrp_item;
     MRPRunResultItem.planned_order_receipt :=
       MRPItem.planned_order_receipt mrp_item;
     MRPRunResultItem.order_release_date := MRPItem.order_release_date mrp_item;
     MRPRunResultItem.is_critical := MRPItem.is_critical mrp_item;
     MRPRunResultItem.parent_id := MRPItem.parent_id mrp_item;
     MRPRunResultItem.level := 0;
     MRPRunResultItem.has_children := has_children |}.

(** The rows of the joined query for the MRP rows [rows]: a row for each
    inventory item that carries the key of the row's item. *)
Definition joined (db : DB.t) (rows : list MRPItem.t)
  : list (MRPItem.t * string * string) :=
  List.flat_map
    (fun m =>
       List.map (fun i => (m, InventoryItem.item_code i, InventoryItem.name i))
         (List.filter (item_by_id (MRPItem.item_id m)) (DB.inventoryitem db)))
    rows.

(** * Tactics *)

(** Replace a row by the constructor call that built it. *)
Ltac as_built n H :=
  let k := fresh "key" in
  set (k := MRPItem.id n) in H; clearbody k; subst n.

(** Run a request on a worked database and name what it returns. *)
Ltac run_request H :=
  match goal with
  | |- exists run s', ?out = (Ok run, s') /\ _ =>
      eassert (H : out = (Ok _, _)) by (vm_compute; reflexivity);
      match type of H with
      | _ = (Ok ?r, ?t) => exists r, t; split; [exact H |]
      end
  end.

(** * Reasoning about the session monad *)

Lemma bind_inv {A B} (m : M A) (k : A -> M B) s r s' :
  bind m k s = (r, s') ->
  (exists a s1, m s = (Ok a, s1) /\ k a s1 = (r, s')) \/
  (exists e, m s = (Raise e, s') /\ r = Raise e).
Proof.
  unfold bind. destruct (m s) as [[a | e] s1] eqn:E; intros H.
  - left. exists a, s1. split; [reflexivity | exact H].
  - right. injection H as <- <-. exists e. split; reflexivity.
Qed.

(** A loop relates its first state to its last one by any reflexive and
    transitive relation its body respects, whether it ends or raises. *)
Lemma for_each_rel {A} (I : Session -> Prop) (R : Session -> Session -> Prop)
  (l : list A) (body : A -> M unit) :
  (forall s, R s s) ->
  (forall a b c, R a b -> R b c -> R a c) ->
  (forall x s r s', In x l -> I s -> body x s = (r, s') -> R s s' /\ I s') ->
  forall s r s', I s -> for_each l body s = (r, s') -> R s s' /\ I s'.
Proof.
  intros Hrefl Htrans. induction l as [| x l IH]; intros Hbody s r s' Hs Hrun.
  - injection Hrun as _ <-. split; [apply Hrefl | exact Hs].
  - simpl in Hrun. apply bind_inv in Hrun as [(u & s1 & Hx & Hrest) | (e & Hx & _)].
    + destruct (Hbody x s (Ok u) s1 (or_introl eq_refl) Hs Hx) as [R1 I1].
      destruct (IH (fun y t r0 t' Hy => Hbody y t r0 t' (or_intror Hy))
                  s1 r s' I1 Hrest) as [R2 I2].
      split; [exact (Htrans _ _ _ R1 R2) | exact I2].
    + exact (Hbody x s (Raise e) s' (or_introl eq_refl) Hs Hx).
Qed.

(** ** The release date *)

Lemma Qmult_1_l_eq (f : Q) : (1 * f)%Q = f.
Proof. destruct f as [a b]. unfold Qmult. cbn. destruct a; reflexivity. Qed.

Lemma hasattr_lead_time item : hasattr item "lead_time" = false.
Proof. destruct item; reflexivity. Qed.

(** No item carries a lead time: the release date is the required date
    less [lead_time_factor] days, when both the [timedelta] and the
    difference exist. *)
Lemma calculate_release_date_default required_date item lead_time_factor :
  calculate_release_date required_date item lead_time_factor
  = match timedelta lead_time_factor with
    | Ok delta => datetime_sub required_date delta
    | Raise e => Raise e
    end.
Proof.
  unfold calculate_release_date. rewrite hasattr_lead_time.
  destruct item; rewrite Qmult_1_l_eq; reflexivity.
Qed.

Lemma calculate_release_date_item required_date item lead_time_factor :
  calculate_release_date required_date item lead_time_factor
  = calculate_release_date required_date None lead_time_factor.
Proof. rewrite !calculate_release_date_default. reflexivity. Qed.

Lemma calculate_release_date_ok required_date item lead_time_factor release :
  calculate_release_date required_date item lead_time_factor = Ok release ->
  release = (required_date - timedelta_days lead_time_factor)%Z.
Proof.
  rewrite calculate_release_date_default. unfold timedelta, datetime_sub.
  destruct (_ && _); [| discriminate].
  destruct (_ && _); [| discriminate].
  intros H. injection H as <-. reflexivity.
Qed.

Lemma calculate_release_date_raises required_date item lead_time_factor e :
  calculate_release_date required_date item lead_time_factor = Raise e ->
  e = OverflowError /\ off_calendar required_date lead_time_factor.
Proof.
  intros H. unfold off_calendar.
  rewrite calculate_release_date_item in H.
  assert (He : e = OverflowError).
  { rewrite calculate_release_date_default in H.
    unfold timedelta, datetime_sub in H.
    destruct (_ && _); [| injection H as <-; reflexivity].
    destruct (_ && _); [discriminate H | injection H as <-; reflexivity]. }
  subst e. split; [reflexivity | exact H].
Qed.

(** ** Keys *)

Lemma list_max_seq (m k : nat) :
  List.list_max (seq (S m) k) = match k with O => O | S _ => m + k end.
Proof.
  revert m. induction k as [| k IH]; intros m; [reflexivity |].
  cbn [seq]. change (List.list_max (S m :: seq (S (S m)) k))
    with (Nat.max (S m) (List.list_max (seq (S (S m)) k))).
  rewrite IH. destruct k; lia.
Qed.

Lemma next_id_keyed_after base new :
  keyed_after base new ->
  next_id (item_ids (base ++ new)) = next_id (item_ids base) + length new.
Proof.
  unfold keyed_after, next_id, item_ids. intros H.
  rewrite List.map_app, List.list_max_app, H, list_max_seq.
  destruct (length new); lia.
Qed.

Lemma keyed_after_nil base : keyed_after base [].
Proof. reflexivity. Qed.

Lemma keyed_after_app base new1 new2 :
  keyed_after base new1 -> keyed_after (base ++ new1) new2 ->
  keyed_after base (new1 ++ new2).
Proof.
  intros H1 H2. unfold keyed_after in *.
  rewrite (next_id_keyed_after _ _ H1) in H2.
  unfold item_ids in *.
  rewrite List.map_app, List.length_app, List.seq_app, H1, H2. reflexivity.
Qed.

Lemma keyed_after_In base new n :
  keyed_after base new -> In n new ->
  next_id (item_ids base) <= MRPItem.id n < next_id (item_ids base) + length new.
Proof.
  unfold keyed_after, item_ids. intros H Hn.
  apply (List.in_map MRPItem.id) in Hn. rewrite H in Hn.
  apply List.in_seq in Hn. lia.
Qed.

(** ** The effect of the explosion on the session *)

Lemma add_items_nil s : add_items s [] = s.
Proof.
  destruct s as [c [a b d e f g h]]. unfold add_items, DB.with_mrpitem. simpl.
  rewrite List.app_nil_r. reflexivity.
Qed.

Lemma add_items_app s new1 new2 :
  add_items (add_items s new1) new2 = add_items s (new1 ++ new2).
Proof.
  unfold add_items, DB.with_mrpitem. simpl. rewrite List.app_assoc. reflexivity.
Qed.

Lemma catalog_eq db db' :
  catalog db = catalog db' ->
  DB.inventoryitem db = DB.inventoryitem db' /\
  DB.bom db = DB.bom db' /\ DB.bomcomponent db = DB.bomcomponent db'.
Proof. unfold catalog. intros H. injection H as -> -> ->. auto. Qed.

Section Explosion.
Variables (run_id : nat) (required_date : datetime).
Variables (lead_time_factor : Q) (include_safety_stock : bool).
Variable db : DB.t.

Local Abbreviation component_node :=
  (component_node run_id required_date lead_time_factor include_safety_stock db).
Local Abbreviation grown :=
  (grown run_id required_date lead_time_factor include_safety_stock db).
Local Abbreviation below := (below db).

Lemma component_node_mono ctx ctx' n :
  incl ctx ctx' -> component_node ctx n -> component_node ctx' n.
Proof.
  intros Hincl (p & c & item & Hp & H). exists p, c, item.
  split; [apply Hincl, Hp | exact H].
Qed.

Lemma grown_refl parent s : grown parent s s.
Proof.
  exists []. split; [symmetry; apply add_items_nil |].
  split; [apply keyed_after_nil | constructor].
Qed.

Lemma grown_trans parent a b c :
  grown parent a b -> grown parent b c -> grown parent a c.
Proof.
  intros (n1 & -> & K1 & F1) (n2 & -> & K2 & F2).
  exists (n1 ++ n2). split; [apply add_items_app |].
  split; [apply keyed_after_app; assumption |].
  apply List.Forall_app. split.
  - eapply List.Forall_impl; [| exact F1]. intros n. apply component_node_mono.
    intros x [<- | Hx]; [left; reflexivity | right; apply in_or_app; left; exact Hx].
  - eapply List.Forall_impl; [| exact F2]. intros n. apply component_node_mono.
    intros x [<- | Hx]; [left; reflexivity | right; apply in_or_app; right; exact Hx].
Qed.

Lemma grown_next_id parent s s' :
  grown parent s s' ->
  next_id (session_ids s) <= next_id (session_ids s') /\
  catalog (pending s') = catalog (pending s).
Proof.
  intros (new & -> & K & _). unfold session_ids. simpl.
  rewrite (next_id_keyed_after _ _ K). split; [lia | reflexivity].
Qed.

Lemma grown_below parent s s' :
  below parent s -> grown parent s s' -> below parent s'.
Proof.
  intros [Hid Hcat] G. apply grown_next_id in G as [Hle Hc].
  split; [lia | congruence].
Qed.

Lemma process_bom_components_grown recursion_limit :
  forall bom parent parent_quantity s r s',
    parent_quantity = MRPItem.planned_order_release parent ->
    MRPItem.bom_id parent = Some (BOM.id bom) ->
    MRPItem.required_date parent = required_date ->
    below parent s ->
    process_bom_components recursion_limit bom parent run_id required_date
      parent_quantity lead_time_factor include_safety_stock s = (r, s') ->
    grown parent s s'.
Proof.
  induction recursion_limit as [| limit IH];
    intros bom parent pq s r s' Hpq Hbom Hdate Hs Hrun.
  - injection Hrun as _ <-. apply grown_refl.
  - cbn [process_bom_components] in Hrun.
    apply bind_inv in Hrun as [(cs & s1 & Hq & Hloop) | (e & Hq & _)];
      [| discriminate Hq].
    injection Hq as <- <-.
    destruct (catalog_eq _ _ (proj2 Hs)) as (_ & _ & Hcs). rewrite Hcs in Hloop.
    refine (proj1 (for_each_rel (below parent) (grown parent)
      _ _ (grown_refl parent) (grown_trans parent) _ s r s' Hs Hloop)).
    clear s r s' Hs Hloop Hcs. intros c s r s' Hc Hs Hbody.
    apply List.filter_In in Hc as [Hc Hcb]. apply Nat.eqb_eq in Hcb.
    assert (Hkeep : forall t, grown parent s t ->
              grown parent s t /\ below parent t).
    { intros t G. split; [exact G | exact (grown_below _ _ _ Hs G)]. }
    apply Hkeep. clear Hkeep.
    destruct Hs as [Hid Hcat].
    destruct (catalog_eq _ _ Hcat) as (Hinv & Hboms & _).
    apply bind_inv in Hbody as [(item & s1 & Hq & Hbody) | (e & Hq & _)];
      [| discriminate Hq].
    injection Hq as <- <-. rewrite Hinv in Hbody.
    destruct (List.find (item_by_id (BOMComponent.component_id c))
                (DB.inventoryitem db)) as [item |] eqn:Hitem.
    2:{ injection Hbody as _ <-. apply grown_refl. }
    apply bind_inv in Hbody as [(cb & s1 & Hq & Hbody) | (e & Hq & _)];
      [| discriminate Hq].
    injection Hq as <- <-. rewrite Hboms in Hbody.
    apply bind_inv in Hbody as [(release & s1 & Hrel & Hbody) | (e & Hrel & _)].
    2:{ injection Hrel as _ <-. apply grown_refl. }
    injection Hrel as Hrel <-.
    apply bind_inv in Hbody as [(n & s1 & Hadd & Hbody) | (e & Hq & _)];
      [| discriminate Hq].
    injection Hadd as <- <-.
    set (n := component_mrp_item run_id c item _ _ _ _ _ _ _) in *.
    change {| committed := committed s;
              pending := DB.with_mrpitem (pending s)
                           (DB.mrpitem (pending s) ++ [n]) |}
      with (add_items s [n]) in Hbody.
    assert (Hn : component_node [parent] n).
    { exists parent, c, item. split; [left; reflexivity |].
      split; [exact Hid |]. split; [exact Hdate |]. split; [exact Hc |].
      split; [rewrite Hbom, Hcb; reflexivity |].
      split; [exact Hitem |]. exists release.
      split; [exact Hrel |]. subst pq. reflexivity. }
    assert (G1 : grown parent s (add_items s [n])).
    { exists [n]. split; [reflexivity |]. split; [reflexivity |].
      constructor; [| constructor].
      eapply component_node_mono; [| exact Hn].
      intros x [<- | []]. left. reflexivity. }
    destruct (List.find (active_bom_of (BOMComponent.component_id c))
                (DB.bom db)) as [cb |] eqn:Hcbom.
    2:{ injection Hbody as _ <-. exact G1. }
    apply IH in Hbody; try reflexivity.
    2:{ split; [| exact Hcat]. unfold session_ids. simpl.
        unfold item_ids, next_id.
        rewrite List.map_app, List.list_max_app. simpl. lia. }
    destruct Hbody as (new & -> & K & F).
    rewrite add_items_app. exists ([n] ++ new).
    split; [reflexivity |].
    split; [apply keyed_after_app; [reflexivity | exact K] |].
    constructor.
    + eapply component_node_mono; [| exact Hn].
      intros x [<- | []]. left. reflexivity.
    + eapply List.Forall_impl; [| exact F]. intros x. apply component_node_mono.
      intros y Hy. right. exact Hy.
Qed.

End Explosion.

(** ** How the explosion ends *)

Lemma for_each_result {A} (P : Result unit -> Prop) (l : list A)
  (body : A -> M unit) :
  P (Ok tt) ->
  (forall x s r s', In x l -> body x s = (r, s') -> P r) ->
  forall s r s', for_each l body s = (r, s') -> P r.
Proof.
  intros Hok. induction l as [| x l IH]; intros Hbody s r s' Hrun.
  - injection Hrun as <- _. exact Hok.
  - simpl in Hrun.
    apply bind_inv in Hrun as [(u & s1 & Hx & Hrest) | (e' & Hx & ->)].
    + eapply IH; [| exact Hrest]. intros y t r0 t' Hy. apply Hbody. right. exact Hy.
    + apply (Hbody x s _ s' (or_introl eq_refl) Hx).
Qed.

Lemma for_each_raises {A} (I : Session -> Prop) (e : PyExc) (l : list A)
  (body : A -> M unit) (x : A) :
  In x l ->
  (forall y s r s', In y l -> I s -> body y s = (r, s') ->
     I s' /\ (r = Ok tt \/ r = Raise e)) ->
  (forall s, I s -> exists s', body x s = (Raise e, s')) ->
  forall s, I s -> exists s', for_each l body s = (Raise e, s').
Proof.
  induction l as [| y l IH]; intros Hx Hbody Hraise s Hs; [destruct Hx |].
  simpl. unfold bind.
  destruct (body y s) as [[u | e'] s1] eqn:Hy.
  - destruct (Hbody y s _ s1 (or_introl eq_refl) Hs Hy) as [Hs1 _].
    destruct Hx as [-> | Hx].
    + destruct (Hraise s Hs) as [s' Hr]. congruence.
    + apply IH; auto. intros z t r t' Hz. apply Hbody. right. exact Hz.
  - destruct (Hbody y s _ s1 (or_introl eq_refl) Hs Hy) as [_ [Hr | Hr]];
      [discriminate Hr |].
    injection Hr as ->. exists s1. reflexivity.
Qed.

Lemma for_each_ok {A} (I : Session -> Prop) (l : list A) (body : A -> M unit) :
  (forall x s, In x l -> I s -> exists s', body x s = (Ok tt, s') /\ I s') ->
  forall s, I s -> exists s', for_each l body s = (Ok tt, s') /\ I s'.
Proof.
  induction l as [| x l IH]; intros Hbody s Hs.
  - exists s. split; [reflexivity | exact Hs].
  - destruct (Hbody x s (or_introl eq_refl) Hs) as (s1 & Hx & Hs1).
    destruct (IH (fun y t Hy => Hbody y t (or_intror Hy)) s1 Hs1) as (s' & Hr & Hs').
    exists s'. split; [| exact Hs']. simpl. unfold bind. rewrite Hx. exact Hr.
Qed.

Lemma process_bom_components_S limit bom parent run_id rd pq lf iss :
  process_bom_components (S limit) bom parent run_id rd pq lf iss =
  (components <- query_all DB.bomcomponent
                   (fun c => BOMComponent.bom_id c =? BOM.id bom) ;;
   for_each components (explode_component limit parent run_id rd pq lf iss)).
Proof. reflexivity. Qed.

Lemma appended_refl s : appended s s.
Proof. exists []. symmetry. apply add_items_nil. Qed.

Lemma appended_trans a b c : appended a b -> appended b c -> appended a c.
Proof. intros [n1 ->] [n2 ->]. exists (n1 ++ n2). apply add_items_app. Qed.

Lemma appended_catalog s s' : appended s s' -> catalog (pending s') = catalog (pending s).
Proof. intros [new ->]. reflexivity. Qed.

Lemma appended_committed s s' : appended s s' -> committed s' = committed s.
Proof. intros [new ->]. reflexivity. Qed.

Lemma explode_component_appended_if limit parent run_id rd pq lf iss c :
  (forall bom p q,
     appends_and_ends_or_overflows rd lf
       (process_bom_components limit bom p run_id rd q lf iss)) ->
  appends_and_ends_or_overflows rd lf
    (explode_component limit parent run_id rd pq lf iss c).
Proof.
  intros IH t r t' Hc. unfold explode_component in Hc.
  apply bind_inv in Hc as [(item & t1 & Hq & Hc) | (e & Hq & _)];
    [| discriminate Hq].
  injection Hq as <- <-.
  destruct (List.find _ (DB.inventoryitem (pending t))) as [item |].
  2:{ injection Hc as <- <-. split; [apply appended_refl | left; reflexivity]. }
  apply bind_inv in Hc as [(cb & t1 & Hq & Hc) | (e & Hq & _)];
    [| discriminate Hq].
  injection Hq as <- <-.
  apply bind_inv in Hc as [(release & t1 & Hrel & Hc) | (e & Hrel & ->)].
  2:{ injection Hrel as Hrel <-.
      apply calculate_release_date_raises in Hrel as [-> Hoff].
      split; [apply appended_refl | right; right; split; [reflexivity | exact Hoff]]. }
  injection Hrel as Hrel <-.
  apply bind_inv in Hc as [(n & t1 & Hadd & Hc) | (e & Hq & _)];
    [| discriminate Hq].
  injection Hadd as <- <-.
  set (n := component_mrp_item _ _ _ _ _ _ _ _ _ _) in *.
  assert (A1 : appended t (add_items t [n])) by (exists [n]; reflexivity).
  destruct (List.find _ (DB.bom (pending t))) as [cb |].
  - apply IH in Hc as [A2 E]. split; [| exact E].
    exact (appended_trans _ _ _ A1 A2).
  - injection Hc as <- <-. split; [exact A1 | left; reflexivity].
Qed.

Lemma process_bom_components_appended limit :
  forall bom parent run_id rd pq lf iss,
    appends_and_ends_or_overflows rd lf
      (process_bom_components limit bom parent run_id rd pq lf iss).
Proof.
  induction limit as [| limit IH]; intros bom parent run_id rd pq lf iss s r s' Hrun.
  - injection Hrun as <- <-. split; [apply appended_refl | right; left; reflexivity].
  - rewrite process_bom_components_S in Hrun.
    apply bind_inv in Hrun as [(cs & s1 & Hq & Hloop) | (e & Hq & _)];
      [| discriminate Hq].
    injection Hq as <- <-.
    assert (Hbody : forall c,
      appends_and_ends_or_overflows rd lf
        (explode_component limit parent run_id rd pq lf iss c)).
    { intros c. apply explode_component_appended_if. intros b p q. apply IH. }
    split.
    + refine (proj1 (for_each_rel (fun _ => True) appended _ _
                appended_refl appended_trans _ s r s' I Hloop)).
      intros c t r0 t' _ _ Hc. split; [| exact I]. exact (proj1 (Hbody _ _ _ _ Hc)).
    + eapply (for_each_result (ends_or_overflows rd lf));
        [left; reflexivity | | exact Hloop].
      intros c t r0 t' _ Hc. exact (proj2 (Hbody _ _ _ _ Hc)).
Qed.

Lemma explode_component_appended limit parent run_id rd pq lf iss c :
  appends_and_ends_or_overflows rd lf
    (explode_component limit parent run_id rd pq lf iss c).
Proof.
  apply explode_component_appended_if. intros b p q.
  apply process_bom_components_appended.
Qed.

(** On the calendar, an explosion ends well or on the bound of the nested
    calls. *)
Lemma on_calendar_ends rd lf release r :
  calculate_release_date rd None lf = Ok release ->
  ends_or_overflows rd lf r -> r = Ok tt \/ r = Raise RecursionError.
Proof.
  intros Hrel [H | [H | [_ H]]]; [left; exact H | right; exact H |].
  unfold off_calendar in H. congruence.
Qed.

Section Depth.
Variable db : DB.t.

Local Abbreviation expands := (expands db).
Local Abbreviation nests := (nests db).
Local Abbreviation on_catalog := (on_catalog db).

Lemma appended_on_catalog s s' : on_catalog s -> appended s s' -> on_catalog s'.
Proof. unfold on_catalog. intros H A. rewrite (appended_catalog _ _ A). exact H. Qed.

Lemma process_bom_components_overflows limit :
  forall bom parent run_id rd pq lf iss release s,
    calculate_release_date rd None lf = Ok release ->
    nests limit (BOM.id bom) -> on_catalog s ->
    exists s',
      process_bom_components limit bom parent run_id rd pq lf iss s
        = (Raise RecursionError, s').
Proof.
  induction limit as [| limit IH];
    intros bom parent run_id rd pq lf iss release s Hrel Hn Hs.
  - exists s. reflexivity.
  - destruct Hn as (j & (c & item & b & Hc & Hcb & Hitem & Hb & Hj) & Hn).
    rewrite process_bom_components_S. unfold bind at 1. unfold query_all at 1.
    destruct (catalog_eq _ _ Hs) as (_ & _ & Hcs). rewrite Hcs.
    apply (for_each_raises on_catalog RecursionError _ _ c).
    + apply List.filter_In. split; [exact Hc |]. apply Nat.eqb_eq. exact Hcb.
    + intros y t r t' _ Ht Hy.
      apply explode_component_appended in Hy as [A E].
      split; [exact (appended_on_catalog _ _ Ht A) |].
      exact (on_calendar_ends _ _ _ _ Hrel E).
    + intros t Ht. unfold explode_component.
      destruct (catalog_eq _ _ Ht) as (Hinv & Hboms & _).
      unfold bind at 1. unfold query_first at 1. rewrite Hinv, Hitem.
      unfold bind at 1. unfold query_first at 1. rewrite Hboms, Hb.
      unfold bind at 1. unfold lift at 1.
      rewrite calculate_release_date_item, Hrel.
      unfold bind at 1. unfold add_mrpitem at 1.
      apply (IH _ _ _ _ _ _ _ release); [exact Hrel | rewrite Hj; exact Hn | exact Ht].
    + exact Hs.
Qed.

End Depth.

Section Shallow.
Variable db : DB.t.

Lemma process_bom_components_ends limit :
  forall bom parent run_id rd pq lf iss release s,
    calculate_release_date rd None lf = Ok release ->
    shallow db limit (BOM.id bom) -> on_catalog db s ->
    exists s',
      process_bom_components limit bom parent run_id rd pq lf iss s = (Ok tt, s')
      /\ on_catalog db s'.
Proof.
  induction limit as [| limit IH];
    intros bom parent run_id rd pq lf iss release s Hrel Hsh Hs.
  - destruct Hsh.
  - rewrite process_bom_components_S. unfold bind at 1. unfold query_all at 1.
    destruct (catalog_eq _ _ Hs) as (_ & _ & Hcs). rewrite Hcs.
    apply (for_each_ok (on_catalog db)); [| exact Hs].
    intros c t Hc Ht. apply List.filter_In in Hc as [Hc Hcb].
    apply Nat.eqb_eq in Hcb.
    destruct (catalog_eq _ _ Ht) as (Hinv & Hboms & _).
    unfold explode_component.
    unfold bind at 1. unfold query_first at 1. rewrite Hinv.
    destruct (List.find _ (DB.inventoryitem db)) as [item |] eqn:Hitem.
    2:{ exists t. split; [reflexivity | exact Ht]. }
    unfold bind at 1. unfold query_first at 1. rewrite Hboms.
    unfold bind at 1. unfold lift at 1.
    rewrite calculate_release_date_item, Hrel.
    unfold bind at 1. unfold add_mrpitem at 1.
    destruct (List.find _ (DB.bom db)) as [cb |] eqn:Hb.
    + apply (IH _ _ _ _ _ _ _ release); [exact Hrel | | exact Ht].
      apply (Hsh (BOM.id cb)). exists c, item, cb. auto.
    + eexists. split; [reflexivity | exact Ht].
Qed.

End Shallow.

(** ** The rows of a run *)

Section Run.
Variables (db : DB.t) (run_id : nat).
Variables (lead_time_factor : Q) (include_safety_stock : bool).

Local Abbreviation product_node := (product_node db run_id lead_time_factor).
Local Abbreviation run_node :=
  (run_node db run_id lead_time_factor include_safety_stock).

Lemma run_node_mono lines lines' all all' n :
  incl lines lines' -> incl all all' ->
  run_node lines all n -> run_node lines' all' n.
Proof.
  intros Hl Ha [(line & bom & Hin & H) | (rd & H)].
  - left. exists line, bom. split; [apply Hl, Hin | exact H].
  - right. exists rd. eapply component_node_mono; [exact Ha | exact H].
Qed.

Lemma component_node_not_top rd all n :
  component_node run_id rd lead_time_factor include_safety_stock db all n ->
  is_top_level n = false.
Proof.
  intros (p & c & item & _ & _ & _ & _ & _ & _ & release & _ & ->). reflexivity.
Qed.

Lemma component_nodes_not_top rd all l :
  Forall (component_node run_id rd lead_time_factor include_safety_stock db all) l ->
  List.filter is_top_level l = [].
Proof.
  induction 1 as [| n l Hn _ IH]; [reflexivity |].
  simpl. rewrite (component_node_not_top _ _ _ Hn). exact IH.
Qed.

Variables (recursion_limit : nat) (mrp_run : MRPRunCreate.t) (db_mrp_run : MRPRun.t).
Hypothesis Hfactor : MRPRunCreate.lead_time_factor mrp_run = lead_time_factor.
Hypothesis Hsafety : MRPRunCreate.include_safety_stock mrp_run = include_safety_stock.
Hypothesis Hrun_id : MRPRun.id db_mrp_run = run_id.

(** What one turn of [for mps_item in mps_items] does to the session. *)
Lemma explode_mps_item_grown line s r s' :
  on_catalog db s ->
  explode_mps_item recursion_limit mrp_run db_mrp_run line s = (r, s') ->
  exists new,
    s' = add_items s new /\
    keyed_after (DB.mrpitem (pending s)) new /\
    Forall (run_node [line] new) new /\
    (r = Ok tt ->
     length (List.filter is_top_level new)
     = (if has_active_bom db line then 1 else 0)) /\
    run_ends_or_overflows db [line] lead_time_factor r.
Proof.
  intros Hs Hrun. unfold explode_mps_item in Hrun.
  destruct (catalog_eq _ _ Hs) as (Hinv & Hboms & _).
  apply bind_inv in Hrun as [(b & s1 & Hq & Hrun) | (e & Hq & _)];
    [| discriminate Hq].
  injection Hq as <- <-. rewrite Hboms in Hrun. unfold has_active_bom.
  destruct (List.find _ (DB.bom db)) as [b |] eqn:Hb.
  2:{ injection Hrun as <- <-. exists []. rewrite add_items_nil.
      split; [reflexivity |]. split; [apply keyed_after_nil |].
      split; [constructor |]. split; [reflexivity | left; reflexivity]. }
  apply bind_inv in Hrun as [(product & s1 & Hq & Hrun) | (e & Hq & _)];
    [| discriminate Hq].
  injection Hq as <- <-. rewrite Hinv in Hrun.
  apply bind_inv in Hrun as [(release & s1 & Hrel & Hrun) | (e & Hrel & ->)].
  2:{ injection Hrel as Hrel <-. rewrite Hfactor in Hrel.
      apply calculate_release_date_raises in Hrel as [-> Hoff].
      exists []. rewrite add_items_nil.
      split; [reflexivity |]. split; [apply keyed_after_nil |].
      split; [constructor |]. split; [discriminate |].
      right. right. split; [reflexivity |].
      exists line. split; [left; reflexivity |].
      split; [unfold has_active_bom; rewrite Hb; reflexivity | exact Hoff]. }
  injection Hrel as Hrel <-. rewrite Hfactor in Hrel.
  apply bind_inv in Hrun as [(t & s1 & Hadd & Hrun) | (e & Hq & _)];
    [| discriminate Hq].
  injection Hadd as <- <-. rewrite Hfactor, Hsafety, Hrun_id in Hrun.
  set (t := product_mrp_item run_id line b _ _ _) in *.
  change {| committed := committed s;
            pending := DB.with_mrpitem (pending s)
                         (DB.mrpitem (pending s) ++ [t]) |}
    with (add_items s [t]) in Hrun.
  assert (Ht : product_node [line] t).
  { exists line, b. split; [left; reflexivity |]. split; [exact Hb |].
    exists release. split; [exact Hrel | reflexivity]. }
  destruct (process_bom_components_appended _ _ _ _ _ _ _ _ _ _ _ Hrun) as [_ E].
  apply (process_bom_components_grown run_id (MPSItem.planned_date line)
           lead_time_factor include_safety_stock db) in Hrun; try reflexivity.
  2:{ split; [| exact Hs]. unfold session_ids. simpl.
      unfold item_ids, next_id.
      rewrite List.map_app, List.list_max_app. simpl. lia. }
  destruct Hrun as (sub & -> & K & F).
  rewrite add_items_app. exists ([t] ++ sub).
  split; [reflexivity |].
  split; [apply keyed_after_app; [reflexivity | exact K] |].
  split; [| split].
  - constructor; [left; exact Ht |].
    eapply List.Forall_impl; [| exact F]. intros n Hn. right.
    exists (MPSItem.planned_date line). exact Hn.
  - intros _. simpl. rewrite (component_nodes_not_top _ _ _ F). reflexivity.
  - rewrite calculate_release_date_item in Hrel.
    destruct (on_calendar_ends _ _ _ _ Hrel E) as [-> | ->];
      [left | right; left]; reflexivity.
Qed.

Lemma run_ends_or_overflows_mono lines lines' r :
  incl lines lines' ->
  run_ends_or_overflows db lines lead_time_factor r ->
  run_ends_or_overflows db lines' lead_time_factor r.
Proof.
  intros Hincl [H | [H | [H (line & Hin & Hoff)]]];
    [left; exact H | right; left; exact H |].
  right. right. split; [exact H |]. exists line.
  split; [apply Hincl, Hin | exact Hoff].
Qed.

(** What the whole loop [for mps_item in mps_items] does to the session. *)
Lemma explode_mps_items_grown lines :
  forall s r s',
    on_catalog db s ->
    for_each lines (explode_mps_item recursion_limit mrp_run db_mrp_run) s
      = (r, s') ->
    exists new,
      s' = add_items s new /\
      keyed_after (DB.mrpitem (pending s)) new /\
      Forall (run_node lines new) new /\
      (r = Ok tt ->
       length (List.filter is_top_level new)
       = length (List.filter (has_active_bom db) lines)) /\
      run_ends_or_overflows db lines lead_time_factor r.
Proof.
  induction lines as [| line ls IH]; intros s r s' Hs Hrun.
  - injection Hrun as <- <-. exists []. rewrite add_items_nil.
    split; [reflexivity |]. split; [apply keyed_after_nil |].
    split; [constructor |]. split; [reflexivity | left; reflexivity].
  - simpl in Hrun.
    apply bind_inv in Hrun as [([] & s1 & H1 & Hrest) | (e & H1 & ->)].
    + apply (explode_mps_item_grown line s _ s1 Hs) in H1
        as (new1 & -> & K1 & F1 & C1 & _).
      specialize (C1 eq_refl).
      apply IH in Hrest as (new2 & -> & K2 & F2 & C2 & E2).
      2:{ eapply appended_on_catalog; [exact Hs |]. exists new1. reflexivity. }
      rewrite add_items_app. exists (new1 ++ new2).
      split; [reflexivity |].
      split; [apply keyed_after_app; assumption |].
      split; [| split].
      * apply List.Forall_app. split.
        -- eapply List.Forall_impl; [| exact F1]. intros n.
           apply run_node_mono.
           ++ intros x [<- | []]. left. reflexivity.
           ++ intros x Hx. apply in_or_app. left. exact Hx.
        -- eapply List.Forall_impl; [| exact F2]. intros n.
           apply run_node_mono.
           ++ intros x Hx. right. exact Hx.
           ++ intros x Hx. apply in_or_app. right. exact Hx.
      * intros Hr. specialize (C2 Hr).
        rewrite List.filter_app, List.length_app, C1, C2. simpl.
        destruct (has_active_bom db line); reflexivity.
      * eapply run_ends_or_overflows_mono; [| exact E2].
        intros x Hx. right. exact Hx.
    + apply (explode_mps_item_grown line s _ s' Hs) in H1
        as (new1 & -> & K1 & F1 & _ & E1).
      exists new1. split; [reflexivity |]. split; [exact K1 |].
      split; [| split; [discriminate |]].
      * eapply List.Forall_impl; [| exact F1]. intros n.
        apply run_node_mono.
        -- intros x [<- | []]. left. reflexivity.
        -- intros x Hx. exact Hx.
      * eapply run_ends_or_overflows_mono; [| exact E1].
        intros x [<- | []]. left. reflexivity.
Qed.

End Run.

(** ** What [create_mrp_run] does to the session *)

Lemma create_mrp_run_steps recursion_limit utcnow mrp_run s r s' :
  create_mrp_run recursion_limit utcnow mrp_run s = (r, s') ->
  let db := pending s in
  let run := new_run db utcnow mrp_run in
  let lines := schedule_items db (MRPRunCreate.mps_id mrp_run) in
  match find_mps db (MRPRunCreate.mps_id mrp_run) with
  | None =>
      s' = s /\
      r = Raise (HTTPException 404
                   ("MPS with ID " ++ str (MRPRunCreate.mps_id mrp_run)
                      ++ " not found"))
  | Some _ =>
      exists new,
        pending s' = DB.with_mrpitem (DB.with_mrprun db (DB.mrprun db ++ [run]))
                       (DB.mrpitem db ++ new) /\
        keyed_after (DB.mrpitem db) new /\
        run_nodes db mrp_run run new /\
        ((r = Ok run /\ committed s' = pending s' /\
          length (List.filter is_top_level new)
          = length (List.filter (has_active_bom db) lines))
         \/ (committed s' = committed s /\
             (r = Raise RecursionError \/
              (r = Raise OverflowError /\
               line_off_calendar db lines
                 (MRPRunCreate.lead_time_factor mrp_run)))))
  end.
Proof.
  intros Hrun db run lines. unfold create_mrp_run in Hrun. unfold find_mps.
  apply bind_inv in Hrun as [(m & s1 & Hq & Hrun) | (e & Hq & _)];
    [| discriminate Hq].
  injection Hq as <- <-. fold db in Hrun.
  destruct (List.find _ (DB.mps db)) as [m |] eqn:Hm.
  2:{ injection Hrun as <- <-. split; reflexivity. }
  apply List.find_some in Hm as [_ Hm]. apply Nat.eqb_eq in Hm.
  apply bind_inv in Hrun as [(run' & s1 & Hadd & Hrun) | (e & Hq & _)];
    [| discriminate Hq].
  injection Hadd as <- <-. fold db in Hrun. fold (new_run db utcnow mrp_run) in Hrun.
  fold run in Hrun.
  apply bind_inv in Hrun as [(ls & s1 & Hq & Hrun) | (e & Hq & _)];
    [| discriminate Hq].
  injection Hq as <- <-. rewrite Hm in Hrun. simpl in Hrun.
  fold (schedule_items db (MRPRunCreate.mps_id mrp_run)) in Hrun.
  fold lines in Hrun.
  set (s1 := {| committed := committed s;
                pending := DB.with_mrprun db (DB.mrprun db ++ [run]) |}) in *.
  assert (Hs1 : on_catalog db s1) by reflexivity.
  apply bind_inv in Hrun as [([] & s2 & Hloop & Hrun) | (e & Hloop & ->)].
  - apply (explode_mps_items_grown db (MRPRun.id run)
             (MRPRunCreate.lead_time_factor mrp_run)
             (MRPRunCreate.include_safety_stock mrp_run)
             recursion_limit mrp_run run eq_refl eq_refl eq_refl _ _ _ _ Hs1)
      in Hloop as (new & -> & K & F & C & _).
    injection Hrun as <- <-. exists new. simpl.
    split; [reflexivity |]. split; [exact K |]. split; [exact F |].
    left. split; [reflexivity |]. split; [reflexivity | exact (C eq_refl)].
  - apply (explode_mps_items_grown db (MRPRun.id run)
             (MRPRunCreate.lead_time_factor mrp_run)
             (MRPRunCreate.include_safety_stock mrp_run)
             recursion_limit mrp_run run eq_refl eq_refl eq_refl _ _ _ _ Hs1)
      in Hloop as (new & -> & K & F & _ & E).
    exists new. simpl.
    split; [reflexivity |]. split; [exact K |]. split; [exact F |].
    right. split; [reflexivity |].
    destruct E as [E | [E | [E Hoff]]]; [discriminate E | |];
      injection E as ->; [left; reflexivity | right; split; [reflexivity | exact Hoff]].
Qed.

Lemma create_mrp_run_ok recursion_limit utcnow mrp_run s run s' :
  create_mrp_run recursion_limit utcnow mrp_run s = (Ok run, s') ->
  let db := pending s in
  let new := created_nodes s s' in
  find_mps db (MRPRunCreate.mps_id mrp_run) <> None /\
  run = new_run db utcnow mrp_run /\
  committed s' =
    DB.with_mrpitem (DB.with_mrprun db (DB.mrprun db ++ [run]))
      (DB.mrpitem db ++ new) /\
  keyed_after (DB.mrpitem db) new /\
  run_nodes db mrp_run run new /\
  length (List.filter is_top_level new)
  = length (List.filter (has_active_bom db)
              (schedule_items db (MRPRunCreate.mps_id mrp_run))).
Proof.
  intros Hrun db new. apply create_mrp_run_steps in Hrun. fold db in Hrun.
  cbv zeta in Hrun.
  destruct (find_mps db _) as [m |]; [| destruct Hrun as [_ Hr]; discriminate Hr].
  destruct Hrun as (new' & Hp & K & F & [(Hr & Hc & Hn) | (_ & [Hr | [Hr _]])]);
    [| discriminate Hr | discriminate Hr].
  injection Hr as Hr.
  assert (Hnew : new = new').
  { unfold new, created_nodes. rewrite Hc, Hp. simpl. fold db.
    rewrite List.skipn_app, List.skipn_all, Nat.sub_diag. reflexivity. }
  rewrite Hnew, Hc, Hp, Hr.
  split; [discriminate |]. split; [reflexivity |]. split; [reflexivity |].
  split; [exact K |]. split; [exact F | exact Hn].
Qed.

(** The handler raises only before its commit: the 404 of an unknown MPS,
    [RecursionError], or the [OverflowError] of a release date off the
    calendar. *)
Lemma create_mrp_run_raises recursion_limit utcnow mrp_run s e s' :
  create_mrp_run recursion_limit utcnow mrp_run s = (Raise e, s') ->
  committed s' = committed s /\
  match find_mps (pending s) (MRPRunCreate.mps_id mrp_run) with
  | None =>
      e = HTTPException 404
            ("MPS with ID " ++ str (MRPRunCreate.mps_id mrp_run) ++ " not found")
  | Some _ =>
      e = RecursionError \/
      (e = OverflowError /\
       line_off_calendar (pending s)
         (schedule_items (pending s) (MRPRunCreate.mps_id mrp_run))
         (MRPRunCreate.lead_time_factor mrp_run))
  end.
Proof.
  intros Hrun. apply create_mrp_run_steps in Hrun. cbv zeta in Hrun.
  destruct (find_mps _ _) as [m |].
  - destruct Hrun as (new & _ & _ & _ & [(Hr & _) | (Hc & Hr)]);
      [discriminate Hr |].
    split; [exact Hc |].
    destruct Hr as [Hr | [Hr Hoff]]; injection Hr as ->;
      [left; reflexivity | right; split; [reflexivity | exact Hoff]].
  - destruct Hrun as [-> Hr]. injection Hr as ->. split; reflexivity.
Qed.

Lemma on_calendar_not_off db lines lf :
  on_calendar db lines lf -> ~ line_off_calendar db lines lf.
Proof.
  intros Hcal (line & Hin & Hbom & Hoff).
  destruct (Hcal line Hin Hbom) as [release Hrel].
  unfold off_calendar in Hoff. congruence.
Qed.

(** A loop that ends well has run its body to a good end on every
    element. *)
Lemma for_each_ok_inv {A} (I : Session -> Prop) (l : list A) (body : A -> M unit) :
  (forall x s r s', In x l -> I s -> body x s = (r, s') -> I s') ->
  forall s s',
    I s -> for_each l body s = (Ok tt, s') ->
    forall x, In x l -> exists t t', I t /\ body x t = (Ok tt, t').
Proof.
  induction l as [| y l IH]; intros Hbody s s' Hs Hrun x Hx; [destruct Hx |].
  simpl in Hrun.
  apply bind_inv in Hrun as [([] & s1 & Hy & Hrest) | (e & _ & He)];
    [| discriminate He].
  destruct Hx as [<- | Hx].
  - exists s, s1. split; [exact Hs | exact Hy].
  - apply (IH (fun z t r t' Hz => Hbody z t r t' (or_intror Hz)) s1 s'); auto.
    exact (Hbody y s _ s1 (or_introl eq_refl) Hs Hy).
Qed.

Section Ending.
Variables (recursion_limit : nat) (utcnow : datetime) (mrp_run : MRPRunCreate.t).
Variable s : Session.
Let db := pending s.
Let lines := schedule_items db (MRPRunCreate.mps_id mrp_run).
Let lead_time_factor := MRPRunCreate.lead_time_factor mrp_run.

Lemma explode_mps_item_keeps_catalog run line t r t' :
  on_catalog db t ->
  explode_mps_item recursion_limit mrp_run run line t = (r, t') ->
  on_catalog db t' /\ run_ends_or_overflows db [line] lead_time_factor r.
Proof.
  intros Ht Hrun.
  apply (explode_mps_item_grown db (MRPRun.id run)
           (MRPRunCreate.lead_time_factor mrp_run)
           (MRPRunCreate.include_safety_stock mrp_run)
           recursion_limit mrp_run run eq_refl eq_refl eq_refl _ _ _ _ Ht)
    in Hrun as (new & -> & _ & _ & _ & E).
  split; [exact Ht | exact E].
Qed.

Lemma explode_mps_item_on_calendar run line t r t' :
  on_calendar db lines lead_time_factor -> In line lines ->
  on_catalog db t ->
  explode_mps_item recursion_limit mrp_run run line t = (r, t') ->
  on_catalog db t' /\ (r = Ok tt \/ r = Raise RecursionError).
Proof.
  intros Hcal Hline Ht Hrun.
  apply explode_mps_item_keeps_catalog in Hrun as [Ht' E]; [| exact Ht].
  split; [exact Ht' |].
  destruct E as [E | [E | [_ (y & [<- | []] & Hbom & Hoff)]]];
    [left; exact E | right; exact E |].
  destruct (Hcal line Hline Hbom) as [release Hrel].
  unfold off_calendar in Hoff. congruence.
Qed.

(** The session in which the loop over the schedule lines starts. *)
Lemma create_mrp_run_loop_starts m :
  find_mps db (MRPRunCreate.mps_id mrp_run) = Some m ->
  create_mrp_run recursion_limit utcnow mrp_run s =
  match for_each lines
          (explode_mps_item recursion_limit mrp_run (new_run db utcnow mrp_run))
          {| committed := committed s;
             pending := DB.with_mrprun db
                          (DB.mrprun db ++ [new_run db utcnow mrp_run]) |} with
  | (Ok _, s2) =>
      (Ok (new_run db utcnow mrp_run),
       {| committed := pending s2; pending := pending s2 |})
  | (Raise e, s2) => (Raise e, s2)
  end.
Proof.
  intros Hm.
  unfold create_mrp_run. unfold bind at 1. unfold query_first at 1.
  fold db. fold (find_mps db (MRPRunCreate.mps_id mrp_run)). rewrite Hm.
  unfold find_mps in Hm. apply List.find_some in Hm as [_ Hid].
  apply Nat.eqb_eq in Hid.
  unfold bind at 1. unfold add_mrprun at 1.
  unfold bind at 1. unfold query_all at 1. rewrite Hid. simpl pending.
  fold db. fold (new_run db utcnow mrp_run).
  change (DB.mpsitem (DB.with_mrprun db _)) with (DB.mpsitem db).
  change (List.filter (fun i => MPSItem.mps_id i =? MRPRunCreate.mps_id mrp_run)
            (DB.mpsitem db)) with lines.
  unfold bind at 1.
  destruct (for_each lines _ _) as [[[] | e] s2]; reflexivity.
Qed.

(** A line whose BOM starts a chain of nested calls as long as the limit
    overflows the stack, and so does the request, when the release dates
    are on the calendar. *)
Lemma create_mrp_run_overflows m line bom :
  find_mps db (MRPRunCreate.mps_id mrp_run) = Some m ->
  on_calendar db lines lead_time_factor ->
  In line lines ->
  List.find (active_bom_of (MPSItem.product_id line)) (DB.bom db) = Some bom ->
  nests db recursion_limit (BOM.id bom) ->
  exists s',
    create_mrp_run recursion_limit utcnow mrp_run s = (Raise RecursionError, s')
    /\ committed s' = committed s.
Proof.
  intros Hm Hcal Hline Hbom Hnests.
  assert (Hex : exists s',
    create_mrp_run recursion_limit utcnow mrp_run s = (Raise RecursionError, s')).
  { rewrite (create_mrp_run_loop_starts m Hm).
    set (s1 := {| committed := committed s; pending := _ |}).
    assert (Hs1 : on_catalog db s1) by reflexivity.
    destruct (for_each_raises (on_catalog db) RecursionError lines
                (explode_mps_item recursion_limit mrp_run (new_run db utcnow mrp_run))
                line Hline) with (s := s1) as [s2 H2].
    - intros y t r t' Hy Ht Hrun.
      exact (explode_mps_item_on_calendar _ _ _ _ _ Hcal Hy Ht Hrun).
    - intros t Ht. destruct (catalog_eq _ _ Ht) as (Hinv & Hboms & _).
      assert (Hactive : has_active_bom db line = true)
        by (unfold has_active_bom; rewrite Hbom; reflexivity).
      destruct (Hcal line Hline Hactive) as [release Hrel].
      unfold explode_mps_item.
      unfold bind at 1. unfold query_first at 1. rewrite Hboms, Hbom.
      unfold bind at 1. unfold query_first at 1.
      unfold bind at 1. unfold lift at 1.
      rewrite calculate_release_date_item. fold lead_time_factor. rewrite Hrel.
      unfold bind at 1. unfold add_mrpitem at 1.
      apply (process_bom_components_overflows db _ _ _ _ _ _ _ _ release);
        [exact Hrel | exact Hnests | exact Ht].
    - exact Hs1.
    - exists s2. rewrite H2. reflexivity. }
  destruct Hex as [s' Hrun]. exists s'. split; [exact Hrun |].
  exact (proj1 (create_mrp_run_raises _ _ _ _ _ _ Hrun)).
Qed.

(** With every scheduled BOM shallower than the limit and the release dates
    on the calendar, the request ends. *)
Lemma create_mrp_run_ends m :
  find_mps db (MRPRunCreate.mps_id mrp_run) = Some m ->
  on_calendar db lines lead_time_factor ->
  (forall line bom,
     In line lines ->
     List.find (active_bom_of (MPSItem.product_id line)) (DB.bom db) = Some bom ->
     shallow db recursion_limit (BOM.id bom)) ->
  exists s',
    create_mrp_run recursion_limit utcnow mrp_run s
      = (Ok (new_run db utcnow mrp_run), s').
Proof.
  intros Hm Hcal Hshallow.
  rewrite (create_mrp_run_loop_starts m Hm).
  set (s1 := {| committed := committed s; pending := _ |}).
  assert (Hs1 : on_catalog db s1) by reflexivity.
  destruct (for_each_ok (on_catalog db) lines
              (explode_mps_item recursion_limit mrp_run (new_run db utcnow mrp_run)))
    with (s := s1) as (s2 & H2 & _).
  - intros line t Hline Ht. destruct (catalog_eq _ _ Ht) as (Hinv & Hboms & _).
    unfold explode_mps_item.
    unfold bind at 1. unfold query_first at 1. rewrite Hboms.
    destruct (List.find _ (DB.bom db)) as [b |] eqn:Hb.
    2:{ exists t. split; [reflexivity | exact Ht]. }
    assert (Hactive : has_active_bom db line = true)
      by (unfold has_active_bom; rewrite Hb; reflexivity).
    destruct (Hcal line Hline Hactive) as [release Hrel].
    unfold bind at 1. unfold query_first at 1.
    unfold bind at 1. unfold lift at 1.
    rewrite calculate_release_date_item. fold lead_time_factor. rewrite Hrel.
    unfold bind at 1. unfold add_mrpitem at 1.
    apply (process_bom_components_ends db _ _ _ _ _ _ _ _ release);
      [exact Hrel | | exact Ht].
    exact (Hshallow line b Hline Hb).
  - exact Hs1.
  - eexists. rewrite H2. reflexivity.
Qed.

(** A request that ends well has found every release date on the
    calendar. *)
Lemma create_mrp_run_on_calendar run s' :
  create_mrp_run recursion_limit utcnow mrp_run s = (Ok run, s') ->
  on_calendar db lines lead_time_factor.
Proof.
  intros Hrun line Hline Hactive.
  destruct (calculate_release_date (MPSItem.planned_date line) None
              lead_time_factor) as [release | e] eqn:Hrel;
    [exists release; reflexivity |].
  apply calculate_release_date_raises in Hrel as [-> Hoff].
  destruct (find_mps db (MRPRunCreate.mps_id mrp_run)) as [m |] eqn:Hm.
  2:{ apply create_mrp_run_ok in Hrun as [Hf _]. fold db in Hf. congruence. }
  rewrite (create_mrp_run_loop_starts m Hm) in Hrun.
  set (s1 := {| committed := committed s; pending := _ |}) in Hrun.
  assert (Hs1 : on_catalog db s1) by reflexivity.
  destruct (for_each lines _ s1) as [[[] | e] s2] eqn:Hloop; [| discriminate Hrun].
  destruct (for_each_ok_inv (on_catalog db) lines _
              (fun y t r t' _ Ht Hy =>
                 proj1 (explode_mps_item_keeps_catalog _ y t r t' Ht Hy))
              s1 s2 Hs1 Hloop line Hline) as (t & t' & Ht & Hbody).
  destruct (catalog_eq _ _ Ht) as (Hinv & Hboms & _).
  unfold explode_mps_item in Hbody.
  unfold bind at 1 in Hbody. unfold query_first at 1 in Hbody.
  rewrite Hboms in Hbody. unfold has_active_bom in Hactive.
  destruct (List.find _ (DB.bom db)) as [b |]; [| discriminate Hactive].
  unfold bind at 1 in Hbody. unfold query_first at 1 in Hbody.
  unfold bind at 1 in Hbody. unfold lift at 1 in Hbody.
  rewrite calculate_release_date_item in Hbody. fold lead_time_factor in Hbody.
  unfold off_calendar in Hoff. rewrite Hoff in Hbody. discriminate Hbody.
Qed.

End Ending.

(** * Properties of the engine *)

(** ** Arithmetic of the netting *)

Lemma py_max_Qmax a b : py_max a b = Qmax a b.
Proof. reflexivity. Qed.

Lemma Qltb_lt a b : Qltb a b = true <-> (a < b)%Q.
Proof.
  unfold Qltb. rewrite Qlt_alt. destruct (a ?= b)%Q; split; congruence.
Qed.

Lemma truthy_false x : truthy x = false -> (x == 0)%Q.
Proof.
  unfold truthy. intros H. apply Qeq_bool_eq.
  destruct (Qeq_bool x 0); [reflexivity | discriminate H].
Qed.

Lemma run_node_created recursion_limit utcnow mrp_run s run s' n :
  create_mrp_run recursion_limit utcnow mrp_run s = (Ok run, s') ->
  In n (created_nodes s s') ->
  run_node (pending s) (MRPRun.id run) (MRPRunCreate.lead_time_factor mrp_run)
    (MRPRunCreate.include_safety_stock mrp_run)
    (schedule_items (pending s) (MRPRunCreate.mps_id mrp_run))
    (created_nodes s s') n.
Proof.
  intros Hrun Hn. apply create_mrp_run_ok in Hrun as (_ & _ & _ & _ & F & _).
  unfold run_nodes in F. rewrite List.Forall_forall in F. exact (F n Hn).
Qed.

Lemma component_safety_stock db mrp_run run_id c item cb pid rd pq release id :
  List.find (item_by_id (BOMComponent.component_id c)) (DB.inventoryitem db)
    = Some item ->
  let n := component_mrp_item run_id c item cb pid rd pq release
             (MRPRunCreate.include_safety_stock mrp_run) id in
  netted_with (safety_stock db mrp_run n) n.
Proof.
  intros Hitem n. unfold netted_with, safety_stock. subst n. cbn.
  rewrite Hitem, py_max_Qmax.
  apply Q.max_compat; [reflexivity |].
  destruct (MRPRunCreate.include_safety_stock mrp_run); cbn; [| reflexivity].
  destruct (truthy (InventoryItem.reorder_point item)) eqn:Ht; [reflexivity |].
  apply truthy_false in Ht. rewrite Ht. reflexivity.
Qed.

(** C1 (as amended): every row a run creates has
    [net_requirement = max(0, gross_requirement + safety_stock -
    projected_on_hand)], where [safety_stock] is the reorder point of the
    item when the run's flag is set and the row is a component row, and
    zero otherwise: a top-level row is netted without safety stock. *)
Theorem net_requirement_netted recursion_limit utcnow mrp_run s run s' n :
  create_mrp_run recursion_limit utcnow mrp_run s = (Ok run, s') ->
  In n (created_nodes s s') ->
  netted_with (applied_safety_stock (pending s) mrp_run n) n.
Proof.
  intros Hrun Hn.
  destruct (run_node_created _ _ _ _ _ _ _ Hrun Hn)
    as [(line & bom & _ & _ & release & Hrelease & Heq) | (rd & p & c & item & _ & _ & _ & _ & _ & Hitem & release & Hrelease & Heq)].
  - as_built n Heq. unfold netted_with, applied_safety_stock. cbn.
    rewrite py_max_Qmax. apply Q.max_compat; [reflexivity | ring].
  - as_built n Heq. apply component_safety_stock. exact Hitem.
Qed.

Lemma net_requirement_netted_witness :
  exists run s',
    create_mrp_run 1000 0 (Scenario.request 1 true) (get_db Scenario.db)
      = (Ok run, s') /\
    exists n,
      In n (created_nodes (get_db Scenario.db) s') /\
      netted_with
        (applied_safety_stock Scenario.db (Scenario.request 1 true) n) n.
Proof.
  run_request H. eexists. split; [right; left; reflexivity |].
  apply (net_requirement_netted _ _ _ _ _ _ _ H). right. left. reflexivity.
Defined.

(** C1 (as stated) fails on a top-level row: with the flag set and a
    reorder point of 5 for product A, the row of A nets 50 - 10 = 40 where
    the formula with the safety stock gives 45. *)
Lemma net_requirement_top_level_without_safety_stock :
  exists run s',
    create_mrp_run 1000 0 (Scenario.request 1 true)
      (get_db Scenario.db_reorder_A) = (Ok run, s') /\
    exists n,
      In n (created_nodes (get_db Scenario.db_reorder_A) s') /\
      ~ netted_with
          (safety_stock Scenario.db_reorder_A (Scenario.request 1 true) n) n.
Proof.
  run_request H. eexists. split; [left; reflexivity |].
  vm_compute. discriminate.
Qed.

(** ** Criticality *)

(** C7 (as amended): a top-level row is critical exactly when
    [projected_on_hand < gross_requirement]; a component row is critical
    exactly when [net_requirement > 0] and
    [projected_on_hand < gross_requirement]. The two readings agree on
    every row netted with a safety stock that is not negative. *)
Theorem is_critical_when recursion_limit utcnow mrp_run s run s' n :
  create_mrp_run recursion_limit utcnow mrp_run s = (Ok run, s') ->
  In n (created_nodes s s') ->
  let short :=
    (MRPItem.projected_on_hand n < MRPItem.gross_requirement n)%Q in
  (is_top_level n = true -> (MRPItem.is_critical n = true <-> short)) /\
  (is_top_level n = false ->
   (MRPItem.is_critical n = true <->
    (0 < MRPItem.net_requirement n)%Q /\ short)) /\
  ((0 <= applied_safety_stock (pending s) mrp_run n)%Q ->
   (MRPItem.is_critical n = true <-> short)).
Proof.
  intros Hrun Hn short.
  destruct (run_node_created _ _ _ _ _ _ _ Hrun Hn)
    as [(line & bom & _ & _ & release & Hrelease & Heq) | (rd & p & c & item & _ & _ & _ & _ & _ & Hitem & release & Hrelease & Heq)].
  - assert (Htop : MRPItem.is_critical n = true <-> short).
    { unfold short. rewrite Heq. cbn. apply Qltb_lt. }
    split; [intros _; exact Htop |]. split; [| intros _; exact Htop].
    rewrite Heq. discriminate.
  - assert (Hcomp : MRPItem.is_critical n = true <->
                    (0 < MRPItem.net_requirement n)%Q /\ short).
    { unfold short. rewrite Heq. cbn.
      rewrite andb_true_iff, !Qltb_lt. reflexivity. }
    split; [rewrite Heq; discriminate |]. split; [intros _; exact Hcomp |].
    intros Hss. rewrite Hcomp. split; [intros [_ H]; exact H |].
    intros Hshort. split; [| exact Hshort].
    assert (Hnet : netted_with (applied_safety_stock (pending s) mrp_run n) n).
    { clear -Heq Hitem. as_built n Heq. apply component_safety_stock. exact Hitem. }
    unfold netted_with in Hnet. rewrite Hnet. unfold short in Hshort.
    set (x := (MRPItem.gross_requirement n
               + applied_safety_stock (pending s) mrp_run n
               - MRPItem.projected_on_hand n)%Q) in *.
    assert (Hx : (0 < x)%Q) by (unfold x; lra).
    rewrite (Q.max_r 0 x (Qlt_le_weak _ _ Hx)). exact Hx.
Qed.

Lemma is_critical_when_witness :
  exists run s',
    create_mrp_run 1000 0 (Scenario.request 1 true) (get_db Scenario.db)
      = (Ok run, s') /\
    exists n,
      In n (created_nodes (get_db Scenario.db) s') /\
      (MRPItem.is_critical n = true <->
       (0 < MRPItem.net_requirement n)%Q /\
       (MRPItem.projected_on_hand n < MRPItem.gross_requirement n)%Q).
Proof.
  run_request H. eexists. split; [right; left; reflexivity |].
  apply (is_critical_when _ _ _ _ _ _ _ H); [right; left |]; reflexivity.
Defined.

(** C7 (as stated) fails on a component row: with the flag set and a
    reorder point of -100 for B, the row of B has 5 on hand against a gross
    requirement of 80 and nets to 0, so it is not flagged critical. *)
Lemma is_critical_not_set_when_nothing_is_netted :
  exists run s',
    create_mrp_run 1000 0 (Scenario.request 1 true)
      (get_db Scenario.db_negative_reorder_B) = (Ok run, s') /\
    exists n,
      In n (created_nodes (get_db Scenario.db_negative_reorder_B) s') /\
      ~ (MRPItem.is_critical n = true <->
         (MRPItem.projected_on_hand n < MRPItem.gross_requirement n)%Q).
Proof.
  run_request H. eexists. split; [right; left; reflexivity |].
  cbn. intros [_ Hcrit]. discriminate Hcrit. reflexivity.
Qed.

(** ** Parent and child *)

Lemma mrp_item_by_id_keyed k new p :
  item_ids new = seq k (length new) -> In p new ->
  mrp_item_by_id new (MRPItem.id p) = Some p.
Proof.
  revert k. induction new as [| x new IH]; intros k Hk Hp; [destruct Hp |].
  cbn in Hk. injection Hk as Hx Hrest. unfold mrp_item_by_id. cbn.
  destruct Hp as [-> | Hp].
  - rewrite Nat.eqb_refl. reflexivity.
  - assert (Hlt : k < MRPItem.id p).
    { apply (List.in_map MRPItem.id) in Hp. unfold item_ids in Hrest.
      rewrite Hrest in Hp. apply List.in_seq in Hp. lia. }
    destruct (Nat.eqb_spec (MRPItem.id x) (MRPItem.id p)) as [E | _]; [lia |].
    exact (IH (S k) Hrest Hp).
Qed.

Lemma find_app_none {A} (f : A -> bool) (l1 l2 : list A) :
  List.find f l1 = None -> List.find f (l1 ++ l2) = List.find f l2.
Proof.
  induction l1 as [| x l1 IH]; intros H; [reflexivity |].
  cbn in *. destruct (f x); [discriminate H | exact (IH H)].
Qed.

Lemma mrp_item_by_id_created base new p :
  keyed_after base new -> In p new ->
  mrp_item_by_id (base ++ new) (MRPItem.id p) = Some p.
Proof.
  intros K Hp. unfold mrp_item_by_id.
  rewrite find_app_none; [exact (mrp_item_by_id_keyed _ _ _ K Hp) |].
  destruct (List.find _ base) as [x |] eqn:Hx; [| reflexivity].
  apply List.find_some in Hx as [Hin Hid]. apply Nat.eqb_eq in Hid.
  destruct (keyed_after_In _ _ _ K Hp) as [Hge _].
  apply (List.in_map MRPItem.id) in Hin. fold (item_ids base) in Hin.
  assert (Hle := proj1 (List.list_max_le (item_ids base)
                          (List.list_max (item_ids base))) (Nat.le_refl _)).
  rewrite List.Forall_forall in Hle. specialize (Hle _ Hin).
  unfold next_id in Hge. lia.
Qed.

(** C5: a row with a parent was built from a component of the BOM of its
    parent, which is a row of the same run, and its gross requirement is
    the planned order release of the parent times the per-unit quantity of
    that component. *)
Theorem child_gross_requirement recursion_limit utcnow mrp_run s run s' n pid :
  create_mrp_run recursion_limit utcnow mrp_run s = (Ok run, s') ->
  In n (created_nodes s s') ->
  MRPItem.parent_id n = Some pid ->
  exists p c,
    mrp_item_by_id (DB.mrpitem (committed s')) pid = Some p /\
    In p (created_nodes s s') /\
    In c (DB.bomcomponent (pending s)) /\
    MRPItem.bom_id p = Some (BOMComponent.bom_id c) /\
    MRPItem.item_id n = BOMComponent.component_id c /\
    MRPItem.gross_requirement n
    = (MRPItem.planned_order_release p * BOMComponent.quantity c)%Q.
Proof.
  intros Hrun Hn Hpid.
  destruct (create_mrp_run_ok _ _ _ _ _ _ Hrun) as (_ & _ & Hc & K & _).
  destruct (run_node_created _ _ _ _ _ _ _ Hrun Hn)
    as [(line & bom & _ & _ & release & Hrelease & Heq) | (rd & p & c & item & Hp & _ & _ & Hcin & Hbom & _ & release & Hrelease & Heq)].
  - rewrite Heq in Hpid. discriminate Hpid.
  - exists p, c. rewrite Heq in Hpid. injection Hpid as <-.
    split; [rewrite Hc; exact (mrp_item_by_id_created _ _ _ K Hp) |].
    split; [exact Hp |]. split; [exact Hcin |]. split; [exact Hbom |].
    rewrite Heq. split; reflexivity.
Qed.

Lemma child_gross_requirement_witness :
  exists run s',
    create_mrp_run 1000 0 (Scenario.request 1 false) (get_db Scenario.db)
      = (Ok run, s') /\
    exists n p c,
      In n (created_nodes (get_db Scenario.db) s') /\
      MRPItem.parent_id n = Some 1 /\
      mrp_item_by_id (DB.mrpitem (committed s')) 1 = Some p /\
      In c (DB.bomcomponent Scenario.db) /\
      MRPItem.gross_requirement n
      = (MRPItem.planned_order_release p * BOMComponent.quantity c)%Q.
Proof.
  run_request H.
  destruct (child_gross_requirement _ _ _ _ _ _ _ 1 H
              (or_intror (or_introl eq_refl)) eq_refl)
    as (p & c & Hp & _ & Hc & _ & _ & Hg).
  eexists. exists p, c.
  split; [right; left; reflexivity |]. split; [reflexivity |].
  split; [exact Hp |]. split; [exact Hc | exact Hg].
Defined.

(** ** Dates *)

Lemma order_release_date_created recursion_limit utcnow mrp_run s run s' n :
  create_mrp_run recursion_limit utcnow mrp_run s = (Ok run, s') ->
  In n (created_nodes s s') ->
  MRPItem.order_release_date n
  = Some (MRPItem.required_date n
          - timedelta_days (MRPRunCreate.lead_time_factor mrp_run))%Z.
Proof.
  intros Hrun Hn.
  destruct (run_node_created _ _ _ _ _ _ _ Hrun Hn)
    as [(line & bom & _ & _ & release & Hrelease & Heq) | (rd & p & c & item & _ & _ & _ & _ & _ & _ & release & Hrelease & Heq)];
    rewrite Heq; cbn; rewrite (calculate_release_date_ok _ _ _ _ Hrelease);
    reflexivity.
Qed.

(** C9: the release date is the required date minus [lead_time_days *
    lead_time_factor] days, where [lead_time_days] is 1 for every item (no
    item carries a [lead_time] attribute, and neither does [None]): the
    function computes [required_date - timedelta(days=1 * lead_time_factor)],
    and what it returns is the required date minus [lead_time_factor]
    days; so the release date of every row a run creates is its required
    date minus [lead_time_factor] days. *)
Theorem release_date_offset :
  (forall required_date item lead_time_factor,
     ~ In "lead_time"%string InventoryItem.attributes /\
     calculate_release_date required_date item lead_time_factor
     = match timedelta (1 * lead_time_factor) with
       | Ok delta => datetime_sub required_date delta
       | Raise e => Raise e
       end /\
     forall release,
       calculate_release_date required_date item lead_time_factor
       = Ok release ->
       release = (required_date - timedelta_days (1 * lead_time_factor))%Z /\
       release = (required_date - timedelta_days lead_time_factor)%Z) /\
  (forall recursion_limit utcnow mrp_run s run s' n,
     create_mrp_run recursion_limit utcnow mrp_run s = (Ok run, s') ->
     In n (created_nodes s s') ->
     MRPItem.order_release_date n
     = Some (MRPItem.required_date n
             - timedelta_days (MRPRunCreate.lead_time_factor mrp_run))%Z).
Proof.
  split.
  - intros rd item f. split.
    + cbn. intros H. repeat (destruct H as [H | H]; [discriminate H |]). exact H.
    + rewrite Qmult_1_l_eq. split; [apply calculate_release_date_default |].
      intros release Hrelease.
      split; exact (calculate_release_date_ok _ _ _ _ Hrelease).
  - apply order_release_date_created.
Qed.

Lemma release_date_offset_witness :
  exists run s',
    create_mrp_run 1000 0 (Scenario.request (3 # 2) true) (get_db Scenario.db)
      = (Ok run, s') /\
    exists n,
      In n (created_nodes (get_db Scenario.db) s') /\
      MRPItem.order_release_date n
      = Some (MRPItem.required_date n - timedelta_days (3 # 2))%Z.
Proof.
  run_request H. eexists. split; [right; left; reflexivity |].
  apply (proj2 release_date_offset _ _ _ _ _ _ _ H). right. left. reflexivity.
Defined.

Lemma root_of_created recursion_limit utcnow mrp_run s run s' :
  create_mrp_run recursion_limit utcnow mrp_run s = (Ok run, s') ->
  forall k n,
    MRPItem.id n < k ->
    In n (created_nodes s s') ->
    exists t line,
      root_of (DB.mrpitem (committed s')) n t /\
      In t (created_nodes s s') /\
      In line (schedule_items (pending s) (MRPRunCreate.mps_id mrp_run)) /\
      built_for line t /\
      MRPItem.required_date n = MPSItem.planned_date line.
Proof.
  intros Hrun.
  destruct (create_mrp_run_ok _ _ _ _ _ _ Hrun) as (_ & _ & Hc & K & _).
  induction k as [| k IH]; intros n Hk Hn; [lia |].
  destruct (run_node_created _ _ _ _ _ _ _ Hrun Hn)
    as [(line & bom & Hline & _ & release & Hrelease & Heq) | (rd & p & c & item & Hp & Hlt & Hrd & _ & _ & _ & release & Hrelease & Heq)].
  - exists n, line. split; [constructor; rewrite Heq; reflexivity |].
    split; [exact Hn |]. split; [exact Hline |].
    rewrite Heq. repeat split.
  - destruct (IH p ltac:(lia) Hp) as (t & line & Hroot & Ht & Hline & Hb & Hdate).
    exists t, line. split.
    + apply (root_above _ n (MRPItem.id p) p t).
      * rewrite Heq. reflexivity.
      * rewrite Hc. exact (mrp_item_by_id_created _ _ _ K Hp).
      * exact Hroot.
    + split; [exact Ht |]. split; [exact Hline |]. split; [exact Hb |].
      rewrite <- Hdate, Hrd, Heq. reflexivity.
Qed.

(** C10 (as amended): every row a run creates hangs from a top-level row of
    the run built for a line of the schedule, and its required date is the
    planned date of that line; the required date of a child is that of its
    parent, and it is the release date of the parent exactly when the
    lead-time offset is zero. *)
Theorem required_date_of_root recursion_limit utcnow mrp_run s run s' n :
  create_mrp_run recursion_limit utcnow mrp_run s = (Ok run, s') ->
  In n (created_nodes s s') ->
  (exists t line,
     root_of (DB.mrpitem (committed s')) n t /\
     In line (schedule_items (pending s) (MRPRunCreate.mps_id mrp_run)) /\
     built_for line t /\
     MRPItem.required_date n = MPSItem.planned_date line) /\
  (forall pid,
     MRPItem.parent_id n = Some pid ->
     exists p,
       mrp_item_by_id (DB.mrpitem (committed s')) pid = Some p /\
       MRPItem.required_date n = MRPItem.required_date p /\
       (timedelta_days (MRPRunCreate.lead_time_factor mrp_run) <> 0%Z ->
        MRPItem.order_release_date p <> Some (MRPItem.required_date n)) /\
       (timedelta_days (MRPRunCreate.lead_time_factor mrp_run) = 0%Z ->
        MRPItem.order_release_date p = Some (MRPItem.required_date n))).
Proof.
  intros Hrun Hn. split.
  - destruct (root_of_created _ _ _ _ _ _ Hrun (S (MRPItem.id n)) n
                (Nat.lt_succ_diag_r _) Hn)
      as (t & line & Hroot & _ & Hline & Hb & Hdate).
    exists t, line. auto.
  - intros pid Hpid.
    destruct (create_mrp_run_ok _ _ _ _ _ _ Hrun) as (_ & _ & Hc & K & _).
    destruct (run_node_created _ _ _ _ _ _ _ Hrun Hn)
      as [(line & bom & _ & _ & release & Hrelease & Heq) | (rd & p & c & item & Hp & _ & Hrd & _ & _ & _ & release & Hrelease & Heq)].
    + rewrite Heq in Hpid. discriminate Hpid.
    + exists p. rewrite Heq in Hpid. injection Hpid as <-.
      split; [rewrite Hc; exact (mrp_item_by_id_created _ _ _ K Hp) |].
      assert (Hsame : MRPItem.required_date n = MRPItem.required_date p)
        by (rewrite Hrd, Heq; reflexivity).
      split; [exact Hsame |].
      rewrite (order_release_date_created _ _ _ _ _ _ _ Hrun Hp), Hsame.
      split.
      * intros Hoff E. injection E as E. lia.
      * intros Hzero. rewrite Hzero, Z.sub_0_r. reflexivity.
Qed.

Lemma required_date_of_root_witness :
  exists run s',
    create_mrp_run 1000 0 (Scenario.request 1 true) (get_db Scenario.db)
      = (Ok run, s') /\
    exists n t line,
      In n (created_nodes (get_db Scenario.db) s') /\
      MRPItem.parent_id n <> None /\
      root_of (DB.mrpitem (committed s')) n t /\
      built_for line t /\
      MRPItem.required_date n = MPSItem.planned_date line.
Proof.
  run_request H.
  destruct (proj1 (required_date_of_root _ _ _ _ _ _ _ H
                     (or_intror (or_introl eq_refl))))
    as (t & line & Hroot & _ & Hb & Hdate).
  eexists. exists t, line.
  split; [right; left; reflexivity |]. split; [discriminate |].
  split; [exact Hroot |]. split; [exact Hb | exact Hdate].
Defined.

(** C10 (as stated) fails for a lead time factor of zero, which the
    request schema accepts: the row of B is required on the date on which
    the row of A, its parent, is released. *)
Lemma required_date_on_release_date_of_parent :
  exists run s',
    create_mrp_run 1000 0 (Scenario.request 0 true) (get_db Scenario.db)
      = (Ok run, s') /\
    exists n p,
      In n (created_nodes (get_db Scenario.db) s') /\
      In p (created_nodes (get_db Scenario.db) s') /\
      MRPItem.parent_id n = Some (MRPItem.id p) /\
      MRPItem.order_release_date p = Some (MRPItem.required_date n).
Proof.
  run_request H. eexists. eexists.
  split; [right; left; reflexivity |]. split; [left; reflexivity |].
  split; reflexivity.
Qed.

(** ** Unknown items *)

Lemma explode_component_without_item limit parent run_id rd pq lf iss c s :
  List.find (item_by_id (BOMComponent.component_id c))
    (DB.inventoryitem (pending s)) = None ->
  explode_component limit parent run_id rd pq lf iss c s = (Ok tt, s).
Proof.
  intros H. unfold explode_component, bind, query_first. rewrite H. reflexivity.
Qed.

(** C4 (as amended): a BOM component whose item is not in the inventory
    does not abort the run, and is skipped: the turn of the loop on it
    ends without a row and without an error, so that every component row
    of a run has an inventory item, whose quantity on hand it records. *)
Theorem component_without_item_is_skipped :
  (forall limit parent run_id rd pq lf iss c s,
     List.find (item_by_id (BOMComponent.component_id c))
       (DB.inventoryitem (pending s)) = None ->
     explode_component limit parent run_id rd pq lf iss c s = (Ok tt, s)) /\
  (forall recursion_limit utcnow mrp_run s run s' n,
     create_mrp_run recursion_limit utcnow mrp_run s = (Ok run, s') ->
     In n (created_nodes s s') ->
     is_top_level n = false ->
     exists item,
       List.find (item_by_id (MRPItem.item_id n)) (DB.inventoryitem (pending s))
         = Some item /\
       MRPItem.projected_on_hand n = InventoryItem.quantity_on_hand item).
Proof.
  split; [apply explode_component_without_item |].
  intros limit utcnow mrp_run s run s' n Hrun Hn Htop.
  destruct (run_node_created _ _ _ _ _ _ _ Hrun Hn)
    as [(line & bom & _ & _ & release & Hrelease & Heq) | (rd & p & c & item & _ & _ & _ & _ & _ & Hitem & release & Hrelease & Heq)].
  - rewrite Heq in Htop. discriminate Htop.
  - exists item. rewrite Heq. cbn. split; [exact Hitem | reflexivity].
Qed.

Lemma component_without_item_is_skipped_witness :
  exists run s',
    create_mrp_run 1000 0 (Scenario.request 1 true) (get_db Scenario.db)
      = (Ok run, s') /\
    exists n item,
      In n (created_nodes (get_db Scenario.db) s') /\
      is_top_level n = false /\
      List.find (item_by_id (MRPItem.item_id n)) (DB.inventoryitem Scenario.db)
        = Some item /\
      MRPItem.projected_on_hand n = InventoryItem.quantity_on_hand item.
Proof.
  run_request H.
  destruct (proj2 component_without_item_is_skipped _ _ _ _ _ _ _ H
              (or_intror (or_introl eq_refl)) eq_refl)
    as (item & Hitem & Hpoh).
  eexists. exists item.
  split; [right; left; reflexivity |]. split; [reflexivity |].
  split; [exact Hitem | exact Hpoh].
Defined.

(** C4 (as stated) fails: when B is not an inventory item the run ends
    well and creates the row of A only, no row for B. *)
Lemma no_row_for_component_without_item :
  List.find (item_by_id 2) (DB.inventoryitem Scenario.db_missing_B) = None /\
  exists run s',
    create_mrp_run 1000 0 (Scenario.request 1 true)
      (get_db Scenario.db_missing_B) = (Ok run, s') /\
    ~ exists n,
        In n (created_nodes (get_db Scenario.db_missing_B) s') /\
        MRPItem.item_id n = 2.
Proof.
  split; [reflexivity |]. run_request H.
  intros (n & [<- | []] & Hid). discriminate Hid.
Qed.




(** ** Top-level rows *)

Lemma explode_mps_item_without_bom limit mrp_run run line s :
  has_active_bom (pending s) line = false ->
  explode_mps_item limit mrp_run run line s = (Ok tt, s).
Proof.
  unfold has_active_bom, explode_mps_item, bind, query_first.
  destruct (List.find _ (DB.bom (pending s))); [discriminate | reflexivity].
Qed.

Lemma shallow_le db n m i : n <= m -> shallow db n i -> shallow db m i.
Proof.
  revert m i. induction n as [| n IH]; intros m i Hle H; [destruct H |].
  destruct m as [| m]; [lia |].
  intros j Hj. apply (IH m); [lia | exact (H j Hj)].
Qed.



(** ** Cycles *)

Lemma nests_le db n m i : n <= m -> nests db m i -> nests db n i.
Proof.
  revert m i. induction n as [| n IH]; intros m i Hle H; [exact I |].
  destruct m as [| m]; [lia |].
  destruct H as (j & Hj & H). exists j. split; [exact Hj |].
  apply (IH m); [lia | exact H].
Qed.

Lemma nests_back db n i j :
  clos_refl_trans nat (expands db) i j -> nests db n j -> nests db n i.
Proof.
  intros Hpath. apply Operators_Properties.clos_rt_rt1n in Hpath.
  induction Hpath as [| i k j Hstep _ IH]; intros H; [exact H |].
  apply (nests_le db n (S n)); [lia |].
  exists k. split; [exact Hstep | exact (IH H)].
Qed.

Lemma cyclic_nests db i : cyclic db i -> forall n, nests db n i.
Proof.
  intros (j & Hij & Hjj) n. apply (nests_back db n i j Hij).
  induction n as [| n IH]; [exact I |].
  apply Operators_Properties.clos_trans_t1n in Hjj.
  inversion Hjj as [k Hstep | k j' Hstep Hrest]; subst.
  - exists j. split; [exact Hstep | exact IH].
  - exists k. split; [exact Hstep |].
    apply (nests_back db n k j); [| exact IH].
    apply Operators_Properties.clos_t1n_trans in Hrest.
    apply Operators_Properties.clos_trans_tn1 in Hrest.
    clear -Hrest. induction Hrest as [y H | y z H _ IH].
    + apply rt_step. exact H.
    + eapply rt_trans; [exact IH | apply rt_step; exact H].
Qed.


Lemma db_cycle_cyclic : cyclic Scenario.db_cycle 1.
Proof.
  exists 1. split; [apply rt_refl |].
  apply t_trans with 2; apply t_step.
  - exists (Scenario.uses 1 1 2 2), (Scenario.item 2 "B" 5 0), (Scenario.bom_of 2 2).
    repeat split. left. reflexivity.
  - exists (Scenario.uses 2 2 1 1), (Scenario.item 1 "A" 10 0), (Scenario.bom_of 1 1).
    repeat split. right. left. reflexivity.
Qed.

Lemma db_cycle_on_calendar :
  on_calendar Scenario.db_cycle
    (schedule_items Scenario.db_cycle 1) 1.
Proof.
  intros line [<- | []] _. eexists. vm_compute. reflexivity.
Qed.


(** With a lead time factor of a thousand million days the same request
    stops on the release date of the row of A, before any call is
    nested. *)
Lemma cycle_off_calendar :
  cyclic Scenario.db_cycle 1 /\
  exists s',
    create_mrp_run 1000 0 (Scenario.request 1000000000 true)
      (get_db Scenario.db_cycle) = (Raise OverflowError, s') /\
    committed s' = Scenario.db_cycle.
Proof.
  split; [exact db_cycle_cyclic |].
  eexists. split; [vm_compute; reflexivity | reflexivity].
Qed.


(** ** The hierarchy of the results *)

Lemma hierarchy_step_levels l :
  forall acc dict,
    Forall (fun i => MRPRunResultItem.level i = 0) acc ->
    Forall (fun i => MRPRunResultItem.level i = 0)
      (fst (List.fold_left hierarchy_step l (acc, dict))).
Proof.
  induction l as [| [[m code] name] l IH]; intros acc dict Hacc; [exact Hacc |].
  cbn [List.fold_left]. unfold hierarchy_step at 2. apply IH.
  apply List.Forall_app. split; [exact Hacc |].
  constructor; [reflexivity | constructor].
Qed.

(** Every row [read_mrp_results] returns has level 0. *)
Lemma read_mrp_results_levels run_id s result s' :
  read_mrp_results run_id s = (Ok result, s') ->
  Forall (fun i => MRPRunResultItem.level i = 0) (MRPRunResult.items result).
Proof.
  intros Hrun. unfold read_mrp_results in Hrun.
  apply bind_inv in Hrun as [(r & s1 & Hq & Hrun) | (e & Hq & _)];
    [| discriminate Hq].
  injection Hq as <- <-.
  destruct (List.find _ (DB.mrprun (pending s))) as [r |]; [| discriminate Hrun].
  apply bind_inv in Hrun as [(rows & s1 & Hq & Hrun) | (e & Hq & _)];
    [| discriminate Hq].
  injection Hq as <- <-.
  assert (H := hierarchy_step_levels
                 (List.flat_map
                    (fun m =>
                       List.map
                         (fun i => (m, InventoryItem.item_code i, InventoryItem.name i))
                         (List.filter (item_by_id (MRPItem.item_id m))
                            (DB.inventoryitem (pending s))))
                    (List.filter (fun m => MRPItem.mrp_run_id m =? run_id)
                       (DB.mrpitem (pending s))))
                 [] ∅ (List.Forall_nil _)).
  destruct (List.fold_left hierarchy_step _ _) as [items dict].
  injection Hrun as <- _. exact H.
Qed.

Lemma child_of_parent_id m x :
  child_of m x = true <-> MRPItem.parent_id x = Some (MRPItem.id m).
Proof.
  unfold child_of. destruct (MRPItem.parent_id x) as [q |].
  - rewrite Nat.eqb_eq. split; congruence.
  - split; discriminate.
Qed.

(** The keys of [items_by_parent] after one more turn of the loop. *)
Lemma items_by_parent_keys (dict : gmap (option nat) (list nat))
  (pid : option nat) (f : list nat -> list nat) (k : option nat) :
  is_Some (alter f pid (match dict !! pid with
                        | None => <[pid := []]> dict
                        | Some _ => dict
                        end) !! k)
  <-> k = pid \/ is_Some (dict !! k).
Proof.
  destruct (decide (pid = k)) as [-> | Hne].
  - destruct (dict !! k) eqn:E.
    + rewrite lookup_alter_eq, E.
      split; [left; reflexivity | intros _; eexists; reflexivity].
    + rewrite lookup_alter_eq, lookup_insert_eq.
      split; [left; reflexivity | intros _; eexists; reflexivity].
  - rewrite lookup_alter_ne by exact Hne.
    destruct (dict !! pid) eqn:E.
    + split; [right; assumption | intros [-> | H]; [congruence | exact H]].
    + rewrite lookup_insert_ne by exact Hne.
      split; [right; assumption | intros [-> | H]; [congruence | exact H]].
Qed.

(** The loop flags a row when a row listed no later names it as parent:
    the dict holds the parents of the rows seen so far only. *)
Lemma hierarchy_step_flags rows :
  forall acc (dict : gmap (option nat) (list nat)) listed,
    (forall k, is_Some (dict !! k) <-> In k (List.map MRPItem.parent_id listed)) ->
    List.map MRPRunResultItem.has_children
      (fst (List.fold_left hierarchy_step rows (acc, dict)))
    = List.map MRPRunResultItem.has_children acc
      ++ flags_after listed (List.map (fun r => fst (fst r)) rows).
Proof.
  induction rows as [| [[m code] name] rows IH]; intros acc dict listed Hkeys.
  - cbn. rewrite List.app_nil_r. reflexivity.
  - cbn [List.fold_left]. unfold hierarchy_step at 2.
    rewrite (IH _ _ (m :: listed)).
    + rewrite List.map_app, <- List.app_assoc. f_equal. cbn [List.map List.app].
      cbn [MRPRunResultItem.has_children flags_after fst]. f_equal.
      destruct (existsb (child_of m) (m :: listed)) eqn:E.
      * apply bool_decide_eq_true_2. apply items_by_parent_keys.
        apply List.existsb_exists in E as (x & [<- | Hx] & Hc);
          apply child_of_parent_id in Hc.
        -- left. symmetry. exact Hc.
        -- right. apply Hkeys. rewrite <- Hc. apply List.in_map. exact Hx.
      * apply bool_decide_eq_false_2. intros H.
        apply items_by_parent_keys in H.
        assert (Hex : existsb (child_of m) (m :: listed) = true);
          [| congruence].
        apply List.existsb_exists. destruct H as [H | H].
        -- exists m. split; [left; reflexivity |].
           apply child_of_parent_id. symmetry. exact H.
        -- apply Hkeys in H. apply List.in_map_iff in H as (x & Hp & Hx).
           exists x. split; [right; exact Hx |].
           apply child_of_parent_id. exact Hp.
    + intros k. rewrite items_by_parent_keys, Hkeys. cbn [List.map In].
      split; intros [H | H]; auto.
Qed.

(** The flags [read_mrp_results] returns, for the rows of its joined
    query. *)
Lemma read_mrp_results_has_children run_id s result s' :
  read_mrp_results run_id s = (Ok result, s') ->
  exists rows,
    query_mrp_items_with_names run_id s = (Ok rows, s) /\
    List.map MRPRunResultItem.has_children (MRPRunResult.items result)
    = flags_after [] (List.map (fun r => fst (fst r)) rows).
Proof.
  intros Hrun. unfold read_mrp_results in Hrun.
  apply bind_inv in Hrun as [(r & s1 & Hq & Hrun) | (e & Hq & _)];
    [| discriminate Hq].
  injection Hq as <- <-.
  destruct (List.find _ (DB.mrprun (pending s))) as [r |]; [| discriminate Hrun].
  apply bind_inv in Hrun as [(rows & s1 & Hq & Hrun) | (e & Hq & _)];
    [| discriminate Hq].
  exists rows. assert (Hs1 : s1 = s) by (injection Hq as _ <-; reflexivity).
  subst s1. split; [exact Hq |].
  assert (H := hierarchy_step_flags rows [] ∅ []).
  destruct (List.fold_left hierarchy_step rows _) as [items dict].
  injection Hrun as <- _. cbn. apply H.
  intros k. rewrite lookup_empty. split; [intros [x Hx]; discriminate Hx | intros []].
Qed.

(** C3 fails on the code: after the run on the worked database, the
    results list the row of A (key 1) and the row of B (key 2, child of
    row 1), both at level 0 and both without children, where the claim
    puts B at level 1 and gives A children. *)
Theorem read_mrp_results_hierarchy_unset :
  exists run s',
    create_mrp_run 1000 0 (Scenario.request 1 false) (get_db Scenario.db)
      = (Ok run, s') /\
    exists result,
      fst (read_mrp_results (MRPRun.id run) (get_db (committed s')))
        = Ok result /\
      List.map hierarchy_of (MRPRunResult.items result)
      = [(1, None, 0, false); (2, Some 1, 0, false)].
Proof.
  run_request H. eexists. split; vm_compute; reflexivity.
Qed.

(** * The other endpoints *)

(** ** Listing the runs *)

Lemma firstn_incl {A} n (l : list A) : incl (List.firstn n l) l.
Proof.
  revert n. induction l as [| x l IH]; intros n y Hy.
  - destruct n; destruct Hy.
  - destruct n as [| n]; [destruct Hy |].
    destruct Hy as [<- | Hy]; [left; reflexivity | right; exact (IH n y Hy)].
Qed.

Lemma skipn_incl {A} n (l : list A) : incl (List.skipn n l) l.
Proof.
  revert n. induction l as [| x l IH]; intros n y Hy.
  - destruct n; destruct Hy.
  - destruct n as [| n]; [exact Hy |]. right. exact (IH n y Hy).
Qed.

(** X1: a listing changes nothing and returns stored runs only, all of
    the MPS asked for when the filter is not zero; a limit that is not
    negative bounds the number of rows; the filter 0 lists like no filter at
    all; and a negative limit with no offset lists exactly the stored runs
    that pass the filter. *)
Theorem read_mrp_runs_page skip limit mps_id s :
  exists rows,
    read_mrp_runs skip limit mps_id s = (Ok rows, s) /\
    incl rows (DB.mrprun (pending s)) /\
    (forall k, mps_id = Some k -> k <> 0%Z ->
               Forall (fun r => Z.of_nat (MRPRun.mps_id r) = k) rows) /\
    ((0 <= limit)%Z -> length rows <= Z.to_nat limit) /\
    read_mrp_runs skip limit (Some 0%Z) s = read_mrp_runs skip limit None s /\
    ((skip <= 0)%Z -> (limit < 0)%Z ->
     forall r,
       In r rows <->
       In r (DB.mrprun (pending s)) /\
       (forall k, mps_id = Some k -> k <> 0%Z ->
                  Z.of_nat (MRPRun.mps_id r) = k)).
Proof.
  unfold read_mrp_runs. cbv zeta. eexists. split; [reflexivity |].
  set (table := DB.mrprun (pending s)).
  set (query := match mps_id with
                | Some k =>
                    if (k =? 0)%Z then table
                    else List.filter
                           (fun r => (Z.of_nat (MRPRun.mps_id r) =? k)%Z) table
                | None => table
                end).
  set (page := List.skipn (Z.to_nat skip) query).
  assert (Hq : incl query table).
  { unfold query. destruct mps_id as [k |]; [destruct (k =? 0)%Z |];
      try (intros r Hr; exact Hr).
    intros r Hr. apply List.filter_In in Hr. tauto. }
  assert (Hrows : incl (if (limit <? 0)%Z then page
                        else List.firstn (Z.to_nat limit) page) query).
  { destruct (limit <? 0)%Z; intros r Hr; [| apply firstn_incl in Hr];
      exact (skipn_incl _ _ r Hr). }
  split; [intros r Hr; apply Hq, Hrows, Hr |].
  split.
  { intros k -> Hk. apply List.Forall_forall. intros r Hr.
    apply Hrows in Hr. unfold query in Hr.
    destruct (Z.eqb_spec k 0) as [E | _]; [contradiction |].
    apply List.filter_In in Hr as [_ Hr]. apply Z.eqb_eq. exact Hr. }
  split.
  { intros Hl. destruct (Z.ltb_spec limit 0) as [Hneg | _]; [lia |].
    apply List.firstn_le_length. }
  split; [reflexivity |].
  intros Hs Hl r. destruct (Z.ltb_spec limit 0) as [_ | Hpos]; [| lia].
  unfold page. replace (Z.to_nat skip) with 0 by lia. rewrite List.skipn_O.
  unfold query. destruct mps_id as [k |].
  - destruct (Z.eqb_spec k 0) as [E | E].
    + split; [| tauto]. intros H. split; [exact H |].
      intros k' Ek Hk. injection Ek as <-. contradiction.
    + rewrite List.filter_In, Z.eqb_eq. split.
      * intros [H1 H2]. split; [exact H1 |]. intros k' Ek _.
        injection Ek as <-. exact H2.
      * intros [H1 H2]. split; [exact H1 | exact (H2 k eq_refl E)].
  - split; [| tauto]. intros H. split; [exact H | discriminate].
Qed.

(** Of the three stored runs, the two of MPS 1 are listed under a limit
    of -1. *)
Lemma read_mrp_runs_page_witness :
  exists rows,
    read_mrp_runs 0 (-1) (Some 1%Z) (get_db Scenario.db_three_runs)
    = (Ok rows, get_db Scenario.db_three_runs) /\
    List.map MRPRun.id rows = [1; 3].
Proof.
  destruct (read_mrp_runs_page 0 (-1) (Some 1%Z) (get_db Scenario.db_three_runs))
    as (rows & H & _).
  exists rows. split; [exact H |].
  vm_compute in H. injection H as <-. reflexivity.
Defined.

(** ** Reading a run back *)

Lemma next_id_gt ids k : In k ids -> k < next_id ids.
Proof.
  intros Hk. unfold next_id.
  assert (H := proj1 (List.list_max_le ids (List.list_max ids)) (Nat.le_refl _)).
  rewrite List.Forall_forall in H. specialize (H k Hk). lia.
Qed.

Lemma filter_all {A} (f : A -> bool) (l : list A) :
  (forall x, In x l -> f x = true) -> List.filter f l = l.
Proof.
  induction l as [| x l IH]; intros H; [reflexivity |].
  cbn. rewrite (H x (or_introl eq_refl)). f_equal.
  apply IH. intros y Hy. apply H. right. exact Hy.
Qed.

Lemma filter_none {A} (f : A -> bool) (l : list A) :
  (forall x, In x l -> f x = false) -> List.filter f l = [].
Proof.
  induction l as [| x l IH]; intros H; [reflexivity |].
  cbn. rewrite (H x (or_introl eq_refl)).
  apply IH. intros y Hy. apply H. right. exact Hy.
Qed.

Lemma created_of_run recursion_limit utcnow mrp_run s run s' n :
  create_mrp_run recursion_limit utcnow mrp_run s = (Ok run, s') ->
  In n (created_nodes s s') ->
  MRPItem.mrp_run_id n = MRPRun.id run.
Proof.
  intros Hrun Hn.
  destruct (run_node_created _ _ _ _ _ _ _ Hrun Hn)
    as [(line & bom & _ & _ & release & Hrelease & Heq) | (rd & p & c & item & _ & _ & _ & _ & _ & _ & release & Hrelease & Heq)];
    rewrite Heq; reflexivity.
Qed.

Lemma stored_of_other_run db utcnow mrp_run m :
  runs_known db -> In m (DB.mrpitem db) ->
  (MRPItem.mrp_run_id m =? MRPRun.id (new_run db utcnow mrp_run)) = false.
Proof.
  intros Hk Hm. destruct (Hk m Hm) as (r & Hr & Hid).
  apply Nat.eqb_neq. cbn. rewrite <- Hid.
  apply (List.in_map MRPRun.id) in Hr. apply next_id_gt in Hr. lia.
Qed.

Lemma find_new_run db utcnow mrp_run :
  let run := new_run db utcnow mrp_run in
  List.find (fun r => MRPRun.id r =? MRPRun.id run) (DB.mrprun db ++ [run])
  = Some run.
Proof.
  intros run. rewrite find_app_none.
  - cbn. rewrite Nat.eqb_refl. reflexivity.
  - destruct (List.find _ (DB.mrprun db)) as [r |] eqn:Hr; [| reflexivity].
    apply List.find_some in Hr as [Hin Hid]. apply Nat.eqb_eq in Hid.
    apply (List.in_map MRPRun.id) in Hin. apply next_id_gt in Hin.
    cbn in Hid. lia.
Qed.

Lemma items_of_new_run recursion_limit utcnow mrp_run s run s' :
  runs_known (pending s) ->
  create_mrp_run recursion_limit utcnow mrp_run s = (Ok run, s') ->
  List.filter (fun m => MRPItem.mrp_run_id m =? MRPRun.id run)
    (DB.mrpitem (committed s'))
  = created_nodes s s' /\
  List.filter (fun m => negb (MRPItem.mrp_run_id m =? MRPRun.id run))
    (DB.mrpitem (committed s'))
  = DB.mrpitem (pending s).
Proof.
  intros Hk Hrun.
  destruct (create_mrp_run_ok _ _ _ _ _ _ Hrun) as (_ & Hr & Hc & _).
  rewrite Hc. cbn [DB.mrpitem DB.with_mrpitem]. rewrite !List.filter_app.
  assert (Hnew : forall n, In n (created_nodes s s') ->
                 (MRPItem.mrp_run_id n =? MRPRun.id run) = true).
  { intros n Hn. apply Nat.eqb_eq. exact (created_of_run _ _ _ _ _ _ _ Hrun Hn). }
  assert (Hold : forall m, In m (DB.mrpitem (pending s)) ->
                 (MRPItem.mrp_run_id m =? MRPRun.id run) = false).
  { intros m Hm. rewrite Hr. apply stored_of_other_run; assumption. }
  split.
  - rewrite (filter_none _ _ Hold), (filter_all _ _ Hnew). reflexivity.
  - rewrite (filter_all _ (DB.mrpitem (pending s))),
      (filter_none _ (created_nodes s s')).
    + apply List.app_nil_r.
    + intros n Hn. rewrite (Hnew n Hn). reflexivity.
    + intros m Hm. rewrite (Hold m Hm). reflexivity.
Qed.

Lemma read_mrp_run_unknown run_id s :
  (forall r, In r (DB.mrprun (pending s)) -> MRPRun.id r <> run_id) ->
  read_mrp_run run_id s
  = (Raise (HTTPException 404
              ("MRP run with ID " ++ str run_id ++ " not found")), s).
Proof.
  intros Hnone. unfold read_mrp_run, bind, query_first.
  destruct (List.find _ (DB.mrprun (pending s))) as [r |] eqn:Hr; [| reflexivity].
  apply List.find_some in Hr as [Hin Hid]. apply Nat.eqb_eq in Hid.
  destruct (Hnone r Hin Hid).
Qed.

(** X3: reading a run that is not stored raises the 404 of the run and
    leaves the session alone; reading back the run a request has just
    created, in a database whose MRP items are all of stored runs, returns
    the header the request returned together with exactly the rows the
    request created, in the order of their creation. *)
Theorem read_mrp_run_after_create :
  (forall run_id s,
     (forall r, In r (DB.mrprun (pending s)) -> MRPRun.id r <> run_id) ->
     read_mrp_run run_id s
     = (Raise (HTTPException 404
                 ("MRP run with ID " ++ str run_id ++ " not found")), s)) /\
  (forall recursion_limit utcnow mrp_run s run s',
     runs_known (pending s) ->
     create_mrp_run recursion_limit utcnow mrp_run s = (Ok run, s') ->
     read_mrp_run (MRPRun.id run) (get_db (committed s'))
     = (Ok (run, created_nodes s s'), get_db (committed s'))).
Proof.
  split.
  - intros run_id s Hnone. exact (read_mrp_run_unknown run_id s Hnone).
  - intros limit utcnow mrp_run s run s' Hk Hrun.
    destruct (items_of_new_run _ _ _ _ _ _ Hk Hrun) as [Hitems _].
    destruct (create_mrp_run_ok _ _ _ _ _ _ Hrun) as (_ & Hr & Hc & _).
    assert (Hfind : List.find (fun r => MRPRun.id r =? MRPRun.id run)
                      (DB.mrprun (committed s')) = Some run).
    { rewrite Hc. cbn [DB.mrprun DB.with_mrpitem DB.with_mrprun].
      rewrite Hr. apply find_new_run. }
    unfold read_mrp_run, bind, query_first, query_all, ret.
    cbn [pending get_db]. rewrite Hfind. cbn [pending get_db]. rewrite Hitems. reflexivity.
Qed.

Lemma read_mrp_run_after_create_witness :
  runs_known Scenario.db /\
  exists run s',
    create_mrp_run 1000 0 (Scenario.request 1 true) (get_db Scenario.db)
      = (Ok run, s') /\
    read_mrp_run (MRPRun.id run) (get_db (committed s'))
    = (Ok (run, created_nodes (get_db Scenario.db) s'), get_db (committed s')).
Proof.
  assert (Hk : runs_known Scenario.db) by (intros m []).
  split; [exact Hk |]. run_request H.
  exact (proj2 read_mrp_run_after_create _ _ _ (get_db Scenario.db) _ _ Hk H).
Defined.

(** ** Deleting a run *)

Lemma delete_mrp_run_unknown run_id s :
  (forall r, In r (DB.mrprun (pending s)) -> MRPRun.id r <> run_id) ->
  delete_mrp_run run_id s
  = (Raise (HTTPException 404
              ("MRP run with ID " ++ str run_id ++ " not found")), s).
Proof.
  intros Hnone. unfold delete_mrp_run, bind, query_first.
  destruct (List.find _ (DB.mrprun (pending s))) as [r |] eqn:Hr; [| reflexivity].
  apply List.find_some in Hr as [Hin Hid]. apply Nat.eqb_eq in Hid.
  destruct (Hnone r Hin Hid).
Qed.

(** The tables after a delete that ends well. *)
Lemma delete_mrp_run_ok run_id s r s' :
  delete_mrp_run run_id s = (Ok r, s') ->
  let db := pending s in
  let of_run := fun m => MRPItem.mrp_run_id m =? run_id in
  committed s' = pending s' /\
  (exists x, In x (DB.mrprun db) /\ MRPRun.id x = run_id) /\
  DB.mrprun (pending s')
  = List.filter (fun x => negb (MRPRun.id x =? run_id)) (DB.mrprun db) /\
  DB.mrpitem (pending s')
  = List.map
      (fun m =>
         if parent_among (List.filter of_run (DB.mrpitem db)) m
         then without_parent m else m)
      (List.filter (fun m => negb (of_run m)) (DB.mrpitem db)) /\
  catalog (pending s') = catalog db /\
  DB.mps (pending s') = DB.mps db /\
  DB.mpsitem (pending s') = DB.mpsitem db.
Proof.
  intros Hrun db of_run. unfold delete_mrp_run, bind, query_first in Hrun.
  fold db in Hrun.
  destruct (List.find _ (DB.mrprun db)) as [x |] eqn:Hx; [| discriminate Hrun].
  apply List.find_some in Hx as [Hin Hid]. apply Nat.eqb_eq in Hid.
  unfold delete_run, commit, ret in Hrun. fold db in Hrun.
  rewrite Hid in Hrun. injection Hrun as _ <-. cbn.
  split; [reflexivity |]. split; [exists x; auto |]. repeat split.
Qed.

(** X5: once a run is deleted, the next request that reads it, reads its
    results or deletes it again raises the 404 of the run and changes
    nothing. *)
Theorem delete_mrp_run_then_not_found run_id s r s' :
  delete_mrp_run run_id s = (Ok r, s') ->
  let not_found :=
    HTTPException 404 ("MRP run with ID " ++ str run_id ++ " not found") in
  let next := get_db (committed s') in
  read_mrp_run run_id next = (Raise not_found, next) /\
  read_mrp_results run_id next = (Raise not_found, next) /\
  delete_mrp_run run_id next = (Raise not_found, next).
Proof.
  intros Hrun not_found next.
  destruct (delete_mrp_run_ok _ _ _ _ Hrun) as (Hc & _ & Hruns & _).
  assert (Hgone : forall x, In x (DB.mrprun (pending next)) -> MRPRun.id x <> run_id).
  { intros x Hx. unfold next in Hx. cbn [pending get_db] in Hx.
    rewrite Hc, Hruns in Hx. apply List.filter_In in Hx as [_ Hx].
    apply negb_true_iff, Nat.eqb_neq in Hx. exact Hx. }
  assert (Hfind : List.find (fun x => MRPRun.id x =? run_id)
                    (DB.mrprun (pending next)) = None).
  { destruct (List.find _ _) as [x |] eqn:Hx; [| reflexivity].
    apply List.find_some in Hx as [Hin Hid]. apply Nat.eqb_eq in Hid.
    destruct (Hgone x Hin Hid). }
  split; [| split].
  - exact (read_mrp_run_unknown run_id next Hgone).
  - unfold read_mrp_results, bind, query_first. rewrite Hfind. reflexivity.
  - exact (delete_mrp_run_unknown run_id next Hgone).
Qed.

(** The run created on the worked database is deleted, and read no
    more. *)
Lemma delete_mrp_run_then_not_found_witness :
  exists run s',
    create_mrp_run 1000 0 (Scenario.request 1 true) (get_db Scenario.db)
      = (Ok run, s') /\
    exists s'',
      delete_mrp_run (MRPRun.id run) (get_db (committed s')) = (Ok tt, s'') /\
      read_mrp_run (MRPRun.id run) (get_db (committed s''))
      = (Raise (HTTPException 404 "MRP run with ID 1 not found"),
         get_db (committed s'')).
Proof.
  run_request H.
  match type of H with
  | _ = (Ok ?r, ?t) =>
      eassert (Hd : delete_mrp_run (MRPRun.id r) (get_db (committed t))
                    = (Ok tt, _))
        by (vm_compute; reflexivity)
  end.
  eexists. split; [exact Hd |].
  exact (proj1 (delete_mrp_run_then_not_found _ _ _ _ Hd)).
Defined.

Lemma map_unchanged {A} (f : A -> A) (l : list A) :
  (forall x, In x l -> f x = x) -> List.map f l = l.
Proof.
  induction l as [| x l IH]; intros H; [reflexivity |].
  cbn. rewrite (H x (or_introl eq_refl)). f_equal.
  apply IH. intros y Hy. apply H. right. exact Hy.
Qed.

(** X6: creating a run and deleting it again restores the database: on a
    database where every MRP item is of a stored run and every parent is a
    stored MRP item, the delete of the run a request has just created ends
    well and commits the database the request started from. *)
Theorem create_then_delete_restores recursion_limit utcnow mrp_run db run s' :
  runs_known db -> parents_known db ->
  create_mrp_run recursion_limit utcnow mrp_run (get_db db) = (Ok run, s') ->
  delete_mrp_run (MRPRun.id run) (get_db (committed s'))
  = (Ok tt, get_db db).
Proof.
  intros Hk Hp Hrun.
  destruct (items_of_new_run _ _ _ (get_db db) _ _ Hk Hrun) as [Hnew Hold].
  destruct (create_mrp_run_ok _ _ _ _ _ _ Hrun) as (_ & Hr & Hc & K & _).
  cbn [pending get_db] in *.
  assert (Hfind : List.find (fun r => MRPRun.id r =? MRPRun.id run)
                    (DB.mrprun (committed s')) = Some run).
  { rewrite Hc. cbn [DB.mrprun DB.with_mrpitem DB.with_mrprun].
    rewrite Hr. apply find_new_run. }
  unfold delete_mrp_run, bind, query_first. cbn [pending get_db].
  rewrite Hfind. unfold delete_run, commit, ret. cbn [pending get_db committed].
  rewrite Hnew, Hold.
  assert (Hruns : List.filter (fun r => negb (MRPRun.id r =? MRPRun.id run))
                    (DB.mrprun (committed s')) = DB.mrprun db).
  { rewrite Hc. cbn [DB.mrprun DB.with_mrpitem DB.with_mrprun].
    rewrite List.filter_app. cbn. rewrite Nat.eqb_refl. cbn.
    rewrite List.app_nil_r. apply filter_all. intros r Hin.
    apply negb_true_iff, Nat.eqb_neq. rewrite Hr. cbn.
    apply (List.in_map MRPRun.id) in Hin. apply next_id_gt in Hin. lia. }
  rewrite Hruns.
  assert (Hitems :
    List.map
      (fun m => if parent_among (created_nodes (get_db db) s') m
                then without_parent m else m) (DB.mrpitem db)
    = DB.mrpitem db).
  { apply map_unchanged. intros m Hm.
    destruct (parent_among (created_nodes (get_db db) s') m) eqn:Hpar;
      [| reflexivity].
    exfalso. unfold parent_among in Hpar.
    destruct (MRPItem.parent_id m) as [pid |] eqn:Hpid; [| discriminate Hpar].
    apply List.existsb_exists in Hpar as (d & Hd & Hid).
    apply Nat.eqb_eq in Hid.
    destruct (Hp m pid Hm Hpid) as (p & Hpin & Hpeq).
    apply (List.in_map MRPItem.id) in Hpin. apply next_id_gt in Hpin.
    destruct (keyed_after_In _ _ _ K Hd) as [Hge _].
    unfold item_ids in Hge. lia. }
  rewrite Hitems. rewrite Hc. unfold get_db.
  destruct db as [a b c d e f g]. reflexivity.
Qed.

Lemma create_then_delete_restores_witness :
  runs_known Scenario.db /\ parents_known Scenario.db /\
  exists run s',
    create_mrp_run 1000 0 (Scenario.request 1 true) (get_db Scenario.db)
      = (Ok run, s') /\
    delete_mrp_run (MRPRun.id run) (get_db (committed s'))
    = (Ok tt, get_db Scenario.db).
Proof.
  assert (Hk : runs_known Scenario.db) by (intros m []).
  assert (Hp : parents_known Scenario.db) by (intros m pid []).
  split; [exact Hk |]. split; [exact Hp |]. run_request H.
  exact (create_then_delete_restores _ _ _ Scenario.db _ _ Hk Hp H).
Defined.

(** ** More on the rows of a run *)

(** X7: no row of a run has a negative net requirement, and the planned
    order release and the planned order receipt of a row are its net
    requirement (lot for lot). *)
Theorem net_requirement_planned recursion_limit utcnow mrp_run s run s' n :
  create_mrp_run recursion_limit utcnow mrp_run s = (Ok run, s') ->
  In n (created_nodes s s') ->
  (0 <= MRPItem.net_requirement n)%Q /\
  MRPItem.planned_order_release n = MRPItem.net_requirement n /\
  MRPItem.planned_order_receipt n = MRPItem.net_requirement n.
Proof.
  intros Hrun Hn.
  destruct (run_node_created _ _ _ _ _ _ _ Hrun Hn)
    as [(line & bom & _ & _ & release & Hrelease & Heq) | (rd & p & c & item & _ & _ & _ & _ & _ & _ & release & Hrelease & Heq)];
    rewrite Heq; cbn; (split; [| split; reflexivity]);
    rewrite py_max_Qmax; apply Q.le_max_l.
Qed.

Lemma net_requirement_planned_witness :
  exists run s',
    create_mrp_run 1000 0 (Scenario.request 1 true)
      (get_db Scenario.db_negative_reorder_B) = (Ok run, s') /\
    exists n,
      In n (created_nodes (get_db Scenario.db_negative_reorder_B) s') /\
      (0 <= MRPItem.net_requirement n)%Q /\
      MRPItem.planned_order_release n = MRPItem.net_requirement n.
Proof.
  run_request H. eexists. split; [right; left; reflexivity |].
  destruct (net_requirement_planned _ _ _ _ _ _ _ H
              (or_intror (or_introl eq_refl))) as (H0 & H1 & _).
  split; [exact H0 | exact H1].
Defined.

(** X8: a request that ends well commits what it has flushed, leaves
    the inventory, BOM and MPS tables as they were, keeps every stored run
    header and every stored MRP item in place, and adds one run header,
    after the stored ones: it carries the name, MPS, lead-time factor and
    flag of the request and the clock time, under a key no stored run
    has. *)
Theorem create_mrp_run_only_adds recursion_limit utcnow mrp_run s run s' :
  create_mrp_run recursion_limit utcnow mrp_run s = (Ok run, s') ->
  let db := pending s in
  let db' := committed s' in
  pending s' = db' /\
  catalog db' = catalog db /\
  DB.mps db' = DB.mps db /\ DB.mpsitem db' = DB.mpsitem db /\
  DB.mrprun db' = DB.mrprun db ++ [run] /\
  DB.mrpitem db' = DB.mrpitem db ++ created_nodes s s' /\
  (forall r, In r (DB.mrprun db) -> MRPRun.id r < MRPRun.id run) /\
  MRPRun.name run = MRPRunCreate.name mrp_run /\
  MRPRun.mps_id run = MRPRunCreate.mps_id mrp_run /\
  MRPRun.lead_time_factor run = MRPRunCreate.lead_time_factor mrp_run /\
  MRPRun.include_safety_stock run = MRPRunCreate.include_safety_stock mrp_run /\
  MRPRun.run_date run = utcnow.
Proof.
  intros Hrun db db'.
  destruct (create_mrp_run_ok _ _ _ _ _ _ Hrun) as (_ & Hr & Hc & _).
  assert (Hp : pending s' = committed s').
  { apply create_mrp_run_steps in Hrun. fold db in Hrun. cbv zeta in Hrun.
    destruct (find_mps db _);
      [| destruct Hrun as [_ Hx]; discriminate Hx].
    destruct Hrun as (new & _ & _ & _ & [(_ & Hx & _) | (_ & [Hx | [Hx _]])]);
      [symmetry; exact Hx | discriminate Hx | discriminate Hx]. }
  unfold db'. rewrite Hc. fold db. cbn.
  split; [rewrite Hp, Hc; reflexivity |].
  repeat (split; [reflexivity |]).
  split; [| rewrite Hr; repeat split].
  intros r Hin. rewrite Hr. cbn.
  apply (List.in_map MRPRun.id) in Hin. apply next_id_gt in Hin. exact Hin.
Qed.

Lemma create_mrp_run_only_adds_witness :
  exists run s',
    create_mrp_run 1000 0 (Scenario.request 1 true) (get_db Scenario.db)
      = (Ok run, s') /\
    catalog (committed s') = catalog Scenario.db /\
    DB.mrprun (committed s') = [run].
Proof.
  run_request H.
  destruct (create_mrp_run_only_adds _ _ _ _ _ _ H)
    as (_ & Hcat & _ & _ & Hruns & _).
  split; [exact Hcat | exact Hruns].
Defined.

(** X9: the rows a run creates all carry the key of the run; their keys
    are consecutive, starting after the greatest key of a stored MRP item,
    in the order of creation; a row has an [mps_item_id] exactly when it
    is a top-level row; and the key of a parent is smaller than that of its
    child. *)
Theorem created_rows_keyed recursion_limit utcnow mrp_run s run s' :
  create_mrp_run recursion_limit utcnow mrp_run s = (Ok run, s') ->
  let new := created_nodes s s' in
  List.map MRPItem.id new
  = seq (S (List.list_max (List.map MRPItem.id (DB.mrpitem (pending s)))))
      (length new) /\
  forall n, In n new ->
    MRPItem.mrp_run_id n = MRPRun.id run /\
    (MRPItem.mps_item_id n <> None <-> MRPItem.parent_id n = None) /\
    (forall pid, MRPItem.parent_id n = Some pid -> pid < MRPItem.id n).
Proof.
  intros Hrun new.
  destruct (create_mrp_run_ok _ _ _ _ _ _ Hrun) as (_ & _ & _ & K & _).
  split; [exact K |]. intros n Hn.
  split; [exact (created_of_run _ _ _ _ _ _ _ Hrun Hn) |].
  destruct (run_node_created _ _ _ _ _ _ _ Hrun Hn)
    as [(line & bom & _ & _ & release & Hrelease & Heq) | (rd & p & c & item & _ & Hlt & _ & _ & _ & _ & release & Hrelease & Heq)].
  - rewrite Heq. cbn. split; [split; [reflexivity | discriminate] |].
    intros pid Hpid. discriminate Hpid.
  - split.
    + rewrite Heq. cbn. split; [intros H; destruct H; reflexivity | discriminate].
    + intros pid Hpid. rewrite Heq in Hpid. cbn in Hpid.
      injection Hpid as <-. exact Hlt.
Qed.

Lemma created_rows_keyed_witness :
  exists run s',
    create_mrp_run 1000 0 (Scenario.request 1 true) (get_db Scenario.db)
      = (Ok run, s') /\
    List.map MRPItem.id (created_nodes (get_db Scenario.db) s') = [1; 2].
Proof.
  run_request H.
  exact (proj1 (created_rows_keyed _ _ _ _ _ _ H)).
Defined.

(** X10: the [bom_id] of a row is the key of an active BOM of its item,
    whichever of them the query answers first, and is empty exactly when
    the item has no active BOM; a row without a BOM is a leaf: no row of
    the run names it as parent. *)
Theorem rows_without_bom_are_leaves recursion_limit utcnow mrp_run s run s' n :
  create_mrp_run recursion_limit utcnow mrp_run s = (Ok run, s') ->
  In n (created_nodes s s') ->
  (forall key,
     MRPItem.bom_id n = Some key ->
     exists bom,
       In bom (DB.bom (pending s)) /\ BOM.id bom = key /\
       BOM.product_id bom = MRPItem.item_id n /\ BOM.is_active bom = true) /\
  (MRPItem.bom_id n = None <->
   forall bom,
     In bom (DB.bom (pending s)) ->
     BOM.product_id bom = MRPItem.item_id n -> BOM.is_active bom = false) /\
  (MRPItem.bom_id n = None ->
   forall m, In m (created_nodes s s') ->
             MRPItem.parent_id m <> Some (MRPItem.id n)).
Proof.
  intros Hrun Hn.
  destruct (create_mrp_run_ok _ _ _ _ _ _ Hrun) as (_ & _ & _ & K & _).
  assert (Hbom_id :
    MRPItem.bom_id n
    = option_map BOM.id
        (List.find (active_bom_of (MRPItem.item_id n)) (DB.bom (pending s)))).
  { destruct (run_node_created _ _ _ _ _ _ _ Hrun Hn)
      as [(line & bom & _ & Hb & release & Hrelease & Heq) | (rd & p & c & item & _ & _ & _ & _ & _ & _ & release & Hrelease & Heq)].
    - rewrite Heq. cbn. rewrite Hb. reflexivity.
    - rewrite Heq. reflexivity. }
  split; [| split].
  - intros key Hkey. rewrite Hbom_id in Hkey.
    destruct (List.find _ (DB.bom (pending s))) as [bom |] eqn:Hfind;
      [| discriminate Hkey].
    injection Hkey as <-. apply List.find_some in Hfind as [Hin Hact].
    unfold active_bom_of in Hact. apply andb_true_iff in Hact as [Hp Ha].
    apply Nat.eqb_eq in Hp. exists bom. auto.
  - rewrite Hbom_id. split.
    + intros Hnone bom Hin Hp.
      destruct (List.find _ (DB.bom (pending s))) as [b |] eqn:Hfind;
        [discriminate Hnone |].
      assert (Hact := List.find_none _ _ Hfind bom Hin).
      unfold active_bom_of in Hact. rewrite Hp, Nat.eqb_refl in Hact.
      exact Hact.
    + intros Hall.
      destruct (List.find _ (DB.bom (pending s))) as [b |] eqn:Hfind;
        [| reflexivity].
      apply List.find_some in Hfind as [Hin Hact].
      unfold active_bom_of in Hact. apply andb_true_iff in Hact as [Hp Ha].
      apply Nat.eqb_eq in Hp. rewrite (Hall b Hin Hp) in Ha. discriminate Ha.
  - intros Hleaf m Hm Hpar.
    destruct (run_node_created _ _ _ _ _ _ _ Hrun Hm)
      as [(line & bom & _ & _ & release & Hrelease & Heq) | (rd & p & c & item & Hp & _ & _ & _ & Hbom & _ & release & Hrelease & Heq)].
    + rewrite Heq in Hpar. discriminate Hpar.
    + rewrite Heq in Hpar. cbn in Hpar. injection Hpar as Hid.
      assert (Hsame : p = n).
      { assert (H1 := mrp_item_by_id_keyed _ _ _ K Hp).
        assert (H2 := mrp_item_by_id_keyed _ _ _ K Hn).
        rewrite Hid in H1. congruence. }
      subst p. congruence.
Qed.

Lemma rows_without_bom_are_leaves_witness :
  exists run s',
    create_mrp_run 1000 0 (Scenario.request 1 true) (get_db Scenario.db)
      = (Ok run, s') /\
    exists n,
      In n (created_nodes (get_db Scenario.db) s') /\
      MRPItem.bom_id n = None /\
      forall m, In m (created_nodes (get_db Scenario.db) s') ->
                MRPItem.parent_id m <> Some (MRPItem.id n).
Proof.
  run_request H. eexists. split; [right; left; reflexivity |].
  split; [reflexivity |].
  exact (proj2 (proj2 (rows_without_bom_are_leaves _ _ _ _ _ _ _ H
                         (or_intror (or_introl eq_refl)))) eq_refl).
Defined.

(** ** Every component is exploded *)

Lemma exploded_mono db all all' p :
  incl all all' -> exploded db all p -> exploded db all' p.
Proof.
  intros Hincl H c item Hc Hb Hi.
  destruct (H c item Hc Hb Hi) as (n & Hn & Hrest).
  exists n. split; [apply Hincl, Hn | exact Hrest].
Qed.

(** The loop of [create_mrp_run], when the request ends well. *)
Lemma create_mrp_run_loop recursion_limit utcnow mrp_run s run s' :
  create_mrp_run recursion_limit utcnow mrp_run s = (Ok run, s') ->
  let db := pending s in
  exists s2,
    run = new_run db utcnow mrp_run /\
    find_mps db (MRPRunCreate.mps_id mrp_run) <> None /\
    for_each (schedule_items db (MRPRunCreate.mps_id mrp_run))
      (explode_mps_item recursion_limit mrp_run run) (with_new_run s run)
    = (Ok tt, s2) /\
    s' = {| committed := pending s2; pending := pending s2 |}.
Proof.
  intros Hrun db. unfold create_mrp_run in Hrun.
  apply bind_inv in Hrun as [(m & s1 & Hq & Hrun) | (e & Hq & _)];
    [| discriminate Hq].
  injection Hq as <- <-. fold db in Hrun. unfold find_mps.
  destruct (List.find _ (DB.mps db)) as [m |] eqn:Hm; [| discriminate Hrun].
  apply List.find_some in Hm as [_ Hm]. apply Nat.eqb_eq in Hm.
  apply bind_inv in Hrun as [(run' & s1 & Hadd & Hrun) | (e & Hq & _)];
    [| discriminate Hq].
  injection Hadd as <- <-. fold db in Hrun. fold (new_run db utcnow mrp_run) in Hrun.
  apply bind_inv in Hrun as [(lines & s1 & Hq & Hrun) | (e & Hq & _)];
    [| discriminate Hq].
  injection Hq as <- <-. rewrite Hm in Hrun. simpl in Hrun.
  fold (schedule_items db (MRPRunCreate.mps_id mrp_run)) in Hrun.
  apply bind_inv in Hrun as [([] & s2 & Hloop & Hrun) | (e & _ & Hx)];
    [| discriminate Hx].
  injection Hrun as <- <-. exists s2.
  split; [reflexivity |]. split; [discriminate |].
  split; [exact Hloop | reflexivity].
Qed.

Section Coverage.
Variables (db : DB.t) (run_id : nat) (required_date : datetime).
Variables (lead_time_factor : Q) (include_safety_stock : bool).

(** What the loop over the components [cs] of the BOM of [parent] has
    appended when it ends well, given what the nested calls append. *)
Lemma explode_components_exploded limit parent :
  (forall bom p s s',
     on_catalog db s ->
     MRPItem.bom_id p = Some (BOM.id bom) ->
     process_bom_components limit bom p run_id required_date
       (MRPItem.planned_order_release p) lead_time_factor include_safety_stock s
     = (Ok tt, s') ->
     exists new,
       s' = add_items s new /\
       exploded db new p /\
       forall n, In n new -> exploded db new n) ->
  forall cs s s',
    on_catalog db s ->
    for_each cs
      (explode_component limit parent run_id required_date
         (MRPItem.planned_order_release parent) lead_time_factor
         include_safety_stock) s
    = (Ok tt, s') ->
    exists new,
      s' = add_items s new /\
      (forall c item,
         In c cs ->
         List.find (item_by_id (BOMComponent.component_id c))
           (DB.inventoryitem db) = Some item ->
         has_child_for new parent c) /\
      forall n, In n new -> exploded db new n.
Proof.
  intros IH. induction cs as [| c cs IHcs]; intros s s' Hs Hrun.
  - injection Hrun as <-. exists []. rewrite add_items_nil.
    split; [reflexivity |]. split; [intros c item [] | intros n []].
  - simpl in Hrun.
    apply bind_inv in Hrun as [([] & s1 & Hc & Hrest) | (e & _ & Hx)];
      [| discriminate Hx].
    assert (Hstep : exists new1,
              s1 = add_items s new1 /\
              (forall item,
                 List.find (item_by_id (BOMComponent.component_id c))
                   (DB.inventoryitem db) = Some item ->
                 has_child_for new1 parent c) /\
              forall n, In n new1 -> exploded db new1 n).
    { clear Hrest IHcs. unfold explode_component in Hc.
      destruct (catalog_eq _ _ Hs) as (Hinv & Hboms & _).
      apply bind_inv in Hc as [(item & t1 & Hq & Hc) | (e & Hq & _)];
        [| discriminate Hq].
      injection Hq as <- <-. rewrite Hinv in Hc.
      destruct (List.find _ (DB.inventoryitem db)) as [item |] eqn:Hitem.
      2:{ injection Hc as <-. exists []. rewrite add_items_nil.
          split; [reflexivity |].
          split; [intros item0 Hx; discriminate Hx | intros n []]. }
      apply bind_inv in Hc as [(cb & t1 & Hq & Hc) | (e & Hq & _)];
        [| discriminate Hq].
      injection Hq as <- <-. rewrite Hboms in Hc.
      apply bind_inv in Hc as [(release & t1 & Hrel & Hc) | (e & _ & Hx)];
        [| discriminate Hx].
      injection Hrel as _ <-.
      apply bind_inv in Hc as [(n & t1 & Hadd & Hc) | (e & Hq & _)];
        [| discriminate Hq].
      injection Hadd as <- <-.
      set (n := component_mrp_item run_id c item _ _ _ _ _ _ _) in *.
      change {| committed := committed s;
                pending := DB.with_mrpitem (pending s)
                             (DB.mrpitem (pending s) ++ [n]) |}
        with (add_items s [n]) in Hc.
      assert (Hchild : forall rest, has_child_for (n :: rest) parent c).
      { intros rest. exists n. split; [left; reflexivity |]. repeat split. }
      destruct (List.find _ (DB.bom db)) as [cb |] eqn:Hcb.
      - apply IH in Hc; [| exact Hs | reflexivity].
        destruct Hc as (sub & -> & Hn & Hsub).
        rewrite add_items_app. exists ([n] ++ sub).
        split; [reflexivity |]. split; [intros item0 _; apply Hchild |].
        intros m [<- | Hm].
        + eapply exploded_mono; [| exact Hn]. intros x Hx. right. exact Hx.
        + eapply exploded_mono; [| exact (Hsub m Hm)]. intros x Hx. right. exact Hx.
      - injection Hc as <-. exists [n].
        split; [reflexivity |]. split; [intros item0 _; apply Hchild |].
        intros m [<- | []]. intros c' item' _ Hb _. discriminate Hb. }
    destruct Hstep as (new1 & -> & H1 & E1).
    apply IHcs in Hrest as (new2 & -> & H2 & E2);
      [| exact (appended_on_catalog db _ _ Hs (ex_intro _ new1 eq_refl))].
    rewrite add_items_app. exists (new1 ++ new2).
    split; [reflexivity |]. split.
    + intros c' item [<- | Hc'] Hitem.
      * destruct (H1 item Hitem) as (n & Hn & Hrest).
        exists n. split; [apply in_or_app; left; exact Hn | exact Hrest].
      * destruct (H2 c' item Hc' Hitem) as (n & Hn & Hrest).
        exists n. split; [apply in_or_app; right; exact Hn | exact Hrest].
    + intros n Hn. apply in_app_or in Hn as [Hn | Hn].
      * eapply exploded_mono; [| exact (E1 n Hn)].
        intros x Hx. apply in_or_app. left. exact Hx.
      * eapply exploded_mono; [| exact (E2 n Hn)].
        intros x Hx. apply in_or_app. right. exact Hx.
Qed.

Lemma process_bom_components_exploded limit :
  forall bom p s s',
    on_catalog db s ->
    MRPItem.bom_id p = Some (BOM.id bom) ->
    process_bom_components limit bom p run_id required_date
      (MRPItem.planned_order_release p) lead_time_factor include_safety_stock s
    = (Ok tt, s') ->
    exists new,
      s' = add_items s new /\
      exploded db new p /\
      forall n, In n new -> exploded db new n.
Proof.
  induction limit as [| limit IH]; intros bom p s s' Hs Hbom Hrun;
    [discriminate Hrun |].
  rewrite process_bom_components_S in Hrun.
  apply bind_inv in Hrun as [(cs & s1 & Hq & Hloop) | (e & Hq & _)];
    [| discriminate Hq].
  injection Hq as <- <-.
  destruct (catalog_eq _ _ Hs) as (_ & _ & Hcs). rewrite Hcs in Hloop.
  apply (explode_components_exploded limit p IH) in Hloop; [| exact Hs].
  destruct Hloop as (new & -> & Hp & Hnew).
  exists new. split; [reflexivity |]. split; [| exact Hnew].
  intros c item Hc Hb Hitem. apply (Hp c item); [| exact Hitem].
  apply List.filter_In. split; [exact Hc |].
  apply Nat.eqb_eq. rewrite Hbom in Hb. injection Hb as ->. reflexivity.
Qed.

End Coverage.

Section CoverageOfRun.
Variables (db : DB.t) (run_id : nat).
Variables (lead_time_factor : Q) (include_safety_stock : bool).
Variables (recursion_limit : nat) (mrp_run : MRPRunCreate.t) (db_mrp_run : MRPRun.t).
Hypothesis Hfactor : MRPRunCreate.lead_time_factor mrp_run = lead_time_factor.
Hypothesis Hsafety : MRPRunCreate.include_safety_stock mrp_run = include_safety_stock.
Hypothesis Hrun_id : MRPRun.id db_mrp_run = run_id.

Lemma explode_mps_items_exploded lines :
  forall s s',
    on_catalog db s ->
    for_each lines (explode_mps_item recursion_limit mrp_run db_mrp_run) s
    = (Ok tt, s') ->
    exists new,
      s' = add_items s new /\
      forall n, In n new -> exploded db new n.
Proof.
  induction lines as [| line ls IHls]; intros s s' Hs Hrun.
  - injection Hrun as <-. exists []. rewrite add_items_nil.
    split; [reflexivity | intros n []].
  - simpl in Hrun.
    apply bind_inv in Hrun as [([] & s1 & Hline & Hrest) | (e & _ & Hx)];
      [| discriminate Hx].
    assert (Hstep : exists new1,
              s1 = add_items s new1 /\ forall n, In n new1 -> exploded db new1 n).
    { clear Hrest IHls. unfold explode_mps_item in Hline.
      destruct (catalog_eq _ _ Hs) as (Hinv & Hboms & _).
      apply bind_inv in Hline as [(b & t1 & Hq & Hline) | (e & Hq & _)];
        [| discriminate Hq].
      injection Hq as <- <-. rewrite Hboms in Hline.
      destruct (List.find _ (DB.bom db)) as [b |] eqn:Hb.
      2:{ injection Hline as <-. exists []. rewrite add_items_nil.
          split; [reflexivity | intros n []]. }
      apply bind_inv in Hline as [(product & t1 & Hq & Hline) | (e & Hq & _)];
        [| discriminate Hq].
      injection Hq as <- <-.
      apply bind_inv in Hline as [(release & t1 & Hrel & Hline) | (e & _ & Hx)];
        [| discriminate Hx].
      injection Hrel as _ <-.
      apply bind_inv in Hline as [(t & t1 & Hadd & Hline) | (e & Hq & _)];
        [| discriminate Hq].
      injection Hadd as <- <-. rewrite Hfactor, Hsafety, Hrun_id in Hline.
      set (t := product_mrp_item run_id line b _ _ _) in *.
      change {| committed := committed s;
                pending := DB.with_mrpitem (pending s)
                             (DB.mrpitem (pending s) ++ [t]) |}
        with (add_items s [t]) in Hline.
      apply (process_bom_components_exploded db run_id
               (MPSItem.planned_date line) lead_time_factor include_safety_stock)
        in Hline; [| exact Hs | reflexivity].
      destruct Hline as (sub & -> & Ht & Hsub).
      rewrite add_items_app. exists ([t] ++ sub). split; [reflexivity |].
      intros m [<- | Hm].
      - eapply exploded_mono; [| exact Ht]. intros x Hx. right. exact Hx.
      - eapply exploded_mono; [| exact (Hsub m Hm)]. intros x Hx. right. exact Hx. }
    destruct Hstep as (new1 & -> & E1).
    apply IHls in Hrest as (new2 & -> & E2);
      [| exact (appended_on_catalog db _ _ Hs (ex_intro _ new1 eq_refl))].
    rewrite add_items_app. exists (new1 ++ new2). split; [reflexivity |].
    intros n Hn. apply in_app_or in Hn as [Hn | Hn].
    + eapply exploded_mono; [| exact (E1 n Hn)].
      intros x Hx. apply in_or_app. left. exact Hx.
    + eapply exploded_mono; [| exact (E2 n Hn)].
      intros x Hx. apply in_or_app. right. exact Hx.
Qed.

End CoverageOfRun.

(** X11: the explosion of a run that ends well is complete: every row of
    the run has, for every component of its BOM whose item is in the
    inventory, a child row of the run for that component, with the
    component's item and with the row's planned order release times the
    component's quantity as gross requirement. *)
Theorem every_component_exploded recursion_limit utcnow mrp_run s run s' p :
  create_mrp_run recursion_limit utcnow mrp_run s = (Ok run, s') ->
  In p (created_nodes s s') ->
  exploded (pending s) (created_nodes s s') p.
Proof.
  intros Hrun Hp.
  destruct (create_mrp_run_loop _ _ _ _ _ _ Hrun) as (s2 & Hr & _ & Hloop & Hs').
  apply (explode_mps_items_exploded (pending s) (MRPRun.id run)
           (MRPRunCreate.lead_time_factor mrp_run)
           (MRPRunCreate.include_safety_stock mrp_run)
           recursion_limit mrp_run run eq_refl eq_refl eq_refl) in Hloop;
    [| reflexivity].
  destruct Hloop as (new & -> & Hnew).
  assert (Hcreated : created_nodes s s' = new).
  { unfold created_nodes. rewrite Hs'. cbn.
    rewrite List.skipn_app, List.skipn_all, Nat.sub_diag. reflexivity. }
  rewrite Hcreated in *. exact (Hnew p Hp).
Qed.

Lemma every_component_exploded_witness :
  exists run s',
    create_mrp_run 1000 0 (Scenario.request 1 true) (get_db Scenario.db)
      = (Ok run, s') /\
    exists p,
      In p (created_nodes (get_db Scenario.db) s') /\
      has_child_for (created_nodes (get_db Scenario.db) s') p
        (Scenario.uses 1 1 2 2).
Proof.
  run_request H. eexists. split; [left; reflexivity |].
  apply (every_component_exploded _ _ _ _ _ _ _ H (or_introl eq_refl)
           (Scenario.uses 1 1 2 2) (Scenario.item 2 "B" 5 0));
    [left; reflexivity | reflexivity | reflexivity].
Defined.

(** ** Running a request again *)

Lemma next_id_snoc ids : next_id (ids ++ [next_id ids]) = S (next_id ids).
Proof.
  unfold next_id. rewrite List.list_max_app. cbn. lia.
Qed.

Lemma for_each_cons_ok {A} (x : A) l (body : A -> M unit) s u s1 :
  body x s = (Ok u, s1) -> for_each (x :: l) body s = for_each l body s1.
Proof.
  intros H. cbn [for_each]. unfold bind. rewrite H. reflexivity.
Qed.

Lemma for_each_cons_raise {A} (x : A) l (body : A -> M unit) s e s1 :
  body x s = (Raise e, s1) -> for_each (x :: l) body s = (Raise e, s1).
Proof.
  intros H. cbn [for_each]. unfold bind. rewrite H. reflexivity.
Qed.

Lemma process_bom_components_run limit bom parent run_id rd pq lf iss s :
  process_bom_components (S limit) bom parent run_id rd pq lf iss s =
  for_each
    (List.filter (fun c => BOMComponent.bom_id c =? BOM.id bom)
       (DB.bomcomponent (pending s)))
    (explode_component limit parent run_id rd pq lf iss) s.
Proof. reflexivity. Qed.

Lemma explode_component_run limit parent run_id rd pq lf iss c s :
  explode_component limit parent run_id rd pq lf iss c s =
  match List.find (item_by_id (BOMComponent.component_id c))
          (DB.inventoryitem (pending s)) with
  | None => (Ok tt, s)
  | Some item =>
      let cb := List.find (active_bom_of (BOMComponent.component_id c))
                  (DB.bom (pending s)) in
      match calculate_release_date rd (Some item) lf with
      | Raise e => (Raise e, s)
      | Ok release =>
          let n := component_mrp_item run_id c item cb (MRPItem.id parent) rd
                     pq release iss (next_id (session_ids s)) in
          match cb with
          | Some b =>
              process_bom_components limit b n run_id rd
                (MRPItem.planned_order_release n) lf iss (add_items s [n])
          | None => (Ok tt, add_items s [n])
          end
      end
  end.
Proof.
  unfold explode_component, bind, query_first, lift.
  destruct (List.find _ (DB.inventoryitem (pending s))) as [item |]; [| reflexivity].
  cbv zeta.
  destruct (calculate_release_date rd (Some item) lf) as [release | e];
    [| reflexivity].
  destruct (List.find _ (DB.bom (pending s))) as [cb |]; reflexivity.
Qed.

Lemma ahead_add db delta sA sB nA nB :
  ahead db delta sA sB ->
  MRPItem.id nA = next_id (session_ids sA) ->
  MRPItem.id nB = next_id (session_ids sB) ->
  ahead db delta (add_items sA [nA]) (add_items sB [nB]).
Proof.
  intros (HA & HB & Hn) HidA HidB. split; [exact HA |]. split; [exact HB |].
  unfold session_ids, item_ids in *.
  cbn [add_items pending DB.with_mrpitem DB.mrpitem].
  rewrite !List.map_app. cbn [List.map]. rewrite HidA, HidB, !next_id_snoc. lia.
Qed.

Section Again.
Variables (db : DB.t) (delta run_B : nat).

(** Two loops whose bodies append the same rows up to the keys, and end
    alike, do so as a whole. *)
Lemma for_each_shifted {A} (l : list A) (bodyA bodyB : A -> M unit) :
  (forall x sA sB,
     In x l -> ahead db delta sA sB ->
     exists r newA newB,
       bodyA x sA = (r, add_items sA newA) /\
       bodyB x sB = (r, add_items sB newB) /\
       Forall2 (shifted delta run_B) newA newB /\
       ahead db delta (add_items sA newA) (add_items sB newB)) ->
  forall sA sB,
    ahead db delta sA sB ->
    exists r newA newB,
      for_each l bodyA sA = (r, add_items sA newA) /\
      for_each l bodyB sB = (r, add_items sB newB) /\
      Forall2 (shifted delta run_B) newA newB /\
      ahead db delta (add_items sA newA) (add_items sB newB).
Proof.
  induction l as [| x l IH]; intros Hbody sA sB Hs.
  - exists (Ok tt), [], []. rewrite !add_items_nil.
    split; [reflexivity |]. split; [reflexivity |]. split; [constructor | exact Hs].
  - destruct (Hbody x sA sB (or_introl eq_refl) Hs)
      as (r & newA & newB & HA & HB & F & Hs1).
    destruct r as [u | e].
    + rewrite (for_each_cons_ok _ _ _ _ _ _ HA), (for_each_cons_ok _ _ _ _ _ _ HB).
      destruct (IH (fun y tA tB Hy => Hbody y tA tB (or_intror Hy)) _ _ Hs1)
        as (r & restA & restB & HA' & HB' & F' & Hs2).
      exists r, (newA ++ restA), (newB ++ restB).
      rewrite <- !add_items_app.
      split; [exact HA' |]. split; [exact HB' |].
      split; [apply List.Forall2_app; assumption | exact Hs2].
    + exists (Raise e), newA, newB.
      rewrite (for_each_cons_raise _ _ _ _ _ _ HA), (for_each_cons_raise _ _ _ _ _ _ HB).
      auto.
Qed.

Variables (run_A : nat) (required_date : datetime).
Variables (lead_time_factor : Q) (include_safety_stock : bool).

Lemma process_bom_components_shifted limit :
  forall bom pA pB parent_quantity sA sB,
    ahead db delta sA sB ->
    MRPItem.id pB = MRPItem.id pA + delta ->
    exists r newA newB,
      process_bom_components limit bom pA run_A required_date parent_quantity
        lead_time_factor include_safety_stock sA = (r, add_items sA newA) /\
      process_bom_components limit bom pB run_B required_date parent_quantity
        lead_time_factor include_safety_stock sB = (r, add_items sB newB) /\
      Forall2 (shifted delta run_B) newA newB /\
      ahead db delta (add_items sA newA) (add_items sB newB).
Proof.
  induction limit as [| limit IH]; intros bom pA pB pq sA sB Hs Hid.
  - exists (Raise RecursionError), [], []. rewrite !add_items_nil.
    split; [reflexivity |]. split; [reflexivity |]. split; [constructor | exact Hs].
  - rewrite !process_bom_components_run.
    assert (Hs' := Hs). destruct Hs' as (HA & HB & _).
    destruct (catalog_eq _ _ HA) as (_ & _ & HcA).
    destruct (catalog_eq _ _ HB) as (_ & _ & HcB).
    rewrite HcA, HcB.
    apply for_each_shifted; [| exact Hs].
    clear sA sB Hs HA HB HcA HcB. intros c sA sB _ Hs.
    assert (Hs' := Hs). destruct Hs' as (HA & HB & Hn).
    destruct (catalog_eq _ _ HA) as (HiA & HbA & _).
    destruct (catalog_eq _ _ HB) as (HiB & HbB & _).
    rewrite !explode_component_run, HiA, HiB, HbA, HbB.
    destruct (List.find _ (DB.inventoryitem db)) as [item |].
    2:{ exists (Ok tt), [], []. rewrite !add_items_nil.
        split; [reflexivity |]. split; [reflexivity |].
        split; [constructor | exact Hs]. }
    cbv zeta.
    destruct (calculate_release_date required_date (Some item) lead_time_factor)
      as [release | e].
    2:{ exists (Raise e), [], []. rewrite !add_items_nil.
        split; [reflexivity |]. split; [reflexivity |].
        split; [constructor | exact Hs]. }
    set (nA := component_mrp_item run_A c item _ (MRPItem.id pA) _ _ _ _ _).
    set (nB := component_mrp_item run_B c item _ (MRPItem.id pB) _ _ _ _ _).
    assert (Hsh : shifted delta run_B nA nB).
    { split; [reflexivity |]. split; [exact Hn |]. split; [reflexivity |].
      cbn. rewrite Hid. reflexivity. }
    assert (Hs1 : ahead db delta (add_items sA [nA]) (add_items sB [nB]))
      by (apply ahead_add; [exact Hs | reflexivity | reflexivity]).
    destruct (List.find _ (DB.bom db)) as [cb |].
    + destruct (IH cb nA nB (MRPItem.planned_order_release nA) _ _ Hs1 Hn)
        as (r & subA & subB & HrA & HrB & F & Hs2).
      exists r, ([nA] ++ subA), ([nB] ++ subB).
      rewrite <- !add_items_app.
      split; [exact HrA |]. split; [exact HrB |].
      split; [constructor; assumption | exact Hs2].
    + exists (Ok tt), [nA], [nB].
      split; [reflexivity |]. split; [reflexivity |].
      split; [constructor; [exact Hsh | constructor] | exact Hs1].
Qed.

End Again.

Lemma explode_mps_item_run limit mrp_run run line s :
  explode_mps_item limit mrp_run run line s =
  match List.find (active_bom_of (MPSItem.product_id line))
          (DB.bom (pending s)) with
  | None => (Ok tt, s)
  | Some bom =>
      let product := List.find (item_by_id (MPSItem.product_id line))
                       (DB.inventoryitem (pending s)) in
      match calculate_release_date (MPSItem.planned_date line) product
              (MRPRunCreate.lead_time_factor mrp_run) with
      | Raise e => (Raise e, s)
      | Ok release =>
          let n := product_mrp_item (MRPRun.id run) line bom product release
                     (next_id (session_ids s)) in
          process_bom_components limit bom n (MRPRun.id run)
            (MPSItem.planned_date line) (MRPItem.planned_order_release n)
            (MRPRunCreate.lead_time_factor mrp_run)
            (MRPRunCreate.include_safety_stock mrp_run) (add_items s [n])
      end
  end.
Proof.
  unfold explode_mps_item, bind, query_first, lift.
  destruct (List.find _ (DB.bom (pending s))) as [bom |]; [| reflexivity].
  destruct (calculate_release_date _ _ _) as [release | e]; reflexivity.
Qed.

Lemma explode_mps_item_shifted db delta limit mrp_run runA runB line sA sB :
  ahead db delta sA sB ->
  exists r newA newB,
    explode_mps_item limit mrp_run runA line sA = (r, add_items sA newA) /\
    explode_mps_item limit mrp_run runB line sB = (r, add_items sB newB) /\
    Forall2 (shifted delta (MRPRun.id runB)) newA newB /\
    ahead db delta (add_items sA newA) (add_items sB newB).
Proof.
  intros Hs. assert (Hs' := Hs). destruct Hs' as (HA & HB & Hn).
  destruct (catalog_eq _ _ HA) as (HiA & HbA & _).
  destruct (catalog_eq _ _ HB) as (HiB & HbB & _).
  rewrite !explode_mps_item_run, HiA, HiB, HbA, HbB.
  destruct (List.find _ (DB.bom db)) as [bom |].
  2:{ exists (Ok tt), [], []. rewrite !add_items_nil.
      split; [reflexivity |]. split; [reflexivity |].
      split; [constructor | exact Hs]. }
  cbv zeta.
  destruct (calculate_release_date _ _ _) as [release | e].
  2:{ exists (Raise e), [], []. rewrite !add_items_nil.
      split; [reflexivity |]. split; [reflexivity |].
      split; [constructor | exact Hs]. }
  set (nA := product_mrp_item (MRPRun.id runA) line bom _ _ _).
  set (nB := product_mrp_item (MRPRun.id runB) line bom _ _ _).
  assert (Hsh : shifted delta (MRPRun.id runB) nA nB).
  { split; [reflexivity |]. split; [exact Hn |]. split; reflexivity. }
  assert (Hs1 : ahead db delta (add_items sA [nA]) (add_items sB [nB]))
    by (apply ahead_add; [exact Hs | reflexivity | reflexivity]).
  destruct (process_bom_components_shifted db delta (MRPRun.id runB)
              (MRPRun.id runA) (MPSItem.planned_date line)
              (MRPRunCreate.lead_time_factor mrp_run)
              (MRPRunCreate.include_safety_stock mrp_run) limit bom nA nB
              (MRPItem.planned_order_release nA) _ _ Hs1 Hn)
    as (r & subA & subB & HrA & HrB & F & Hs2).
  exists r, ([nA] ++ subA), ([nB] ++ subB).
  rewrite <- !add_items_app.
  split; [exact HrA |]. split; [exact HrB |].
  split; [constructor; assumption | exact Hs2].
Qed.

Lemma create_mrp_run_run recursion_limit utcnow mrp_run s :
  find_mps (pending s) (MRPRunCreate.mps_id mrp_run) <> None ->
  let run := new_run (pending s) utcnow mrp_run in
  create_mrp_run recursion_limit utcnow mrp_run s =
  match for_each (schedule_items (pending s) (MRPRunCreate.mps_id mrp_run))
          (explode_mps_item recursion_limit mrp_run run) (with_new_run s run) with
  | (Ok _, s2) => (Ok run, {| committed := pending s2; pending := pending s2 |})
  | (Raise e, s2) => (Raise e, s2)
  end.
Proof.
  intros Hmps run. unfold create_mrp_run, find_mps in *.
  unfold bind at 1. unfold query_first at 1.
  destruct (List.find _ (DB.mps (pending s))) as [m |] eqn:Hm; [| contradiction].
  apply List.find_some in Hm as [_ Hm]. apply Nat.eqb_eq in Hm.
  unfold bind at 1. unfold add_mrprun at 1. cbv zeta.
  fold (new_run (pending s) utcnow mrp_run). fold run.
  change {| committed := committed s;
            pending := DB.with_mrprun (pending s) (DB.mrprun (pending s) ++ [run]) |}
    with (with_new_run s run).
  unfold bind at 1. unfold query_all at 1. rewrite Hm.
  change (List.filter _ (DB.mpsitem (pending (with_new_run s run))))
    with (schedule_items (pending s) (MRPRunCreate.mps_id mrp_run)).
  unfold bind at 1.
  destruct (for_each _ _ _) as [[[] | e] s2]; reflexivity.
Qed.

Lemma skipn_length_app {A} (l l' : list A) : List.skipn (length l) (l ++ l') = l'.
Proof. induction l as [| x l IH]; [reflexivity | exact IH]. Qed.

(** X12: the same request served again, on the database the first run
    left and whatever the clock, ends well too, under the next run key,
    and writes the same rows once more: row for row the figures of the
    first run, each key and each parent key moved up by the number of
    rows of the run. *)
Theorem run_again recursion_limit utcnow mrp_run db run s' :
  create_mrp_run recursion_limit utcnow mrp_run (get_db db) = (Ok run, s') ->
  forall utcnow',
  exists run' s'',
    create_mrp_run recursion_limit utcnow' mrp_run (get_db (committed s'))
    = (Ok run', s'') /\
    MRPRun.id run' = S (MRPRun.id run) /\
    Forall2 (shifted (length (created_nodes (get_db db) s')) (MRPRun.id run'))
      (created_nodes (get_db db) s')
      (created_nodes (get_db (committed s')) s'').
Proof.
  intros Hrun utcnow'.
  destruct (create_mrp_run_ok _ _ _ _ _ _ Hrun) as (Hmps & _ & Hdb' & K & _).
  destruct (create_mrp_run_loop _ _ _ _ _ _ Hrun) as (s2 & Hnew & _ & Hloop & Hs').
  cbn [pending get_db] in *.
  set (new := created_nodes (get_db db) s') in *.
  set (db' := committed s') in *.
  set (run' := new_run db' utcnow' mrp_run).
  assert (Hs : ahead db (length new) (with_new_run (get_db db) run)
                 (with_new_run (get_db db') run')).
  { split; [reflexivity |]. split; [unfold on_catalog; rewrite Hdb'; reflexivity |].
    unfold session_ids. cbn [with_new_run pending get_db DB.with_mrprun DB.mrpitem].
    rewrite Hdb'. exact (next_id_keyed_after _ _ K). }
  destruct (for_each_shifted db (length new) (MRPRun.id run')
              (schedule_items db (MRPRunCreate.mps_id mrp_run))
              (explode_mps_item recursion_limit mrp_run run)
              (explode_mps_item recursion_limit mrp_run run')
              (fun line sA sB _ H =>
                 explode_mps_item_shifted db (length new) recursion_limit
                   mrp_run run run' line sA sB H) _ _ Hs)
    as (r & newA & newB & HA & HB & F & _).
  rewrite Hloop in HA. injection HA as <- Hs2.
  assert (Hcreated : new = newA).
  { unfold new, created_nodes. rewrite Hs', Hs2. cbn. apply skipn_length_app. }
  assert (Hagain := create_mrp_run_run recursion_limit utcnow' mrp_run (get_db db')).
  cbn [pending get_db] in Hagain. fold run' in Hagain.
  assert (Hlines : schedule_items db' (MRPRunCreate.mps_id mrp_run)
                   = schedule_items db (MRPRunCreate.mps_id mrp_run))
    by (unfold schedule_items; rewrite Hdb'; reflexivity).
  assert (Hmps' : find_mps db' (MRPRunCreate.mps_id mrp_run) <> None)
    by (unfold find_mps; rewrite Hdb'; exact Hmps).
  specialize (Hagain Hmps'). cbv zeta in Hagain. rewrite Hlines, HB in Hagain.
  eexists run', _. split; [exact Hagain |].
  split.
  - unfold run'. cbn [new_run MRPRun.id]. rewrite Hdb', Hnew.
    cbn [DB.with_mrpitem DB.with_mrprun DB.mrprun new_run MRPRun.id].
    rewrite List.map_app. cbn [List.map MRPRun.id]. apply next_id_snoc.
  - rewrite Hcreated in F |- *.
    replace (created_nodes (get_db db') _) with newB; [exact F |].
    unfold created_nodes. cbn. symmetry. apply skipn_length_app.
Qed.

(** The database of the scenario takes a second run: its rows 3 and 4
    repeat the rows 1 and 2. *)
Lemma run_again_witness :
  exists run s',
    create_mrp_run 1000 0 (Scenario.request 1 false) (get_db Scenario.db)
    = (Ok run, s') /\
    exists run' s'',
      create_mrp_run 1000 86400000000 (Scenario.request 1 false)
        (get_db (committed s'))
      = (Ok run', s'') /\
      MRPRun.id run' = S (MRPRun.id run) /\
      Forall2 (shifted (length (created_nodes (get_db Scenario.db) s'))
                 (MRPRun.id run'))
        (created_nodes (get_db Scenario.db) s')
        (created_nodes (get_db (committed s')) s'').
Proof.
  run_request H. exact (run_again _ _ _ _ _ _ H 86400000000).
Defined.

(** ** The side of the release date *)

Lemma round_half_even_Z (x : Q) (k : Z) : (x == inject_Z k)%Q -> round_half_even x = k.
Proof.
  intros H. unfold round_half_even.
  rewrite (Qfloor_comp _ _ H), Qfloor_Z.
  assert (Hlt : ((x - inject_Z k)%Q ?= (1 # 2))%Q = Lt).
  { apply Qlt_alt.
    assert (E : (x - inject_Z k == 0)%Q) by (rewrite H; ring).
    rewrite E. reflexivity. }
  rewrite Hlt. reflexivity.
Qed.

Lemma round_half_even_nonneg (x : Q) : (0 <= x)%Q -> (0 <= round_half_even x)%Z.
Proof.
  intros H. unfold round_half_even.
  assert (Hfl : (0 <= Qfloor x)%Z).
  { change 0%Z with (Qfloor 0). apply Qfloor_resp_le. exact H. }
  destruct (_ ?= _)%Q; [destruct (Z.even _) | |]; lia.
Qed.

Lemma round_half_even_nonpos (x : Q) : (x <= 0)%Q -> (round_half_even x <= 0)%Z.
Proof.
  intros H. destruct (Qlt_le_dec x 0) as [Hneg | Hpos].
  - unfold round_half_even.
    assert (Hfl : (Qfloor x < 0)%Z).
    { assert (Hle := Qfloor_le x).
      assert (Hq : (inject_Z (Qfloor x) < inject_Z 0)%Q)
        by (eapply Qle_lt_trans; [exact Hle | exact Hneg]).
      rewrite <- Zlt_Qlt in Hq. exact Hq. }
    destruct (_ ?= _)%Q; [destruct (Z.even _) | |]; lia.
  - rewrite (round_half_even_Z x 0); [lia |]. apply Qle_antisym; assumption.
Qed.

(** X13: the release date of a row lies on the side of its required date
    that the sign of the request's lead time factor chooses: no later for
    a factor that is not negative, no earlier for one that is not
    positive (nothing keeps a request from a negative factor); and a whole
    number of days away for a factor that is a whole number. *)
Theorem release_date_side recursion_limit utcnow mrp_run s run s' n :
  create_mrp_run recursion_limit utcnow mrp_run s = (Ok run, s') ->
  In n (created_nodes s s') ->
  exists release,
    MRPItem.order_release_date n = Some release /\
    ((0 <= MRPRunCreate.lead_time_factor mrp_run)%Q ->
     (release <= MRPItem.required_date n)%Z) /\
    ((MRPRunCreate.lead_time_factor mrp_run <= 0)%Q ->
     (MRPItem.required_date n <= release)%Z) /\
    (forall days : Z,
       (MRPRunCreate.lead_time_factor mrp_run == inject_Z days)%Q ->
       release = (MRPItem.required_date n - days * 86400000000)%Z).
Proof.
  intros Hrun Hn. eexists.
  split; [exact (order_release_date_created _ _ _ _ _ _ _ Hrun Hn) |].
  unfold timedelta_days.
  set (f := MRPRunCreate.lead_time_factor mrp_run).
  split; [| split].
  - intros Hf.
    assert (H := round_half_even_nonneg (f * inject_Z 86400000000)).
    assert (0 <= f * inject_Z 86400000000)%Q
      by (apply Qmult_le_0_compat; [exact Hf | discriminate]).
    specialize (H H0). revert H.
    generalize (round_half_even (f * inject_Z 86400000000)) (MRPItem.required_date n).
    unfold datetime. clear. intros r d H. lia.
  - intros Hf.
    assert (H := round_half_even_nonpos (f * inject_Z 86400000000)).
    assert (f * inject_Z 86400000000 <= 0)%Q
      by exact (Qmult_le_compat_r f 0 (inject_Z 86400000000) Hf
                  ltac:(discriminate)).
    specialize (H H0). revert H.
    generalize (round_half_even (f * inject_Z 86400000000)) (MRPItem.required_date n).
    unfold datetime. clear. intros r d H. lia.
  - intros days Hdays.
    rewrite (round_half_even_Z _ (days * 86400000000)); [reflexivity |].
    rewrite Hdays, inject_Z_mult. reflexivity.
Qed.

(** With a factor of minus two the row of the worked database is released
    two days after it is required. *)
Lemma release_date_side_witness :
  exists run s',
    create_mrp_run 1000 0 (Scenario.request (-2) false) (get_db Scenario.db)
    = (Ok run, s') /\
    forall n, In n (created_nodes (get_db Scenario.db) s') ->
      MRPItem.order_release_date n
      = Some (MRPItem.required_date n + 2 * 86400000000)%Z.
Proof.
  run_request H. intros n Hn.
  destruct (release_date_side _ _ _ _ _ _ n H Hn) as (release & -> & _ & _ & Hd).
  rewrite (Hd (-2)%Z); [f_equal; lia | reflexivity].
Defined.

(** ** The results of a new run *)

(** The loop of [read_mrp_results] builds one result row for each row of the
    joined query, in order. *)
Lemma hierarchy_step_rows rows :
  forall acc dict,
  exists new,
    fst (List.fold_left hierarchy_step rows (acc, dict)) = acc ++ new /\
    Forall2 (fun r i => i = result_item r (MRPRunResultItem.has_children i))
      rows new.
Proof.
  induction rows as [| [[m code] name] rows IH]; intros acc dict.
  - exists []. rewrite List.app_nil_r. split; [reflexivity | constructor].
  - cbn [List.fold_left]. unfold hierarchy_step at 2.
    match goal with
    | |- context [List.fold_left hierarchy_step rows (acc ++ [?i], ?d)] =>
        destruct (IH (acc ++ [i]) d) as (new & Hnew & F);
        exists (i :: new); rewrite Hnew, <- List.app_assoc;
        split; [reflexivity | constructor; [reflexivity | exact F]]
    end.
Qed.

(** No row is flagged when the rows come by ascending key and every parent
    has a smaller key than its child. *)
Lemma flags_after_none rest :
  forall listed,
    (forall x pid, In x (listed ++ rest) -> MRPItem.parent_id x = Some pid ->
                   pid < MRPItem.id x) ->
    (forall x m, In x listed -> In m rest -> MRPItem.id x <= MRPItem.id m) ->
    StronglySorted (fun a b => MRPItem.id a <= MRPItem.id b) rest ->
    Forall (fun flag => flag = false) (flags_after listed rest).
Proof.
  induction rest as [| m rest IH]; intros listed Hparent Hle Hsorted;
    [constructor |].
  apply StronglySorted_inv in Hsorted as [Hsorted Hm].
  rewrite List.Forall_forall in Hm.
  cbn [flags_after]. constructor.
  - destruct (existsb (child_of m) (m :: listed)) eqn:E; [| reflexivity].
    apply List.existsb_exists in E as (x & Hx & Hc).
    apply child_of_parent_id in Hc.
    assert (Hlt : MRPItem.id m < MRPItem.id x).
    { apply (Hparent x); [| exact Hc]. apply List.in_or_app.
      destruct Hx as [<- | Hx]; [right; left; reflexivity | left; exact Hx]. }
    assert (Hge : MRPItem.id x <= MRPItem.id m).
    { destruct Hx as [<- | Hx]; [lia |]. apply Hle; [exact Hx | left; reflexivity]. }
    lia.
  - apply IH.
    + intros x pid Hx. apply Hparent. apply List.in_or_app.
      apply List.in_app_or in Hx as [[<- | Hx] | Hx].
      * right. left. reflexivity.
      * left. exact Hx.
      * right. right. exact Hx.
    + intros x m' [<- | Hx] Hm'; [exact (Hm m' Hm') |].
      apply Hle; [exact Hx | right; exact Hm'].
    + exact Hsorted.
Qed.

Lemma keyed_sorted (rows : list MRPItem.t) :
  forall first,
    item_ids rows = seq first (length rows) ->
    StronglySorted (fun a b => MRPItem.id a <= MRPItem.id b) rows.
Proof.
  induction rows as [| m rows IH]; intros first Hids; [constructor |].
  cbn in Hids. injection Hids as Hm Hrest. constructor.
  - exact (IH _ Hrest).
  - apply List.Forall_forall. intros x Hx.
    apply (List.in_map MRPItem.id) in Hx. unfold item_ids in Hrest.
    rewrite Hrest in Hx. apply List.in_seq in Hx. lia.
Qed.

Lemma joined_rows db rows x :
  In x (List.map (fun r => fst (fst r)) (joined db rows)) -> In x rows.
Proof.
  intros Hx. apply List.in_map_iff in Hx as ([[m code] name] & <- & Hr).
  apply List.in_flat_map in Hr as (m' & Hm' & Hr).
  apply List.in_map_iff in Hr as (i & Hi & _).
  injection Hi as <- _ _. exact Hm'.
Qed.

Lemma joined_sorted db rows :
  StronglySorted (fun a b => MRPItem.id a <= MRPItem.id b) rows ->
  StronglySorted (fun a b => MRPItem.id a <= MRPItem.id b)
    (List.map (fun r => fst (fst r)) (joined db rows)).
Proof.
  induction rows as [| m rows IH]; intros Hsorted; [constructor |].
  apply StronglySorted_inv in Hsorted as [Hsorted Hm].
  rewrite List.Forall_forall in Hm.
  unfold joined. cbn [List.flat_map]. rewrite List.map_app, List.map_map.
  cbn [fst]. fold (joined db rows).
  induction (List.filter _ (DB.inventoryitem db)) as [| i items IHi];
    [exact (IH Hsorted) |].
  cbn [List.map List.app]. constructor; [exact IHi |].
  apply List.Forall_forall. intros x Hx.
  apply List.in_app_or in Hx as [Hx | Hx].
  - apply List.in_map_iff in Hx as (j & <- & _). lia.
  - apply Hm. exact (joined_rows _ _ _ Hx).
Qed.

Lemma created_parent_before recursion_limit utcnow mrp_run s run s' n pid :
  create_mrp_run recursion_limit utcnow mrp_run s = (Ok run, s') ->
  In n (created_nodes s s') ->
  MRPItem.parent_id n = Some pid -> pid < MRPItem.id n.
Proof.
  intros Hrun Hn Hpid.
  destruct (run_node_created _ _ _ _ _ _ _ Hrun Hn)
    as [(line & bom & _ & _ & release & Hrelease & Heq) | (rd & p & c & item & _ & Hlt & _ & _ & _ & _ & release & Hrelease & Heq)];
    rewrite Heq in Hpid; cbn in Hpid; [discriminate Hpid |].
  injection Hpid as <-. exact Hlt.
Qed.


